From Stdlib Require Import ZArith Ascii Lia.
From stdpp Require Import base gmap strings list sorting.

(** * Marshalling between Go structs and Terraform objects

    A shallow embedding of [internal/reflect/struct.go]: the decode engine
    [Struct] and the encode engine [FromStruct], over the collaborators
    they call but do not implement. *)

#[local] Set Warnings "-register-all".
#[local] Open Scope string_scope.
#[local] Open Scope list_scope.

(** ** Strings: byte-wise order, sorting and joining *)

(** [sort.Strings] orders strings byte by byte; [String.leb] is that order. *)
Definition string_le (s1 s2 : string) : Prop := String.leb s1 s2 = true.

#[global] Instance string_le_dec s1 s2 : Decision (string_le s1 s2).
Proof. unfold string_le. apply _. Defined.

(** [strings.Join(elems, sep)]. *)
Definition Join (elems : list string) (sep : string) : string :=
  String.concat sep elems.

(** Modelled from the spec: [commaSeparatedString] of helpers.go, which is
    not part of the sources at hand.  The Reconciler lists the names of a
    mismatch set "sorted, comma-joined". *)
Definition commaSeparatedString (names : list string) : string :=
  Join (merge_sort string_le names) ", ".

(** [for key := range m]: the keys of a map, each once.  Go leaves the
    order unspecified; the embedding fixes one, and the results below that
    depend on it are shown not to (see [commaSeparatedString_Permutation]). *)
Definition rangeKeys {A} (m : gmap string A) : list string :=
  (map_to_list m).*1.

(** ** Go values as package reflect shows them *)

Inductive Kind : Type := KindBool | KindInt64 | KindString | KindStruct.

(** A struct type lists its fields in declaration order; [Tag] is the value
    of the field's tfsdk key and [Anonymous] marks an embedded field. *)
Inductive GoType : Type :=
  | GoBool
  | GoInt64
  | GoString
  | GoStruct (Name : string) (Fields : list StructField)
with StructField : Type :=
  | mkStructField (Name : string) (Tag : string) (Anonymous : bool)
                  (Typ : GoType).

Definition sfType (f : StructField) : GoType :=
  match f with mkStructField _ _ _ t => t end.

(** The values the engines are run on here: three primitive kinds and
    structs.  A struct value carries its type and one value per declared
    field.  The engines look into no field value: they hand it to the
    dispatcher, or put there what the dispatcher made. *)
Inductive GoValue : Type :=
  | VBool (b : bool)
  | VInt64 (n : Z)
  | VString (s : string)
  | VStruct (typ : GoType) (fields : list GoValue).

(** [v.Type()]. *)
Definition TypeOf (v : GoValue) : GoType :=
  match v with
  | VBool _ => GoBool
  | VInt64 _ => GoInt64
  | VString _ => GoString
  | VStruct typ _ => typ
  end.

(** [t.Kind()]. *)
Definition KindOfType (t : GoType) : Kind :=
  match t with
  | GoBool => KindBool
  | GoInt64 => KindInt64
  | GoString => KindString
  | GoStruct _ _ => KindStruct
  end.

(** [v.Kind()]. *)
Definition KindOf (v : GoValue) : Kind := KindOfType (TypeOf v).

#[global] Instance Kind_eq_dec : EqDecision Kind.
Proof. solve_decision. Defined.

(** [t.String()], used by the [%s] verbs of the error messages. *)
Definition GoType_String (t : GoType) : string :=
  match t with
  | GoBool => "bool"
  | GoInt64 => "int64"
  | GoString => "string"
  | GoStruct n _ => n
  end.

(** Identity of types, which decides whether [Set] may assign. *)
Fixpoint GoType_beq (t1 t2 : GoType) : bool :=
  match t1, t2 with
  | GoBool, GoBool | GoInt64, GoInt64 | GoString, GoString => true
  | GoStruct n1 fs1, GoStruct n2 fs2 =>
      bool_decide (n1 = n2) &&
      (fix fields_beq (l1 l2 : list StructField) : bool :=
         match l1, l2 with
         | [], [] => true
         | mkStructField a1 g1 e1 u1 :: r1, mkStructField a2 g2 e2 u2 :: r2 =>
             bool_decide (a1 = a2) && bool_decide (g1 = g2) &&
             bool_decide (e1 = e2) && GoType_beq u1 u2 && fields_beq r1 r2
         | _, _ => false
         end) fs1 fs2
  | _, _ => false
  end.

(** [reflect.New(t).Elem()]: the zero value of a type. *)
Fixpoint Zero (t : GoType) : GoValue :=
  match t with
  | GoBool => VBool false
  | GoInt64 => VInt64 0
  | GoString => VString ""
  | GoStruct _ fs => VStruct t (map (fun f => Zero (sfType f)) fs)
  end.

(** [v.Field(i)]; Go panics when [v] is no struct or [i] is out of range,
    which is [None] here. *)
Definition Field (v : GoValue) (i : nat) : option GoValue :=
  match v with
  | VStruct _ fs => fs !! i
  | _ => None
  end.

(** Modelled from the spec: [fieldByIndex] of helpers.go, which is not part
    of the sources at hand.  It follows a Field Descriptor's traversal path
    into a record, one [Field] per step. *)
Fixpoint fieldByIndex (v : GoValue) (index : list nat) : option GoValue :=
  match index with
  | [] => Some v
  | i :: rest => f ← Field v i; fieldByIndex f rest
  end.

(** The store behind [structField.Set(x)]: [structField] is the slot of
    [v] at [index], and assigning to it changes [v] there and nowhere
    else. *)
Fixpoint assignAt (v : GoValue) (index : list nat) (x : GoValue)
  : option GoValue :=
  match index with
  | [] => Some x
  | i :: rest =>
      match v with
      | VStruct t fs =>
          f ← fs !! i;
          f' ← assignAt f rest x;
          Some (VStruct t (<[i := f']> fs))
      | _ => None
      end
  end.

(** [structField.Set(x)] on the slot of [v] at [index]; Go panics unless the
    type of [x] is the slot's. *)
Definition SetField (v : GoValue) (index : list nat) (x : GoValue)
  : option GoValue :=
  slot ← fieldByIndex v index;
  if GoType_beq (TypeOf x) (TypeOf slot) then assignAt v index x else None.

(** The result of [typeFields]: the Field Descriptors in declaration order
    and the index of their names. *)
Record field : Type := mkField { field_name : string; field_index : list nat }.

Record structFields : Type := mkStructFields {
  fields_list : list field;
  fields_nameIndex : gmap string nat
}.

(** The names the descriptors carry. *)
Definition fieldNames (sf : structFields) : list string :=
  field_name <$> fields_list sf.

(** Two traversal paths part ways: at some step they name different
    fields, so neither slot lies inside the other. *)
Fixpoint apart (i j : list nat) : bool :=
  match i, j with
  | a :: i', b :: j' => if decide (a = b) then apart i' j' else true
  | _, _ => false
  end.

(** The paths of a list part ways, two by two. *)
Fixpoint allApart (l : list (list nat)) : bool :=
  match l with
  | [] => true
  | i :: rest => forallb (apart i) rest && allApart rest
  end.

(** ** Paths (package path) *)

Inductive PathStep : Type :=
  | PathStepAttributeName (name : string)
  | PathStepElementKeyInt (key : Z)
  | PathStepElementKeyString (key : string).

(** Modelled from the spec: a Path is an immutable, appendable sequence of
    steps; package path is not part of the sources at hand. *)
Definition Path : Type := list PathStep.

Definition AtName (p : Path) (name : string) : Path :=
  p ++ [PathStepAttributeName name].

#[global] Instance PathStep_eq_dec : EqDecision PathStep.
Proof. solve_decision. Defined.

(** A text has a name in it. *)
Definition occursIn (name text : string) : bool :=
  match String.index 0 name text with
  | Some _ => true
  | None => false
  end.

(** A path has a step to the attribute of a name. *)
Definition stepsTo (name : string) (p : Path) : bool :=
  bool_decide (PathStepAttributeName name ∈ p).

(** ** The wire-form value model (package tftypes), at its interface

    [tftypes.Value] keeps its fields private; the engines reach it through
    the operations below only. *)
Class Tftypes : Type := {
  TfType : Type;
  TfValue : Type;
  (** [tftypes.Value{}], what a map of values yields for a key it lacks. *)
  TfZero : TfValue;
  (** [v.Type()]: the type of a value, nil for [tftypes.Value{}]. *)
  ValueType : TfValue -> option TfType;
  (** [t.Is(tftypes.Object{})]. *)
  TypeIsObject : TfType -> bool;
  (** [t.String()]. *)
  TfTypeString : TfType -> string;
  (** [v.As(&fields)] with [fields] a [map[string]tftypes.Value]: the map
      it stores and the error it returns, if any. *)
  As : TfValue -> gmap string TfValue * option string;
  (** [tftypes.NewValue(tftypes.Object{AttributeTypes: types}, values)]. *)
  NewObjectValue : gmap string TfType -> gmap string TfValue -> TfValue
}.

(** A value is an object: it has a type, and that type is an object
    type. *)
Definition IsObject `{Tftypes} (v : TfValue) : bool :=
  match ValueType v with
  | Some t => TypeIsObject t
  | None => false
  end.

(** ** Diagnostics (package diag) *)

Inductive Severity : Type := SeverityError | SeverityWarning.

Section Diagnostics.
Context `{Tftypes}.

Inductive Diagnostic : Type :=
  | DiagIntoIncompatibleType (Val : TfValue) (TargetType : GoType)
                             (Err : string)
  | ErrorDiagnostic (summary detail : string)
  | WarningDiagnostic (summary detail : string)
  | AttributeErrorDiagnostic (p : Path) (summary detail : string)
  | AttributeWarningDiagnostic (p : Path) (summary detail : string)
  | WithPath (p : Path) (d : Diagnostic).

(** Modelled from the spec: the incompatibility diagnostic is fatal, a
    diagnostic wrapped with a path keeps its severity; diags.go and
    package diag are not part of the sources at hand. *)
Fixpoint DiagSeverity (d : Diagnostic) : Severity :=
  match d with
  | DiagIntoIncompatibleType _ _ _ => SeverityError
  | ErrorDiagnostic _ _ => SeverityError
  | WarningDiagnostic _ _ => SeverityWarning
  | AttributeErrorDiagnostic _ _ _ => SeverityError
  | AttributeWarningDiagnostic _ _ _ => SeverityWarning
  | WithPath _ d => DiagSeverity d
  end.

(** A diagnostic names an attribute: in its texts or in its paths. *)
Fixpoint mentions (name : string) (d : Diagnostic) : bool :=
  match d with
  | DiagIntoIncompatibleType _ _ err => occursIn name err
  | ErrorDiagnostic summary detail
  | WarningDiagnostic summary detail =>
      occursIn name summary || occursIn name detail
  | AttributeErrorDiagnostic p summary detail
  | AttributeWarningDiagnostic p summary detail =>
      stepsTo name p || occursIn name summary || occursIn name detail
  | WithPath p d => stepsTo name p || mentions name d
  end.

Definition isError (d : Diagnostic) : bool :=
  match DiagSeverity d with SeverityError => true | SeverityWarning => false end.

(** Modelled from the spec: Diagnostics are an ordered collection,
    accumulated; one holding an error marks the operation failed. *)
Definition Diagnostics : Type := list Diagnostic.

Definition Append (diags new : Diagnostics) : Diagnostics := diags ++ new.

Definition HasError (diags : Diagnostics) : bool := existsb isError diags.

Definition AddAttributeError (diags : Diagnostics) (p : Path)
    (summary detail : string) : Diagnostics :=
  Append diags [AttributeErrorDiagnostic p summary detail].
End Diagnostics.

(** ** The collaborators of the engines

    Package attr, the two per-field dispatchers and the helpers of this
    package that the engines call.  [option AttrType] is an [attr.Type]
    interface value, [None] being nil; likewise [option AttrValue]. *)
Class Collaborators `{Tftypes} : Type := {
  Options : Type;
  AttrType : Type;
  AttrValue : Type;
  TypeWithAttributeTypes : Type;
  (** [typ.(attr.TypeWithAttributeTypes)] on a type that is not nil. *)
  asTypeWithAttributeTypes : AttrType -> option TypeWithAttributeTypes;
  (** [%T] of a type. *)
  TypeName : AttrType -> string;
  TypeWithAttributeTypesName : TypeWithAttributeTypes -> string;
  AttributeTypes : TypeWithAttributeTypes -> gmap string (option AttrType);
  WithAttributeTypes :
    TypeWithAttributeTypes -> gmap string (option AttrType) -> AttrType;
  (** [typ.(xattr.TypeWithValidate)] and the hook it gives. *)
  Validate :
    TypeWithAttributeTypes -> option (TfValue -> Path -> Diagnostics);
  TerraformType : AttrType -> TfType;
  ValueFromTerraform : AttrType -> TfValue -> option AttrValue * option string;
  ToTerraformValue : AttrValue -> TfValue * option string;
  (** The per-field dispatchers. *)
  BuildValue :
    option AttrType -> TfValue -> GoValue -> Options -> Path ->
    GoValue * Diagnostics;
  FromValue : option AttrType -> GoValue -> Path -> option AttrValue * Diagnostics;
  (** Helpers of the package. *)
  typeFields : GoType -> structFields;
  PathString : Path -> string;
  toTerraformValueErrorDiag : string -> Path -> Diagnostic;
  valueFromTerraformErrorDiag : string -> Path -> Diagnostic
}.

(** ** Calls, recorded in the order they are made *)

Section Engine.
Context `{Collaborators}.

Inductive Call : Type :=
  | CallBuildValue (typ : option AttrType) (val : TfValue)
                   (target : GoValue) (opts : Options) (p : Path)
  | CallFromValue (typ : option AttrType) (val : GoValue) (p : Path)
  | CallTerraformType (typ : AttrType)
  | CallToTerraformValue (val : AttrValue)
  | CallValidate (typ : TypeWithAttributeTypes) (val : TfValue) (p : Path)
  | CallValueFromTerraform (typ : AttrType) (val : TfValue).

(** How a call to an engine ends: it returns, or it panics. *)
Inductive Outcome (A : Type) : Type :=
  | Returns (a : A)
  | Panics.
#[global] Arguments Returns {A} a.
#[global] Arguments Panics {A}.

(** A computation: the calls it made, then how it ended. *)
Definition M (A : Type) : Type := list Call * Outcome A.

Definition ret {A} (a : A) : M A := ([], Returns a).

Definition bind {A B} (m : M A) (k : A -> M B) : M B :=
  match m with
  | (log, Returns a) => let '(log', o) := k a in (log ++ log', o)
  | (log, Panics) => (log, Panics)
  end.

Definition panic {A} : M A := ([], Panics).

(** A call to a collaborator, with what it gave back. *)
Definition call {A} (c : Call) (r : A) : M A := ([c], Returns r).

(** An operation of package reflect that panics where it is undefined. *)
Definition orPanic {A} (o : option A) : M A :=
  match o with Some a => ret a | None => panic end.

Definition calls {A} (m : M A) : list Call := m.1.
Definition outcome {A} (m : M A) : Outcome A := m.2.

Notation "'let*' x ':=' m 'in' k" := (bind m (fun x => k))
  (at level 10, x pattern, m at level 100, k at level 200,
   only parsing).

(** [%T] of an [attr.Type] interface value. *)
Definition TypeNameOf (typ : option AttrType) : string :=
  match typ with
  | Some t => TypeName t
  | None => "<nil>"
  end.

Definition newline : string := String (ascii_of_nat 10) EmptyString.

(** How the body of a loop leaves it: by a [return] of the enclosing
    function, or by falling out of the loop with the state it built. *)
Inductive LoopExit (R S : Type) : Type :=
  | Return (r : R)
  | Next (s : S).
#[global] Arguments Return {R S} r.
#[global] Arguments Next {R S} s.

(** *** The decode engine *)

Definition missingTypeDiag (typ : option AttrType) (object : TfValue)
    (target : GoValue) (path : Path) : Diagnostic :=
  WithPath path
    (DiagIntoIncompatibleType object (TypeOf target)
       ("could not find type information for attribute in supplied attr.Type "
        +:+ TypeNameOf typ)).

Section StructFields.
Variables (typ : option AttrType) (object : TfValue) (target : GoValue)
          (opts : Options) (path : Path).
Variables (attrTypes : gmap string (option AttrType))
          (objectFields : gmap string TfValue).

(** The loop of [Struct] over [targetFields.list] (lines 111-130), from
    the head of the fields still to process, with [result] and [diags]
    as they stand. *)
Fixpoint Struct_fields (fields : list field) (result : GoValue)
    (diags : Diagnostics)
  : M (LoopExit (GoValue * Diagnostics) (GoValue * Diagnostics)) :=
  match fields with
  | [] => ret (Next (result, diags))
  | fld :: rest =>
      match attrTypes !! field_name fld with
      | None =>
          ret (Return (target,
                       Append diags [missingTypeDiag typ object target path]))
      | Some attrType =>
          let* structField :=
            orPanic (fieldByIndex result (field_index fld)) in
          let val := default TfZero (objectFields !! field_name fld) in
          let p := AtName path (field_name fld) in
          let* (fieldVal, fieldValDiags) :=
            call (CallBuildValue attrType val structField opts p)
                 (BuildValue attrType val structField opts p) in
          let diags := Append diags fieldValDiags in
          if HasError diags then ret (Return (target, diags))
          else
            let* result :=
              orPanic (SetField result (field_index fld) fieldVal) in
            Struct_fields rest result diags
      end
  end.
End StructFields.

(** The two sentences of the mismatch message (lines 91-97). *)
Definition mismatchSentences (objectMissing targetMissing : list string)
  : list string :=
  let missing := [] in
  let missing :=
    if bool_decide (0 < length objectMissing)
    then missing ++ ["Struct defines fields not found in object: "
                     +:+ commaSeparatedString objectMissing +:+ "."]
    else missing in
  let missing :=
    if bool_decide (0 < length targetMissing)
    then missing ++ ["Object defines fields not found in struct: "
                     +:+ commaSeparatedString targetMissing +:+ "."]
    else missing in
  missing.

Definition mismatchError (objectMissing targetMissing : list string)
  : string :=
  "mismatch between struct and object: "
  +:+ Join (mismatchSentences objectMissing targetMissing) " ".

Definition incompatible (object : TfValue) (target : GoValue) (path : Path)
    (err : string) : Diagnostic :=
  WithPath path (DiagIntoIncompatibleType object (TypeOf target) err).

Definition Struct (typ : option AttrType) (object : TfValue)
    (target : GoValue) (opts : Options) (path : Path)
  : M (GoValue * Diagnostics) :=
  let diags : Diagnostics := [] in
  if bool_decide (KindOf target ≠ KindStruct) then
    ret (target,
         Append diags
           [incompatible object target path
              ("expected a struct type, got "
               +:+ GoType_String (TypeOf target))])
  else
    (* [object.Type()] is nil for [tftypes.Value{}], and [Is] is then
       called on a nil interface. *)
    match ValueType object with
    | None => panic
    | Some objectType =>
        if negb (TypeIsObject objectType) then
          ret (target,
               Append diags
                 [incompatible object target path
                    ("cannot reflect " +:+ TfTypeString objectType
                     +:+ " into a struct, must be an object")])
        else
          match typ ≫= asTypeWithAttributeTypes with
          | None =>
              ret (target,
                   Append diags
                     [incompatible object target path
                        ("cannot reflect object using type information provided by "
                         +:+ TypeNameOf typ +:+ ", " +:+ TypeNameOf typ
                         +:+ " must be an attr.TypeWithAttributeTypes")])
          | Some attrsType =>
              let '(objectFields, err) := As object in
              match err with
              | Some err =>
                  ret (target,
                       Append diags [incompatible object target path err])
              | None =>
                  let targetFields := typeFields (TypeOf target) in
                  let objectMissing :=
                    filter (fun field => objectFields !! field = None)
                           (rangeKeys (fields_nameIndex targetFields)) in
                  let targetMissing :=
                    filter (fun field =>
                              fields_nameIndex targetFields !! field = None)
                           (rangeKeys objectFields) in
                  if bool_decide (0 < length objectMissing)
                     || bool_decide (0 < length targetMissing)
                  then
                    ret (target,
                         Append diags
                           [incompatible object target path
                              (mismatchError objectMissing targetMissing)])
                  else
                    let attrTypes := AttributeTypes attrsType in
                    let result := Zero (TypeOf target) in
                    let* exit :=
                      Struct_fields typ object target opts path attrTypes
                        objectFields (fields_list targetFields) result
                        diags in
                    match exit with
                    | Return r => ret r
                    | Next (result, diags) => ret (result, diags)
                    end
              end
          end
    end.

(** *** The encode engine *)

Definition conversionErrorDetail : string :=
  "An unexpected error was encountered trying to convert from struct value. This is always an error in the provider. Please report the following to the provider developer:"
  +:+ newline +:+ newline.

Definition missingTypeError (typ : TypeWithAttributeTypes) (p : Path)
  : string :=
  "couldn't find type information for attribute at "
  +:+ PathString p +:+ " in supplied attr.Type "
  +:+ TypeWithAttributeTypesName typ.

(** What the loop of [FromStruct] has built: [diags], [objTypes] and
    [objValues]. *)
Definition Assembly : Type :=
  Diagnostics * gmap string TfType * gmap string TfValue.

Section FromStructFields.
Variables (typ : TypeWithAttributeTypes) (val : GoValue) (path : Path).
Variable attrTypes : gmap string (option AttrType).

(** The loop of [FromStruct] over [valFields.list] (lines 151-189),
    from the head of the fields still to process. *)
Fixpoint FromStruct_fields (fields : list field) (diags : Diagnostics)
    (objTypes : gmap string TfType) (objValues : gmap string TfValue)
  : M (LoopExit (option AttrValue * Diagnostics) Assembly) :=
  match fields with
  | [] => ret (Next (diags, objTypes, objValues))
  | fld :: rest =>
      let p := AtName path (field_name fld) in
      let* fieldValue := orPanic (fieldByIndex val (field_index fld)) in
      let declared := default None (attrTypes !! field_name fld) in
      let* (attrVal, attrValDiags) :=
        call (CallFromValue declared fieldValue p)
             (FromValue declared fieldValue p) in
      let diags := Append diags attrValDiags in
      if HasError diags then ret (Return (None, diags))
      else
        match attrTypes !! field_name fld with
        | None | Some None =>
            ret (Return
                   (None,
                    AddAttributeError diags p "Value Conversion Error"
                      (conversionErrorDetail +:+ missingTypeError typ p)))
        | Some (Some attrType) =>
            let* tfType :=
              call (CallTerraformType attrType) (TerraformType attrType) in
            let objTypes := <[field_name fld := tfType]> objTypes in
            let* attrVal := orPanic attrVal in
            let* (tfObjVal, err) :=
              call (CallToTerraformValue attrVal)
                   (ToTerraformValue attrVal) in
            match err with
            | Some err =>
                ret (Return
                       (None, diags ++ [toTerraformValueErrorDiag err p]))
            | None =>
                let record (diags : Diagnostics) :=
                  let objValues :=
                    <[field_name fld := tfObjVal]> objValues in
                  FromStruct_fields rest diags objTypes objValues in
                match Validate typ with
                | Some validate =>
                    let* validateDiags :=
                      call (CallValidate typ tfObjVal p)
                           (validate tfObjVal p) in
                    let diags := Append diags validateDiags in
                    if HasError diags then ret (Return (None, diags))
                    else record diags
                | None => record diags
                end
            end
        end
  end.

(** What follows the loop (lines 191-209): the object is assembled,
    validated when the type has the hook, and rebuilt by the type. *)
Definition FromStruct_finish (diags : Diagnostics)
    (objTypes : gmap string TfType) (objValues : gmap string TfValue)
  : M (option AttrValue * Diagnostics) :=
  let tfVal := NewObjectValue objTypes objValues in
  let rebuild (diags : Diagnostics) : M (option AttrValue * Diagnostics) :=
    let retType := WithAttributeTypes typ attrTypes in
    let* (r, err) :=
      call (CallValueFromTerraform retType tfVal)
           (ValueFromTerraform retType tfVal) in
    match err with
    | Some err => ret (None, diags ++ [valueFromTerraformErrorDiag err path])
    | None => ret (r, diags)
    end in
  match Validate typ with
  | Some validate =>
      let* validateDiags :=
        call (CallValidate typ tfVal path) (validate tfVal path) in
      let diags := Append diags validateDiags in
      if HasError diags then ret (None, diags) else rebuild diags
  | None => rebuild diags
  end.
End FromStructFields.

Definition FromStruct (typ : TypeWithAttributeTypes) (val : GoValue)
    (path : Path) : M (option AttrValue * Diagnostics) :=
  let diags : Diagnostics := [] in
  let objTypes : gmap string TfType := ∅ in
  let objValues : gmap string TfValue := ∅ in
  let valFields := typeFields (TypeOf val) in
  let attrTypes := AttributeTypes typ in
  let* exit :=
    FromStruct_fields typ val path attrTypes (fields_list valFields)
      diags objTypes objValues in
  match exit with
  | Return r => ret r
  | Next (diags, objTypes, objValues) =>
      FromStruct_finish typ path attrTypes diags objTypes objValues
  end.

(** *** Notions the properties below are stated with *)

(** A computation that made the calls [log] first and went on as [m]. *)
Definition after {A} (log : list Call) (m : M A) : M A := (log ++ m.1, m.2).

(** How [Struct] leaves its loop. *)
Definition Struct_exit
    (exit : LoopExit (GoValue * Diagnostics) (GoValue * Diagnostics))
  : M (GoValue * Diagnostics) :=
  match exit with
  | Return r => ret r
  | Next (result, diags) => ret (result, diags)
  end.

(** How [FromStruct] leaves its loop. *)
Definition FromStruct_exit (typ : TypeWithAttributeTypes) (path : Path)
    (exit : LoopExit (option AttrValue * Diagnostics) Assembly)
  : M (option AttrValue * Diagnostics) :=
  match exit with
  | Return r => ret r
  | Next (diags, objTypes, objValues) =>
      FromStruct_finish typ path (AttributeTypes typ) diags objTypes objValues
  end.

(** Inside the loop the type rebuilds nothing, and the hook is called at
    paths below the one [FromStruct] was given. *)
Definition inLoop (path : Path) (c : Call) : Prop :=
  match c with
  | CallValueFromTerraform _ _ => False
  | CallValidate _ _ p => p ≠ path
  | _ => True
  end.


(** A field of the object with the fields [objectFields] survives the
    round trip through the two dispatchers, the other way round: the
    directory declares a type for it, [BuildValue] makes a field value of
    its wire value, for the slot of a fresh record of the type of
    [target], and [FromValue] gives that field value the same wire value
    again, without an error of its own or of the hook. *)
Definition fieldComesBack (typ : TypeWithAttributeTypes)
    (objectFields : gmap string TfValue) (target : GoValue)
    (opts : Options) (path : Path) (fld : field) : Prop :=
  exists (attrType : AttrType) (w : TfValue) (slot : GoValue)
         (attrVal : AttrValue),
    let p := AtName path (field_name fld) in
    let fv := (BuildValue (Some attrType) w slot opts p).1 in
    AttributeTypes typ !! field_name fld = Some (Some attrType) /\
    objectFields !! field_name fld = Some w /\
    fieldByIndex (Zero (TypeOf target)) (field_index fld) = Some slot /\
    (FromValue (Some attrType) fv p).1 = Some attrVal /\
    HasError (FromValue (Some attrType) fv p).2 = false /\
    ToTerraformValue attrVal = (w, None) /\
    HasError (match Validate typ with
              | Some validate => validate w p
              | None => []
              end) = false.

(** What the collaborator reported at a recorded call: the diagnostics of
    a dispatcher or of the validation hook; the other calls give none. *)
Definition reported (c : Call) : Diagnostics :=
  match c with
  | CallBuildValue typ val target opts p =>
      (BuildValue typ val target opts p).2
  | CallFromValue typ val p => (FromValue typ val p).2
  | CallValidate typ val p =>
      match Validate typ with
      | Some validate => validate val p
      | None => []
      end
  | _ => []
  end.

(** The calls whose diagnostics the engines append to their own: those
    to the dispatchers and to the validation hook. *)
Definition reports (c : Call) : bool :=
  match c with
  | CallBuildValue _ _ _ _ _ | CallFromValue _ _ _ | CallValidate _ _ _ =>
      true
  | _ => false
  end.
End Engine.

#[global] Arguments bind : simpl never.
#[global] Arguments ret : simpl never.
#[global] Arguments call : simpl never.
#[global] Arguments panic : simpl never.
#[global] Arguments orPanic : simpl never.

(** ** A small provider: concrete collaborators to run the engines on *)

Module Demo.

(** Wire-form types and values. *)
Inductive ty : Type :=
  | WBool
  | WNumber
  | WString
  | WObject (attrs : gmap string ty).

Inductive wire : Type :=
  | WireZero
  | WireNull (t : ty)
  | WireUnknown (t : ty)
  | WireBool (b : bool)
  | WireNumber (n : Z)
  | WireString (s : string)
  | WireObject (types : gmap string ty) (values : gmap string wire).

(** [WireZero] is [tftypes.Value{}]: it has no type. *)
Definition wireType (v : wire) : option ty :=
  match v with
  | WireZero => None
  | WireNull t | WireUnknown t => Some t
  | WireBool _ => Some WBool
  | WireNumber _ => Some WNumber
  | WireString _ => Some WString
  | WireObject types _ => Some (WObject types)
  end.

Definition tyIsObject (t : ty) : bool :=
  match t with
  | WObject _ => true
  | _ => false
  end.

Definition tyString (t : ty) : string :=
  match t with
  | WBool => "tftypes.Bool"
  | WNumber => "tftypes.Number"
  | WString => "tftypes.String"
  | WObject _ => "tftypes.Object"
  end.

Definition wireAs (v : wire) : gmap string wire * option string :=
  match v with
  | WireObject _ values => (values, None)
  | WireNull (WObject _) => (∅, None)
  | WireUnknown _ => (∅, Some "unmarshaling unknown values is not supported")
  | _ => (∅, Some "can't unmarshal into map[string]tftypes.Value")
  end.

#[global] Instance tftypes : Tftypes := {|
  TfType := ty;
  TfValue := wire;
  TfZero := WireZero;
  ValueType := wireType;
  TypeIsObject := tyIsObject;
  TfTypeString := tyString;
  As := wireAs;
  NewObjectValue := WireObject
|}.

(** Schema types.  An object type may rebuild values strictly (the
    attributes of the value must be its own) or not, and may implement
    the validation hook, which then rejects the values at the paths it
    lists. *)
Inductive schema : Type :=
  | BoolType
  | NumberType
  | StringType
  | ObjectType (strict : bool) (rejects : option (list Path))
               (attrs : gmap string (option schema)).

Record objectType : Type := mkObjectType {
  ot_strict : bool;
  ot_rejects : option (list Path);
  ot_attrs : gmap string (option schema)
}.

Definition schemaName (s : schema) : string :=
  match s with
  | BoolType => "types.BoolType"
  | NumberType => "types.NumberType"
  | StringType => "types.StringType"
  | ObjectType _ _ _ => "types.ObjectType"
  end.

Definition rejected (p : Path) : Diagnostic :=
  AttributeErrorDiagnostic p "Invalid Value" "the value was rejected".

Definition demoValidate (o : objectType)
  : option (wire -> Path -> Diagnostics) :=
  match ot_rejects o with
  | Some ps => Some (fun _ p => if bool_decide (p ∈ ps) then [rejected p] else [])
  | None => None
  end.

Definition demoTerraformType (s : schema) : ty :=
  match s with
  | BoolType => WBool
  | NumberType => WNumber
  | StringType => WString
  | ObjectType _ _ _ => WObject ∅
  end.

Definition demoValueFromTerraform (s : schema) (v : wire)
  : option wire * option string :=
  match s, v with
  | ObjectType true _ attrs, WireObject types _ =>
      if bool_decide (dom types = dom attrs) then (Some v, None)
      else (None, Some "unexpected attributes")
  | _, _ => (Some v, None)
  end.

Definition conversionError (p : Path) (detail : string) : Diagnostic :=
  AttributeErrorDiagnostic p "Value Conversion Error" detail.

(** Decoding a primitive into a slot of the matching kind. *)
Definition demoBuildValue (typ : option schema) (val : wire)
    (target : GoValue) (opts : unit) (p : Path) : GoValue * Diagnostics :=
  match typ, val, target with
  | Some BoolType, WireBool b, VBool _ => (VBool b, [])
  | Some NumberType, WireNumber n, VInt64 _ => (VInt64 n, [])
  | Some StringType, WireString s, VString _ => (VString s, [])
  | _, _, _ => (target, [conversionError p "cannot reflect the value into the target"])
  end.

(** Encoding a primitive.  A string meets no declared type on its way (it
    is handed over as it is); the other kinds need theirs. *)
Definition demoFromValue (typ : option schema) (val : GoValue) (p : Path)
  : option wire * Diagnostics :=
  match typ, val with
  | Some BoolType, VBool b => (Some (WireBool b), [])
  | Some NumberType, VInt64 n => (Some (WireNumber n), [])
  | Some StringType, VString s => (Some (WireString s), [])
  | None, VString s => (Some (WireString s), [])
  | _, _ => (None, [conversionError p "cannot use the value with the declared type"])
  end.

(** Modelled from the spec: the Field Mapper ([typeFields] of helpers.go,
    which is not part of the sources at hand).  A field opted out with
    the tag "-" is left out, the tagged fields of an embedded struct are
    promoted with their paths composed, any other field gives its tag
    and its position. *)
Fixpoint mapFields (t : GoType) : list field :=
  match t with
  | GoStruct _ fs =>
      (fix go (i : nat) (l : list StructField) : list field :=
         match l with
         | [] => []
         | mkStructField _ tag anonymous ft :: rest =>
             (if bool_decide (tag = "-") then []
              else if anonymous
                   then (fun f => mkField (field_name f) (i :: field_index f))
                          <$> mapFields ft
                   else [mkField tag [i]])
             ++ go (S i) rest
         end) 0 fs
  | _ => []
  end.

Definition indexNames (l : list field) : gmap string nat :=
  list_to_map (imap (fun i f => (field_name f, i)) l).

Definition demoTypeFields (t : GoType) : structFields :=
  let l := mapFields t in mkStructFields l (indexNames l).

Definition stepString (s : PathStep) : string :=
  match s with
  | PathStepAttributeName n => n
  | PathStepElementKeyInt _ => "[int]"
  | PathStepElementKeyString k => k
  end.

#[global] Instance provider : Collaborators := {|
  Options := unit;
  AttrType := schema;
  AttrValue := wire;
  TypeWithAttributeTypes := objectType;
  asTypeWithAttributeTypes s :=
    match s with
    | ObjectType strict rejects attrs => Some (mkObjectType strict rejects attrs)
    | _ => None
    end;
  TypeName := schemaName;
  TypeWithAttributeTypesName _ := "types.ObjectType";
  AttributeTypes := ot_attrs;
  WithAttributeTypes o attrs := ObjectType (ot_strict o) (ot_rejects o) attrs;
  Validate := demoValidate;
  TerraformType := demoTerraformType;
  ValueFromTerraform := demoValueFromTerraform;
  ToTerraformValue v := (v, None);
  BuildValue := demoBuildValue;
  FromValue := demoFromValue;
  typeFields := demoTypeFields;
  PathString p := Join (stepString <$> p) ".";
  toTerraformValueErrorDiag err p := conversionError p err;
  valueFromTerraformErrorDiag err p := conversionError p err
|}.

(** The record types of the examples. *)

(** [struct { Name string; Age int64 }], tagged name and age. *)
Definition Person : GoType :=
  GoStruct "Person"
    [mkStructField "Name" "name" false GoString;
     mkStructField "Age" "age" false GoInt64].

(** [struct { Name string; Extra string }], tagged name and extra. *)
Definition WithExtra : GoType :=
  GoStruct "WithExtra"
    [mkStructField "Name" "name" false GoString;
     mkStructField "Extra" "extra" false GoString].

(** [struct { Name string; Cache int64 }], the second field opted out. *)
Definition Cached : GoType :=
  GoStruct "Cached"
    [mkStructField "Name" "name" false GoString;
     mkStructField "Cache" "-" false GoInt64].

(** [struct { Person; Admin bool }], the first field embedded. *)
Definition Account : GoType :=
  GoStruct "Account"
    [mkStructField "Person" "" true Person;
     mkStructField "Admin" "admin" false GoBool].

Definition root : Path := [].

Definition atName (name : string) : Path := AtName root name.

(** [struct { Name string; Extra string; Beta string }], all three tagged. *)
Definition Wide : GoType :=
  GoStruct "Wide"
    [mkStructField "Name" "name" false GoString;
     mkStructField "Extra" "extra" false GoString;
     mkStructField "Beta" "beta" false GoString].

(** [struct { Count int64 }], tagged count. *)
Definition Counter : GoType :=
  GoStruct "Counter" [mkStructField "Count" "count" false GoInt64].

(** The directories of the examples. *)

Definition nameAttrs : gmap string (option schema) :=
  <["name" := Some StringType]> ∅.

Definition personAttrs : gmap string (option schema) :=
  <["age" := Some NumberType]> nameAttrs.

Definition accountAttrs : gmap string (option schema) :=
  <["admin" := Some BoolType]> personAttrs.

(** The attributes of a person and one more, zulu. *)
Definition zuluAttrs : gmap string (option schema) :=
  <["zulu" := Some BoolType]> personAttrs.

(** A directory that declares name a number. *)
Definition numberAttrs : gmap string (option schema) :=
  <["name" := Some NumberType]> ∅.

Definition accountSchema (rejects : option (list Path)) : objectType :=
  mkObjectType true rejects accountAttrs.

Definition accountType : option schema :=
  Some (ObjectType true None accountAttrs).

Definition personType : option schema :=
  Some (ObjectType true None personAttrs).

(** The records and the objects of the examples. *)

Definition ana : GoValue := VStruct Person [VString "Ana"; VInt64 30].

Definition anaObject : wire :=
  WireObject (<["name" := WString]> (<["age" := WNumber]> ∅))
             (<["name" := WireString "Ana"]> (<["age" := WireNumber 30]> ∅)).

Definition eve : GoValue :=
  VStruct Account [VStruct Person [VString "Eve"; VInt64 41]; VBool true].

Definition eveTypes : gmap string ty :=
  <["name" := WString]> (<["age" := WNumber]> (<["admin" := WBool]> ∅)).

Definition eveValues : gmap string wire :=
  <["name" := WireString "Eve"]>
    (<["age" := WireNumber 41]> (<["admin" := WireBool true]> ∅)).

Definition eveObject : wire := WireObject eveTypes eveValues.

(** The same object, but for its age, a string. *)
Definition oddObject : wire :=
  WireObject eveTypes (<["age" := WireString "forty"]> eveValues).

(** An object with the keys name, age and zulu. *)
Definition zuluObject : wire :=
  WireObject
    (<["name" := WString]> (<["age" := WNumber]> (<["zulu" := WBool]> ∅)))
    (<["name" := WireString "Ana"]>
       (<["age" := WireNumber 30]> (<["zulu" := WireBool true]> ∅))).

(** An object with the key name alone. *)
Definition nameObject : wire :=
  WireObject (<["name" := WString]> ∅) (<["name" := WireString "Ana"]> ∅).

(** An object with the keys name and extra. *)
Definition extraObject : wire :=
  WireObject
    (<["name" := WString]> (<["extra" := WString]> ∅))
    (<["name" := WireString "Ana"]> (<["extra" := WireString "more"]> ∅)).

Definition anaWithExtra : GoValue :=
  VStruct WithExtra [VString "Ana"; VString "more"].

Definition anaCached : GoValue := VStruct Cached [VString "Ana"; VInt64 7].

Definition seven : GoValue := VStruct Counter [VInt64 7].

(** The descriptors of an account. *)
Definition nameField : field := mkField "name" [0; 0].
Definition ageField : field := mkField "age" [0; 1].
Definition adminField : field := mkField "admin" [1].

(** The calls of one turn of the encode loop, for a type with the hook. *)
Definition eveTurn (typ : objectType) (declared : schema)
    (fieldValue : GoValue) (tfObjVal : wire) (name : string) : list Call :=
  [CallFromValue (Some declared) fieldValue (atName name);
   CallTerraformType declared;
   CallToTerraformValue tfObjVal;
   CallValidate typ tfObjVal (atName name)].

(** A struct without fields, and one with a single flag. *)
Definition Empty : GoType := GoStruct "Empty" [].

Definition Flag : GoType :=
  GoStruct "Flag" [mkStructField "On" "on" false GoBool].

Definition flagAttrs : gmap string (option schema) :=
  <["on" := Some BoolType]> ∅.

(** The attributes of a person, but with no type under age. *)
Definition untypedAgeAttrs : gmap string (option schema) :=
  <["age" := None]> nameAttrs.

(** The descriptors of a person. *)
Definition personName : field := mkField "name" [0].
Definition personAge : field := mkField "age" [1].

(** A careless provider.  Its dispatchers decode every number into a
    string, encode a boolean into no value at all, and encode a number
    into a value that has no wire form. *)
Definition carelessBuildValue (typ : option schema) (val : wire)
    (target : GoValue) (opts : unit) (p : Path) : GoValue * Diagnostics :=
  match typ, val with
  | Some NumberType, WireNumber _ => (VString "a number", [])
  | _, _ => demoBuildValue typ val target opts p
  end.

Definition carelessFromValue (typ : option schema) (val : GoValue) (p : Path)
  : option wire * Diagnostics :=
  match typ, val with
  | Some BoolType, VBool _ => (None, [])
  | Some NumberType, VInt64 _ => (Some (WireUnknown WNumber), [])
  | _, _ => demoFromValue typ val p
  end.

Definition carelessToTerraformValue (v : wire) : wire * option string :=
  match v with
  | WireUnknown _ => (WireZero, Some "the value has no wire form")
  | _ => (v, None)
  end.

(** A talkative provider.  Its dispatchers add a warning to what they
    report, at the path they are called with, and every object type has
    the validation hook, which reports a warning of its own. *)
Definition noted (p : Path) : Diagnostic :=
  AttributeWarningDiagnostic p "Deprecated" "the attribute is deprecated".

Definition looked (p : Path) : Diagnostic :=
  AttributeWarningDiagnostic p "Checked" "the value was looked at".

Definition talkativeBuildValue (typ : option schema) (val : wire)
    (target : GoValue) (opts : unit) (p : Path) : GoValue * Diagnostics :=
  let '(v, reported) := demoBuildValue typ val target opts p in
  (v, noted p :: reported).

Definition talkativeFromValue (typ : option schema) (val : GoValue) (p : Path)
  : option wire * Diagnostics :=
  let '(v, reported) := demoFromValue typ val p in
  (v, noted p :: reported).

Definition talkative : Collaborators := {|
  Options := unit;
  AttrType := schema;
  AttrValue := wire;
  TypeWithAttributeTypes := objectType;
  asTypeWithAttributeTypes s :=
    match s with
    | ObjectType strict rejects attrs => Some (mkObjectType strict rejects attrs)
    | _ => None
    end;
  TypeName := schemaName;
  TypeWithAttributeTypesName _ := "types.ObjectType";
  AttributeTypes := ot_attrs;
  WithAttributeTypes o attrs := ObjectType (ot_strict o) (ot_rejects o) attrs;
  Validate _ := Some (fun _ p => [looked p]);
  TerraformType := demoTerraformType;
  ValueFromTerraform := demoValueFromTerraform;
  ToTerraformValue v := (v, None);
  BuildValue := talkativeBuildValue;
  FromValue := talkativeFromValue;
  typeFields := demoTypeFields;
  PathString p := Join (stepString <$> p) ".";
  toTerraformValueErrorDiag err p := conversionError p err;
  valueFromTerraformErrorDiag err p := conversionError p err
|}.

Definition careless : Collaborators := {|
  Options := unit;
  AttrType := schema;
  AttrValue := wire;
  TypeWithAttributeTypes := objectType;
  asTypeWithAttributeTypes s :=
    match s with
    | ObjectType strict rejects attrs => Some (mkObjectType strict rejects attrs)
    | _ => None
    end;
  TypeName := schemaName;
  TypeWithAttributeTypesName _ := "types.ObjectType";
  AttributeTypes := ot_attrs;
  WithAttributeTypes o attrs := ObjectType (ot_strict o) (ot_rejects o) attrs;
  Validate := demoValidate;
  TerraformType := demoTerraformType;
  ValueFromTerraform := demoValueFromTerraform;
  ToTerraformValue := carelessToTerraformValue;
  BuildValue := carelessBuildValue;
  FromValue := carelessFromValue;
  typeFields := demoTypeFields;
  PathString p := Join (stepString <$> p) ".";
  toTerraformValueErrorDiag err p := conversionError p err;
  valueFromTerraformErrorDiag err p := conversionError p err
|}.
End Demo.

(** * Properties *)

(** ** The order on names and the listing of a mismatch set *)

Lemma string_compare_le_trans s1 s2 s3 :
  String.compare s1 s2 <> Gt -> String.compare s2 s3 <> Gt ->
  String.compare s1 s3 <> Gt.
Proof.
  revert s2 s3. induction s1 as [|a s1 IH]; intros [|b s2] [|c s3]; simpl;
    try congruence.
  unfold Ascii.compare.
  destruct (N.compare_spec (N_of_ascii a) (N_of_ascii b)) as [E1|E1|E1],
           (N.compare_spec (N_of_ascii b) (N_of_ascii c)) as [E2|E2|E2],
           (N.compare_spec (N_of_ascii a) (N_of_ascii c)) as [E3|E3|E3];
    try congruence; try lia.
  apply IH.
Qed.

#[global] Instance string_le_trans : Transitive string_le.
Proof.
  intros s1 s2 s3. unfold string_le, String.leb. intros H1 H2.
  pose proof (string_compare_le_trans s1 s2 s3) as H.
  destruct (String.compare s1 s2), (String.compare s2 s3),
    (String.compare s1 s3); try done; exfalso; apply H; congruence.
Qed.

#[global] Instance string_le_total : Total string_le.
Proof. intros s1 s2. apply String.leb_total. Qed.

#[global] Instance string_le_antisym : AntiSymm (=) string_le.
Proof. intros s1 s2. apply String.leb_antisym. Qed.

Lemma merge_sort_string_Permutation (l1 l2 : list string) :
  l1 ≡ₚ l2 -> merge_sort string_le l1 = merge_sort string_le l2.
Proof.
  intros Hp. apply (Sorted_unique string_le).
  - apply Sorted_merge_sort, _.
  - apply Sorted_merge_sort, _.
  - by rewrite !merge_sort_Permutation.
Qed.

(** The listing does not depend on the order in which Go ranges over the
    map the names come from. *)
Lemma commaSeparatedString_Permutation (l1 l2 : list string) :
  l1 ≡ₚ l2 -> commaSeparatedString l1 = commaSeparatedString l2.
Proof.
  intros Hp. unfold commaSeparatedString.
  by rewrite (merge_sort_string_Permutation l1 l2).
Qed.

(** The listing is the names in increasing order, joined. *)
Lemma commaSeparatedString_sorted (names : list string) :
  exists sorted : list string,
    sorted ≡ₚ names /\ Sorted string_le sorted /\
    commaSeparatedString names = Join sorted ", ".
Proof.
  exists (merge_sort string_le names). split; [|split].
  - apply merge_sort_Permutation.
  - apply Sorted_merge_sort, _.
  - reflexivity.
Qed.

Lemma NoDup_rangeKeys {A} (m : gmap string A) : NoDup (rangeKeys m).
Proof. apply NoDup_fst_map_to_list. Qed.

Lemma elem_of_rangeKeys {A} (m : gmap string A) k :
  k ∈ rangeKeys m <-> k ∈ dom m.
Proof.
  unfold rangeKeys. rewrite elem_of_dom, list_elem_of_fmap. split.
  - intros [[k' v] [-> Hin]]. apply elem_of_map_to_list in Hin. by exists v.
  - intros [v Hv]. exists (k, v). split; [done|]. by apply elem_of_map_to_list.
Qed.

(** The keys of one map that another lacks, as the two loops of lines
    80-89 collect them. *)
Lemma missing_Permutation {A B} (m1 : gmap string A) (m2 : gmap string B) :
  filter (fun k => m2 !! k = None) (rangeKeys m1)
  ≡ₚ elements (dom m1 ∖ dom m2).
Proof.
  apply NoDup_Permutation.
  - apply NoDup_filter, NoDup_rangeKeys.
  - apply NoDup_elements.
  - intros k. rewrite list_elem_of_filter, elem_of_rangeKeys, elem_of_elements,
      elem_of_difference, not_elem_of_dom. tauto.
Qed.

(** ** Slots of a record *)

Lemma apart_sym i j : apart i j = apart j i.
Proof.
  revert j. induction i as [|a i IH]; intros [|b j]; simpl; try done.
  repeat case_decide; try done; try congruence. 
Qed.


Lemma fieldByIndex_assignAt v index x v' :
  assignAt v index x = Some v' -> fieldByIndex v' index = Some x.
Proof.
  revert v v'. induction index as [|i rest IH]; intros v v' Hset; simpl in *.
  - congruence.
  - destruct v as [| | |t fs]; try done.
    destruct (fs !! i) as [f|] eqn:Hf; simpl in *; [|done].
    destruct (assignAt f rest x) as [f'|] eqn:Hf'; simpl in *; [|done].
    injection Hset as <-. simpl.
    rewrite list_lookup_insert_eq by (by eapply lookup_lt_Some). simpl.
    by eapply IH.
Qed.

Lemma fieldByIndex_assignAt_apart v index x v' other :
  assignAt v index x = Some v' -> apart index other = true ->
  fieldByIndex v' other = fieldByIndex v other.
Proof.
  revert v v' other.
  induction index as [|i rest IH]; intros v v' [|j other] Hset Hapart;
    simpl in *; try done.
  destruct v as [| | |t fs]; try done.
  destruct (fs !! i) as [f|] eqn:Hf; simpl in *; [|done].
  destruct (assignAt f rest x) as [f'|] eqn:Hf'; simpl in *; [|done].
  injection Hset as <-. simpl.
  case_decide as Hij.
  - subst j. rewrite list_lookup_insert_eq by (by eapply lookup_lt_Some).
    rewrite Hf. simpl. by eapply IH.
  - by rewrite list_lookup_insert_ne.
Qed.

Fixpoint GoType_beq_refl (t : GoType) : GoType_beq t t = true.
Proof.
  destruct t as [| | |n fs]; simpl; try reflexivity.
  rewrite bool_decide_eq_true_2 by done. simpl.
  induction fs as [|[a g e u] fs IH]; [reflexivity|].
  rewrite !bool_decide_eq_true_2 by done. simpl.
  rewrite (GoType_beq_refl u). simpl. exact IH.
Qed.

Fixpoint GoType_beq_eq (t1 t2 : GoType) {struct t1} :
  GoType_beq t1 t2 = true -> t1 = t2.
Proof.
  destruct t1 as [| | |n1 fs1], t2 as [| | |n2 fs2]; simpl; try done.
  intros [Hn Hfs]%andb_true_iff. apply bool_decide_eq_true in Hn. subst n2.
  f_equal. revert fs2 Hfs.
  induction fs1 as [|[a1 g1 e1 u1] fs1 IH]; intros [|[a2 g2 e2 u2] fs2] Hfs;
    try done.
  apply andb_true_iff in Hfs as [Hfs Hrest].
  apply andb_true_iff in Hfs as [Hfs Hu].
  apply andb_true_iff in Hfs as [Hfs He].
  apply andb_true_iff in Hfs as [Ha Hg].
  apply bool_decide_eq_true in Ha, Hg, He. subst.
  rewrite (GoType_beq_eq u1 u2 Hu). f_equal. by apply IH.
Qed.

Lemma TypeOf_Zero t : TypeOf (Zero t) = t.
Proof. by destruct t. Qed.

Lemma allApart_cons (i : list nat) (l : list (list nat)) :
  allApart (i :: l) = true ->
  (forall j, j ∈ l -> apart i j = true) /\ allApart l = true.
Proof.
  simpl. intros [Hi Hl]%andb_true_iff. split; [|done].
  intros j Hj. rewrite forallb_forall in Hi. apply Hi.
  by apply list_elem_of_In.
Qed.

Lemma TypeOf_SetField (v : GoValue) (index : list nat) (x v' : GoValue) :
  SetField v index x = Some v' -> TypeOf v' = TypeOf v.
Proof.
  unfold SetField. destruct (fieldByIndex v index) as [slot|] eqn:Hslot;
    simpl; [|done].
  destruct (GoType_beq (TypeOf x) (TypeOf slot)) eqn:Hty; [|done].
  apply GoType_beq_eq in Hty. destruct index as [|i rest]; simpl in *.
  - intros [= <-]. congruence.
  - destruct v as [| | |t fs]; try done.
    destruct (fs !! i) as [f|]; simpl; [|done].
    destruct (assignAt f rest x); simpl; [|done]. by intros [= <-].
Qed.

(** Two facts on sets of names, for the maps the encode loop fills. *)
Lemma names_nil (a : gset string) : a = a ∪ list_to_set ([] : list string).
Proof.
  simpl. apply set_eq. intros k. rewrite elem_of_union. split; [by left|].
  intros [Hk|Hk]; [done|]. by apply not_elem_of_empty in Hk.
Qed.

Lemma names_cons (a : gset string) (x : string) (l : list string) :
  {[x]} ∪ a ∪ list_to_set l = a ∪ list_to_set (x :: l).
Proof. simpl. apply set_eq. intros k. rewrite !elem_of_union. tauto. Qed.

Section Properties.
Context {tftypes : Tftypes} {collaborators : Collaborators}.

Lemma HasError_app (d1 d2 : Diagnostics) :
  HasError (d1 ++ d2) = HasError d1 || HasError d2.
Proof. apply existsb_app. Qed.

Lemma HasError_Append (d1 d2 : Diagnostics) :
  HasError (Append d1 d2) = HasError d1 || HasError d2.
Proof. apply HasError_app. Qed.

Lemma mismatchError_Permutation (a a' b b' : list string) :
  a ≡ₚ a' -> b ≡ₚ b' -> mismatchError a b = mismatchError a' b'.
Proof.
  intros Ha Hb. unfold mismatchError, mismatchSentences.
  rewrite (Permutation_length Ha), (Permutation_length Hb).
  by rewrite (commaSeparatedString_Permutation a a'),
    (commaSeparatedString_Permutation b b').
Qed.

(** Each sentence of the mismatch message is there when its set of names
    is not empty. *)
Lemma mismatchSentences_struct (structOnly objectOnly : list string) :
  structOnly ≠ [] ->
  ("Struct defines fields not found in object: "
   +:+ commaSeparatedString structOnly +:+ ".")
  ∈ mismatchSentences structOnly objectOnly.
Proof.
  intros Hsome. unfold mismatchSentences.
  destruct structOnly as [|name structOnly]; [done|]. simpl.
  case_bool_decide; simpl; by left.
Qed.

Lemma mismatchSentences_object (structOnly objectOnly : list string) :
  objectOnly ≠ [] ->
  ("Object defines fields not found in struct: "
   +:+ commaSeparatedString objectOnly +:+ ".")
  ∈ mismatchSentences structOnly objectOnly.
Proof.
  intros Hsome. unfold mismatchSentences.
  destruct objectOnly as [|name objectOnly]; [done|].
  rewrite (bool_decide_eq_true_2 (0 < length (name :: objectOnly)))
    by (simpl; lia).
  apply elem_of_app. right. by left.
Qed.

(** ** The preconditions of the decode engine *)

Lemma IsObject_true (object : TfValue) :
  IsObject object = true ->
  exists objectType : TfType,
    ValueType object = Some objectType /\ TypeIsObject objectType = true.
Proof.
  unfold IsObject. destruct (ValueType object) as [objectType|]; [|done].
  intros Hobj. by exists objectType.
Qed.

(** A target that is no struct makes [Struct] return the target it was
    given and one incompatibility diagnostic, an error, without calling
    any collaborator; so does, with a target that is a struct, a source
    that has a type which is no object type, and, then, a type without
    an attribute-type directory. *)
Lemma Struct_incompatible (typ : option AttrType) (object : TfValue)
    (target : GoValue) (opts : Options) (path : Path) :
  KindOf target ≠ KindStruct \/
  (exists objectType : TfType,
     ValueType object = Some objectType /\
     (TypeIsObject objectType = false \/
      typ ≫= asTypeWithAttributeTypes = None)) ->
  exists err : string,
    Struct typ object target opts path
    = ([], Returns (target, [incompatible object target path err])) /\
    HasError [incompatible object target path err] = true.
Proof.
  intros Hpre. unfold Struct.
  case_bool_decide as Hkind; [eexists; split; reflexivity|].
  destruct Hpre as [Hk|(objectType & -> & Hpre)]; [done|].
  destruct (TypeIsObject objectType) eqn:Hobj; simpl;
    [|eexists; split; reflexivity].
  destruct (typ ≫= asTypeWithAttributeTypes) eqn:Htyp;
    [|eexists; split; reflexivity].
  destruct Hpre; congruence.
Qed.

(** C6, where the code departs from it: a source that has no type, as
    [tftypes.Value{}] has none, is not turned down with a diagnostic.
    With a target that is a struct, [Struct] asks the type of the source
    whether it is an object type, and panics there, before any
    diagnostic is made and without calling any collaborator. *)
Theorem Struct_untyped_source_panics (typ : option AttrType)
    (object : TfValue) (target : GoValue) (opts : Options) (path : Path) :
  KindOf target = KindStruct ->
  ValueType object = None ->
  Struct typ object target opts path = ([], Panics).
Proof.
  intros Hkind Hnil. unfold Struct.
  rewrite bool_decide_eq_false_2 by (intros Hk; by apply Hk).
  by rewrite Hnil.
Qed.

(** ** The reconciliation of names *)

Lemma missing_nil {A B} (m1 : gmap string A) (m2 : gmap string B) :
  dom m1 ⊆ dom m2 ->
  filter (fun k => m2 !! k = None) (rangeKeys m1) = [].
Proof.
  intros Hsub. apply Permutation_nil_r. rewrite missing_Permutation.
  assert (dom m1 ∖ dom m2 = ∅) as ->.
  { apply set_eq. intros k. rewrite elem_of_difference. split.
    - intros [Hin Hout]. exfalso. apply Hout, Hsub, Hin.
    - intros Hin. by apply not_elem_of_empty in Hin. }
  by rewrite elements_empty.
Qed.

Lemma difference_nil_dom {A B} (m1 : gmap string A) (m2 : gmap string B) :
  elements (dom m1 ∖ dom m2) = [] -> elements (dom m2 ∖ dom m1) = [] ->
  dom m1 = dom m2.
Proof.
  intros E1 E2. apply elements_empty_inv in E1. apply elements_empty_inv in E2.
  apply set_eq. intros k.
  destruct (decide (k ∈ dom m1)) as [H1|H1],
           (decide (k ∈ dom m2)) as [H2|H2]; [done| | |done]; exfalso.
  - apply (not_elem_of_empty (C:=gset string) k). rewrite <- E1.
    by apply elem_of_difference.
  - apply (not_elem_of_empty (C:=gset string) k). rewrite <- E2.
    by apply elem_of_difference.
Qed.

(** Past its preconditions, [Struct] compares the two sets of names: it
    stops with the mismatch diagnostic when they differ, and runs its
    loop over the descriptors, from the zero value of the target's type,
    when they do not. *)
Lemma Struct_after_preconditions (typ : option AttrType) (object : TfValue)
    (target : GoValue) (opts : Options) (path : Path)
    (attrsType : TypeWithAttributeTypes)
    (objectFields : gmap string TfValue) :
  KindOf target = KindStruct ->
  IsObject object = true ->
  typ ≫= asTypeWithAttributeTypes = Some attrsType ->
  As object = (objectFields, None) ->
  let names := dom (fields_nameIndex (typeFields (TypeOf target))) in
  Struct typ object target opts path
  = if decide (names = dom objectFields)
    then bind (Struct_fields typ object target opts path
                 (AttributeTypes attrsType) objectFields
                 (fields_list (typeFields (TypeOf target)))
                 (Zero (TypeOf target)) [])
              Struct_exit
    else ([], Returns (target,
                       [incompatible object target path
                          (mismatchError
                             (elements (names ∖ dom objectFields))
                             (elements (dom objectFields ∖ names)))])).
Proof.
  intros Hkind Hobj Htyp Has names. unfold Struct.
  rewrite bool_decide_eq_false_2 by (intros Hk; by apply Hk).
  destruct (IsObject_true _ Hobj) as (objectType & -> & ->).
  rewrite Htyp, Has. simpl.
  set (sf := typeFields (TypeOf target)) in *.
  case_decide as Hdom.
  - assert (dom (fields_nameIndex sf) = dom objectFields) as Hsame
      by exact Hdom.
    rewrite !missing_nil by (rewrite Hsame; reflexivity). simpl.
    reflexivity.
  - pose proof (missing_Permutation (fields_nameIndex sf) objectFields) as P1.
    pose proof (missing_Permutation objectFields (fields_nameIndex sf)) as P2.
    fold names in P1, P2.
    rewrite (mismatchError_Permutation _ _ _ _ P1 P2).
    rewrite (Permutation_length P1), (Permutation_length P2).
    destruct (bool_decide (0 < length (elements (names ∖ dom objectFields)))
              || bool_decide
                   (0 < length (elements (dom objectFields ∖ names))))
      eqn:Hlen; [done|].
    exfalso. apply Hdom.
    apply orb_false_iff in Hlen as [H1 H2].
    apply bool_decide_eq_false in H1, H2.
    assert (forall l : list string, ¬ 0 < length l -> l = []) as Hnil
      by (intros [|k l] Hl; simpl in *; [done|lia]).
    apply difference_nil_dom; by apply Hnil.
Qed.

(** C1: when the names indexed for the target struct and the keys of the
    source object's fields differ, [Struct] returns the target it was
    given and exactly one diagnostic; no collaborator has been called, so
    no field has been converted.  The message of the diagnostic has one
    sentence for the names only the struct has and one for the names only
    the object has, each there when its set is not empty, and each listing
    its names sorted and joined with commas. *)
Theorem Struct_mismatch (typ : option AttrType) (object : TfValue)
    (target : GoValue) (opts : Options) (path : Path)
    (attrsType : TypeWithAttributeTypes)
    (objectFields : gmap string TfValue) :
  KindOf target = KindStruct ->
  IsObject object = true ->
  typ ≫= asTypeWithAttributeTypes = Some attrsType ->
  As object = (objectFields, None) ->
  dom (fields_nameIndex (typeFields (TypeOf target))) ≠ dom objectFields ->
  let structOnly :=
    elements (dom (fields_nameIndex (typeFields (TypeOf target)))
              ∖ dom objectFields) in
  let objectOnly :=
    elements (dom objectFields
              ∖ dom (fields_nameIndex (typeFields (TypeOf target)))) in
  let listed (names : list string) := merge_sort string_le names in
  Struct typ object target opts path
  = ([], Returns (target,
                  [incompatible object target path
                     (mismatchError structOnly objectOnly)])) /\
  calls (Struct typ object target opts path) = [] /\
  (structOnly ≠ [] ->
   ("Struct defines fields not found in object: "
    +:+ Join (listed structOnly) ", " +:+ ".")
   ∈ mismatchSentences structOnly objectOnly) /\
  (objectOnly ≠ [] ->
   ("Object defines fields not found in struct: "
    +:+ Join (listed objectOnly) ", " +:+ ".")
   ∈ mismatchSentences structOnly objectOnly) /\
  Sorted string_le (listed structOnly) /\ listed structOnly ≡ₚ structOnly /\
  Sorted string_le (listed objectOnly) /\ listed objectOnly ≡ₚ objectOnly.
Proof.
  intros Hkind Hobj Htyp Has Hne structOnly objectOnly listed.
  rewrite (Struct_after_preconditions _ _ _ _ _ _ _ Hkind Hobj Htyp Has).
  simpl. rewrite decide_False by done.
  split; [done|]. split; [done|].
  split; [apply mismatchSentences_struct|].
  split; [apply mismatchSentences_object|].
  - unfold listed.
    repeat split;
      first [apply Sorted_merge_sort, _ | apply merge_sort_Permutation].
Qed.

(** ** Computations *)

Lemma bind_Returns {A B} (log : list Call) (a : A) (k : A -> M B) :
  bind (log, Returns a) k = (log ++ (k a).1, (k a).2).
Proof. unfold bind. by destruct (k a). Qed.

Lemma bind_ret {A B} (a : A) (k : A -> M B) : bind (ret a) k = k a.
Proof. unfold ret. rewrite bind_Returns. by destruct (k a). Qed.

Lemma bind_call {A B} (c : Call) (a : A) (k : A -> M B) :
  bind (call c a) k = (c :: (k a).1, (k a).2).
Proof. unfold call. by rewrite bind_Returns. Qed.

Lemma bind_orPanic_Some {A B} (a : A) (k : A -> M B) :
  bind (orPanic (Some a)) k = k a.
Proof. apply bind_ret. Qed.

Lemma after_nil {A} (m : M A) : after [] m = m.
Proof. by destruct m. Qed.

(** ** The loop of the decode engine *)

Section StructLoop.
Variables (typ : option AttrType) (object : TfValue) (target : GoValue)
          (opts : Options) (path : Path).
Variables (attrTypes : gmap string (option AttrType))
          (objectFields : gmap string TfValue).

Local Abbreviation loop :=
  (Struct_fields typ object target opts path attrTypes objectFields).

(** Once the fields [done] are through, the loop goes on with the
    others from the state it has reached. *)
Lemma Struct_fields_app (done more : list field) (result : GoValue)
    (diags : Diagnostics) (log : list Call) (result' : GoValue)
    (diags' : Diagnostics) :
  loop done result diags = (log, Returns (Next (result', diags'))) ->
  loop (done ++ more) result diags = after log (loop more result' diags').
Proof.
  revert result diags log.
  induction done as [|fld done IH]; intros result diags log Hdone.
  - injection Hdone as <- <- <-. simpl.
    by rewrite after_nil.
  - simpl in Hdone |- *.
    destruct (attrTypes !! field_name fld) as [attrType|]; [|done].
    destruct (fieldByIndex result (field_index fld)) as [structField|];
      [|done].
    rewrite bind_orPanic_Some in Hdone |- *.
    destruct (BuildValue attrType _ structField opts _)
      as [fieldVal fieldValDiags].
    rewrite bind_call in Hdone |- *.
    destruct (HasError (Append diags fieldValDiags)); [done|].
    destruct (SetField result (field_index fld) fieldVal) as [result1|];
      [|done].
    rewrite bind_orPanic_Some in Hdone |- *.
    destruct (loop done result1 (Append diags fieldValDiags))
      as [log1 o1] eqn:Hrest.
    injection Hdone as <- ->.
    rewrite (IH _ _ _ Hrest). reflexivity.
Qed.

(** The loop comes to its end only if the directory has an entry for
    every descriptor. *)
Lemma Struct_fields_typed (fields : list field) (result : GoValue)
    (diags : Diagnostics) (log : list Call)
    (st : GoValue * Diagnostics) :
  loop fields result diags = (log, Returns (Next st)) ->
  forall fld, fld ∈ fields -> is_Some (attrTypes !! field_name fld).
Proof.
  revert result diags log.
  induction fields as [|fld fields IH]; intros result diags log Hrun f Hf.
  - by apply elem_of_nil in Hf.
  - simpl in Hrun.
    destruct (attrTypes !! field_name fld) as [attrType|] eqn:Hdecl;
      [|done].
    apply elem_of_cons in Hf as [->|Hf]; [by eexists|].
    destruct (fieldByIndex result (field_index fld)) as [structField|];
      [|done].
    rewrite bind_orPanic_Some in Hrun.
    destruct (BuildValue attrType _ structField opts _)
      as [fieldVal fieldValDiags].
    rewrite bind_call in Hrun.
    destruct (HasError (Append diags fieldValDiags)); [done|].
    destruct (SetField result (field_index fld) fieldVal) as [result1|];
      [|done].
    rewrite bind_orPanic_Some in Hrun.
    destruct (loop fields result1 (Append diags fieldValDiags))
      as [log1 o1] eqn:Hrest.
    injection Hrun as <- ->. by eapply IH.
Qed.

(** A [return] inside the loop gives back the target the engine was
    given, with an error among the diagnostics. *)
Lemma Struct_fields_Return (fields : list field) (result : GoValue)
    (diags : Diagnostics) (log : list Call)
    (r : GoValue * Diagnostics) :
  loop fields result diags = (log, Returns (Return r)) ->
  r.1 = target /\ HasError r.2 = true.
Proof.
  revert result diags log.
  induction fields as [|fld fields IH]; intros result diags log Hrun;
    [done|].
  simpl in Hrun.
  destruct (attrTypes !! field_name fld) as [attrType|].
  2: { injection Hrun as _ <-. split; [done|]. simpl.
       rewrite HasError_Append. apply orb_true_r. }
  destruct (fieldByIndex result (field_index fld)) as [structField|];
    [|done].
  rewrite bind_orPanic_Some in Hrun.
  destruct (BuildValue attrType _ structField opts _)
    as [fieldVal fieldValDiags].
  rewrite bind_call in Hrun.
  destruct (HasError (Append diags fieldValDiags)) eqn:Herr.
  { by injection Hrun as _ <-. }
  destruct (SetField result (field_index fld) fieldVal) as [result1|];
    [|done].
  rewrite bind_orPanic_Some in Hrun.
  destruct (loop fields result1 (Append diags fieldValDiags))
    as [log1 o1] eqn:Hrest.
  injection Hrun as <- ->. by eapply IH.
Qed.

End StructLoop.

(** Past its preconditions and the reconciliation, [Struct] is its loop
    over the descriptors, from the zero value of the target's type. *)
Lemma Struct_reconciled (typ : option AttrType) (object : TfValue)
    (target : GoValue) (opts : Options) (path : Path)
    (attrsType : TypeWithAttributeTypes)
    (objectFields : gmap string TfValue) :
  KindOf target = KindStruct ->
  IsObject object = true ->
  typ ≫= asTypeWithAttributeTypes = Some attrsType ->
  As object = (objectFields, None) ->
  dom (fields_nameIndex (typeFields (TypeOf target))) = dom objectFields ->
  Struct typ object target opts path
  = bind (Struct_fields typ object target opts path
            (AttributeTypes attrsType) objectFields
            (fields_list (typeFields (TypeOf target)))
            (Zero (TypeOf target)) [])
         Struct_exit.
Proof.
  intros Hkind Hobj Htyp Has Hdom.
  rewrite (Struct_after_preconditions _ _ _ _ _ _ _ Hkind Hobj Htyp Has).
  simpl. by rewrite decide_True.
Qed.

(** A descriptor without an entry in the directory keeps [Struct] from
    succeeding, whatever the source object: it panics, or it returns the
    target it was given with an error among the diagnostics. *)
Lemma Struct_undeclared (typ : option AttrType) (object : TfValue)
    (target : GoValue) (opts : Options) (path : Path) (x : string) :
  x ∈ fieldNames (typeFields (TypeOf target)) ->
  (forall attrsType : TypeWithAttributeTypes,
     typ ≫= asTypeWithAttributeTypes = Some attrsType ->
     AttributeTypes attrsType !! x = None) ->
  outcome (Struct typ object target opts path) = Panics \/
  exists diags : Diagnostics,
    outcome (Struct typ object target opts path) = Returns (target, diags) /\
    HasError diags = true.
Proof.
  intros Hx Hmiss.
  destruct (decide (KindOf target = KindStruct)) as [Hkind|Hkind].
  2: { right. unfold Struct. rewrite bool_decide_eq_true_2 by done.
       eexists; split; reflexivity. }
  assert (bool_decide (KindOf target ≠ KindStruct) = false) as Hk
    by (apply bool_decide_eq_false_2; intros Hne; by apply Hne).
  destruct (ValueType object) as [objectType|] eqn:Hvt.
  2: { left. unfold Struct. by rewrite Hk, Hvt. }
  destruct (TypeIsObject objectType) eqn:Hobjt.
  2: { right. unfold Struct. rewrite Hk, Hvt, Hobjt.
       eexists; split; reflexivity. }
  assert (IsObject object = true) as Hobj
    by (unfold IsObject; by rewrite Hvt).
  destruct (typ ≫= asTypeWithAttributeTypes) as [attrsType|] eqn:Htyp.
  2: { right. unfold Struct. rewrite Hk, Hvt, Hobjt, Htyp.
       eexists; split; reflexivity. }
  destruct (As object) as [objectFields [err|]] eqn:Has.
  { right. unfold Struct. rewrite Hk, Hvt, Hobjt, Htyp, Has.
    eexists; split; reflexivity. }
  rewrite (Struct_after_preconditions _ _ _ _ _ _ _ Hkind Hobj Htyp Has).
  simpl.
  destruct (decide (dom (fields_nameIndex (typeFields (TypeOf target)))
                    = dom objectFields)) as [Hdom|Hdom];
    [|right; eexists; split; reflexivity].
  destruct (Struct_fields typ object target opts path
              (AttributeTypes attrsType) objectFields
              (fields_list (typeFields (TypeOf target)))
              (Zero (TypeOf target)) [])
    as [log [[r|st]|]] eqn:Hloop.
  - apply Struct_fields_Return in Hloop as [Htarget Herr].
    destruct r as [r diags]. simpl in Htarget, Herr. subst r.
    right. exists diags. by rewrite bind_Returns.
  - exfalso. unfold fieldNames in Hx.
    apply list_elem_of_fmap in Hx as (fld & -> & Hfld).
    destruct (Struct_fields_typed _ _ _ _ _ _ _ _ _ _ _ _ Hloop fld Hfld)
      as [attrType Hty].
    by rewrite (Hmiss _ eq_refl) in Hty.
  - by left.
Qed.

(** ** Failing fast in the decode loop *)

(** C5: let the loop of [Struct] have taken the fields [done] through
    without an error, reaching [result] and [diags].  If the directory
    has no entry for the next field, [Struct] returns at once the target
    it was given and [diags] with the missing-type diagnostic; if the
    dispatcher reports an error for it, [Struct] returns at once the
    target it was given and [diags] with what the dispatcher reported.
    In both cases the calls made are those for [done] and the one for
    that field, if any: none of the fields after it is converted. *)
Theorem Struct_fail_fast (typ : option AttrType) (object : TfValue)
    (target : GoValue) (opts : Options) (path : Path)
    (attrsType : TypeWithAttributeTypes)
    (objectFields : gmap string TfValue)
    (done : list field) (fld : field) (rest : list field)
    (log : list Call) (result : GoValue) (diags : Diagnostics) :
  KindOf target = KindStruct ->
  IsObject object = true ->
  typ ≫= asTypeWithAttributeTypes = Some attrsType ->
  As object = (objectFields, None) ->
  dom (fields_nameIndex (typeFields (TypeOf target))) = dom objectFields ->
  fields_list (typeFields (TypeOf target)) = done ++ fld :: rest ->
  Struct_fields typ object target opts path (AttributeTypes attrsType)
    objectFields done (Zero (TypeOf target)) []
  = (log, Returns (Next (result, diags))) ->
  (AttributeTypes attrsType !! field_name fld = None ->
   Struct typ object target opts path
   = (log,
      Returns (target, diags ++ [missingTypeDiag typ object target path])))
  /\
  (forall (attrType : option AttrType) (structField : GoValue),
     AttributeTypes attrsType !! field_name fld = Some attrType ->
     fieldByIndex result (field_index fld) = Some structField ->
     let val := default TfZero (objectFields !! field_name fld) in
     let p := AtName path (field_name fld) in
     HasError (BuildValue attrType val structField opts p).2 = true ->
     Struct typ object target opts path
     = (log ++ [CallBuildValue attrType val structField opts p],
        Returns (target,
                 diags ++ (BuildValue attrType val structField opts p).2))).
Proof.
  intros Hkind Hobj Htyp Has Hdom Hlist Hdone.
  rewrite (Struct_reconciled _ _ _ _ _ _ _ Hkind Hobj Htyp Has Hdom), Hlist.
  rewrite (Struct_fields_app _ _ _ _ _ _ _ _ _ _ _ _ _ _ Hdone).
  split.
  - intros Hmiss. simpl. rewrite Hmiss. unfold after, ret, bind. simpl.
    by rewrite !app_nil_r.
  - intros attrType structField Hty Hslot val p Herr. simpl.
    rewrite Hty, Hslot, bind_orPanic_Some. fold val p.
    destruct (BuildValue attrType val structField opts p)
      as [fieldVal fieldValDiags] eqn:Hbuild.
    rewrite bind_call. simpl in Herr.
    rewrite HasError_Append, Herr, orb_true_r.
    unfold after, ret, bind. simpl. by rewrite !app_nil_r.
Qed.

(** ** The loop of the encode engine *)

(** One turn of the loop of [FromStruct], case by case, for a run known
    to leave the loop by [Next]. *)
Ltac encode_turn Hrun fld :=
  let attrVal := fresh "attrVal" in
  let attrValDiags := fresh "attrValDiags" in
  let Hfield := fresh "Hfield" in
  let Hdecl := fresh "Hdecl" in
  let Hconv := fresh "Hconv" in
  let Hwire := fresh "Hwire" in
  match type of Hrun with
  | context [fieldByIndex ?val (field_index fld)] =>
      destruct (fieldByIndex val (field_index fld)) as [?fieldValue|]
        eqn:Hfield;
      [rewrite ?bind_orPanic_Some in Hrun; rewrite ?bind_orPanic_Some|done]
  end;
  match type of Hrun with
  | context [?attrTypes !! field_name fld] =>
      destruct (attrTypes !! field_name fld) as [[?attrType|]|] eqn:Hdecl;
      simpl in Hrun; simpl
  end;
  match type of Hrun with
  | context [FromValue ?t ?v ?p] =>
      destruct (FromValue t v p) as [attrVal attrValDiags] eqn:Hconv;
      rewrite ?bind_call in Hrun; rewrite ?bind_call
  end;
  match type of Hrun with
  | context [HasError ?d] => destruct (HasError d) eqn:?; [done|]
  end;
  [|done|done];
  rewrite ?bind_call in Hrun; rewrite ?bind_call;
  destruct attrVal as [attrVal|]; [|done];
  rewrite ?bind_orPanic_Some in Hrun; rewrite ?bind_orPanic_Some;
  match type of Hrun with
  | context [ToTerraformValue ?a] =>
      destruct (ToTerraformValue a) as [?tfObjVal [?err|]] eqn:Hwire;
      rewrite ?bind_call in Hrun; rewrite ?bind_call; [done|]
  end.

(** The rest of such a turn: the hook, if any, and the turns that
    follow. *)
Ltac encode_rest Hrun typ :=
  destruct (Validate typ) as [?validate|];
  [rewrite bind_call in Hrun; rewrite ?bind_call;
   match type of Hrun with
   | context [HasError ?d] => destruct (HasError d) eqn:?; [done|]
   end|];
  match type of Hrun with
  | context [FromStruct_fields ?a ?b ?c ?e ?l ?d ?t ?v] =>
      destruct (FromStruct_fields a b c e l d t v) as [?log ?o] eqn:Hrest
  end;
  injection Hrun as <- ->.

Section FromStructLoop.
Variables (typ : TypeWithAttributeTypes) (val : GoValue) (path : Path).
Variable attrTypes : gmap string (option AttrType).

Local Abbreviation loop := (FromStruct_fields typ val path attrTypes).

(** Once the fields [done] are through, the loop goes on with the
    others from the state it has reached. *)
Lemma FromStruct_fields_app (done more : list field)
    (diags : Diagnostics) (objTypes : gmap string TfType)
    (objValues : gmap string TfValue) (log : list Call)
    (st : Assembly) :
  loop done diags objTypes objValues = (log, Returns (Next st)) ->
  loop (done ++ more) diags objTypes objValues
  = after log (loop more st.1.1 st.1.2 st.2).
Proof.
  revert diags objTypes objValues log.
  induction done as [|fld done IH];
    intros diags objTypes objValues log Hdone.
  - injection Hdone as <- <-. simpl. by rewrite after_nil.
  - simpl in Hdone |- *. encode_turn Hdone fld.
    encode_rest Hdone typ; by rewrite (IH _ _ _ _ Hrest).
Qed.

(** The state the loop leaves holds no error. *)
Lemma FromStruct_fields_Next_no_error (fields : list field)
    (diags : Diagnostics) (objTypes : gmap string TfType)
    (objValues : gmap string TfValue) (log : list Call)
    (st : Assembly) :
  loop fields diags objTypes objValues = (log, Returns (Next st)) ->
  HasError diags = false -> HasError st.1.1 = false.
Proof.
  revert diags objTypes objValues log.
  induction fields as [|fld fields IH];
    intros diags objTypes objValues log Hrun Hd.
  - by injection Hrun as <- <-.
  - simpl in Hrun. encode_turn Hrun fld.
    encode_rest Hrun typ; by eapply IH.
Qed.

(** Each turn of the loop adds the name of its field to both maps, and
    nothing else is added. *)
Lemma FromStruct_fields_dom (fields : list field)
    (diags : Diagnostics) (objTypes : gmap string TfType)
    (objValues : gmap string TfValue) (log : list Call)
    (st : Assembly) :
  loop fields diags objTypes objValues = (log, Returns (Next st)) ->
  dom st.1.2 = dom objTypes ∪ list_to_set (field_name <$> fields) /\
  dom st.2 = dom objValues ∪ list_to_set (field_name <$> fields).
Proof.
  revert diags objTypes objValues log.
  induction fields as [|fld fields IH];
    intros diags objTypes objValues log Hrun.
  - injection Hrun as <- <-. simpl. split; apply names_nil.
  - simpl in Hrun. encode_turn Hrun fld.
    encode_rest Hrun typ; apply IH in Hrest as [-> ->];
      rewrite !dom_insert_L; simpl fst; simpl snd; split; apply names_cons.
Qed.

(** The map of values holds, for each field gone through, the wire
    form the dispatcher gave it, when no name comes twice. *)
Lemma FromStruct_fields_values (fields : list field)
    (diags : Diagnostics) (objTypes : gmap string TfType)
    (objValues : gmap string TfValue) (log : list Call)
    (st : Assembly) :
  loop fields diags objTypes objValues = (log, Returns (Next st)) ->
  NoDup (field_name <$> fields) ->
  (forall fld, fld ∈ fields ->
     exists (fv : GoValue) (attrType : AttrType) (attrVal : AttrValue),
       fieldByIndex val (field_index fld) = Some fv /\
       attrTypes !! field_name fld = Some (Some attrType) /\
       (FromValue (Some attrType) fv (AtName path (field_name fld))).1
       = Some attrVal /\
       st.2 !! field_name fld = Some (ToTerraformValue attrVal).1) /\
  (forall k, k ∉ field_name <$> fields -> st.2 !! k = objValues !! k).
Proof.
  revert diags objTypes objValues log.
  induction fields as [|fld fields IH];
    intros diags objTypes objValues log Hrun Hnodup.
  - injection Hrun as <- <-. split; [|done].
    intros fld Hin. by apply elem_of_nil in Hin.
  - simpl in Hrun. apply NoDup_cons in Hnodup as [Hfresh Hnodup].
    encode_turn Hrun fld.
    assert (forall d l,
              loop fields d
                (<[field_name fld := TerraformType attrType]> objTypes)
                (<[field_name fld := tfObjVal]> objValues)
              = (l, Returns (Next st)) ->
              (forall f, f ∈ fld :: fields ->
                 exists (fv : GoValue) (attrType : AttrType)
                        (attrVal : AttrValue),
                   fieldByIndex val (field_index f) = Some fv /\
                   attrTypes !! field_name f = Some (Some attrType) /\
                   (FromValue (Some attrType) fv
                      (AtName path (field_name f))).1 = Some attrVal /\
                   st.2 !! field_name f
                   = Some (ToTerraformValue attrVal).1) /\
              (forall k, k ∉ field_name <$> fld :: fields ->
                 st.2 !! k = objValues !! k)) as Hstep.
    { intros d l Hrest.
      destruct (IH _ _ _ _ Hrest Hnodup) as [Hvals Hkeep].
      split.
      - intros f [->|Hin]%elem_of_cons; [|by apply Hvals].
        eexists _, _, _. split; [done|]. split; [done|].
        split; [by rewrite Hconv|].
        rewrite (Hkeep _ Hfresh), lookup_insert_eq. by rewrite Hwire.
      - intros k Hk. rewrite fmap_cons, not_elem_of_cons in Hk.
        destruct Hk as [Hne Hk].
        rewrite (Hkeep _ Hk). by rewrite lookup_insert_ne. }
    encode_rest Hrun typ; by eapply Hstep.
Qed.

(** The loop goes through only if every field has a declared type. *)
Lemma FromStruct_fields_typed (fields : list field)
    (diags : Diagnostics) (objTypes : gmap string TfType)
    (objValues : gmap string TfValue) (log : list Call)
    (st : Assembly) :
  loop fields diags objTypes objValues = (log, Returns (Next st)) ->
  forall fld, fld ∈ fields ->
    exists attrType : AttrType,
      attrTypes !! field_name fld = Some (Some attrType).
Proof.
  revert diags objTypes objValues log.
  induction fields as [|fld fields IH];
    intros diags objTypes objValues log Hrun f Hf.
  - by apply elem_of_nil in Hf.
  - simpl in Hrun. encode_turn Hrun fld.
    apply elem_of_cons in Hf as [->|Hf]; [by eexists|].
    encode_rest Hrun typ; by eapply IH.
Qed.

(** A [return] inside the loop gives no value, and a diagnostic. *)
Lemma FromStruct_fields_Return (fields : list field)
    (diags : Diagnostics) (objTypes : gmap string TfType)
    (objValues : gmap string TfValue) (log : list Call)
    (r : option AttrValue * Diagnostics) :
  loop fields diags objTypes objValues = (log, Returns (Return r)) ->
  r.1 = None /\ r.2 ≠ [].
Proof.
  assert (forall d : Diagnostics, HasError d = true -> d ≠ []) as Hsome
    by (by intros [|x d]).
  assert (forall (d : Diagnostics) x, d ++ [x] ≠ []) as Hsnoc
    by (by intros [|y d] x).
  revert diags objTypes objValues log.
  induction fields as [|fld fields IH];
    intros diags objTypes objValues log Hrun; [done|].
  simpl in Hrun.
  destruct (fieldByIndex val (field_index fld)) as [fieldValue|];
    [rewrite bind_orPanic_Some in Hrun|done].
  destruct (FromValue _ fieldValue _) as [attrVal attrValDiags].
  rewrite bind_call in Hrun.
  destruct (HasError (Append diags attrValDiags)) eqn:Herr.
  { injection Hrun as _ <-. split; [done|by apply Hsome]. }
  destruct (attrTypes !! field_name fld) as [[attrType|]|];
    [|injection Hrun as _ <-; split; [done|apply Hsnoc]..].
  rewrite bind_call in Hrun.
  destruct attrVal as [attrVal|]; [rewrite bind_orPanic_Some in Hrun|done].
  destruct (ToTerraformValue attrVal) as [tfObjVal [err|]];
    rewrite bind_call in Hrun;
    [injection Hrun as _ <-; split; [done|apply Hsnoc]|].
  destruct (Validate typ) as [validate|].
  - rewrite bind_call in Hrun.
    destruct (HasError (Append (Append diags attrValDiags) _)) eqn:Hhook.
    { injection Hrun as _ <-. split; [done|by apply Hsome]. }
    destruct (loop fields _ _ _) as [log1 o1] eqn:Hrest.
    injection Hrun as _ ->. by eapply IH.
  - destruct (loop fields _ _ _) as [log1 o1] eqn:Hrest.
    injection Hrun as _ ->. by eapply IH.
Qed.
End FromStructLoop.

(** The loop of [FromStruct] asks the directory for the names of the
    descriptors only. *)
Lemma FromStruct_fields_agree (typ : TypeWithAttributeTypes)
    (val : GoValue) (path : Path)
    (attrTypes attrTypes' : gmap string (option AttrType))
    (fields : list field) (diags : Diagnostics)
    (objTypes : gmap string TfType) (objValues : gmap string TfValue) :
  (forall name, name ∈ field_name <$> fields ->
     attrTypes' !! name = attrTypes !! name) ->
  FromStruct_fields typ val path attrTypes' fields diags objTypes objValues
  = FromStruct_fields typ val path attrTypes fields diags objTypes objValues.
Proof.
  revert diags objTypes objValues.
  induction fields as [|fld fields IH];
    intros diags objTypes objValues Hagree; [done|].
  assert (forall d t v,
            FromStruct_fields typ val path attrTypes' fields d t v
            = FromStruct_fields typ val path attrTypes fields d t v) as Hrest
    by (intros d t v; apply IH; intros name Hname; apply Hagree;
        rewrite fmap_cons; by right).
  simpl. rewrite (Hagree (field_name fld)) by (rewrite fmap_cons; by left).
  destruct (fieldByIndex val (field_index fld)) as [fieldValue|]; [|done].
  rewrite !bind_orPanic_Some.
  destruct (FromValue _ fieldValue _) as [attrVal attrValDiags].
  rewrite !bind_call.
  destruct (HasError (Append diags attrValDiags)); [done|].
  destruct (attrTypes !! field_name fld) as [[attrType|]|]; [|done|done].
  rewrite !bind_call.
  destruct attrVal as [attrVal|]; [|done]. rewrite !bind_orPanic_Some.
  destruct (ToTerraformValue attrVal) as [tfObjVal [err|]];
    rewrite !bind_call; [done|].
  destruct (Validate typ) as [validate|]; [|by rewrite Hrest].
  rewrite !bind_call. destruct (HasError _); [done|]. by rewrite Hrest.
Qed.

Lemma FromStruct_run (typ : TypeWithAttributeTypes) (val : GoValue)
    (path : Path) :
  FromStruct typ val path
  = bind (FromStruct_fields typ val path (AttributeTypes typ)
            (fields_list (typeFields (TypeOf val))) [] ∅ ∅)
         (FromStruct_exit typ path).
Proof. reflexivity. Qed.

(** When the loop is through, [FromStruct] is what follows it. *)
Lemma FromStruct_assembled (typ : TypeWithAttributeTypes) (val : GoValue)
    (path : Path) (log : list Call) (diags : Diagnostics)
    (objTypes : gmap string TfType) (objValues : gmap string TfValue) :
  FromStruct_fields typ val path (AttributeTypes typ)
    (fields_list (typeFields (TypeOf val))) [] ∅ ∅
  = (log, Returns (Next (diags, objTypes, objValues))) ->
  FromStruct typ val path
  = after log (FromStruct_finish typ path (AttributeTypes typ) diags
                 objTypes objValues).
Proof. intros Hloop. by rewrite FromStruct_run, Hloop, bind_Returns. Qed.

(** When the loop stops at the field after [done], [FromStruct] is that
    turn of the loop. *)
Lemma FromStruct_stopped (typ : TypeWithAttributeTypes) (val : GoValue)
    (path : Path) (done : list field) (fld : field) (rest : list field)
    (log : list Call) (st : Assembly) :
  fields_list (typeFields (TypeOf val)) = done ++ fld :: rest ->
  FromStruct_fields typ val path (AttributeTypes typ) done [] ∅ ∅
  = (log, Returns (Next st)) ->
  FromStruct typ val path
  = bind (after log
            (FromStruct_fields typ val path (AttributeTypes typ)
               (fld :: rest) st.1.1 st.1.2 st.2))
         (FromStruct_exit typ path).
Proof.
  intros Hlist Hdone.
  by rewrite FromStruct_run, Hlist, (FromStruct_fields_app _ _ _ _ _ _ _ _ _ _ _ Hdone).
Qed.

(** When the loop is through, the hook, if the type has it, reports no
    error on the assembled object and the type rebuilds that object
    without error, [FromStruct] returns what the type has rebuilt. *)
Lemma FromStruct_accepted (typ : TypeWithAttributeTypes) (val : GoValue)
    (path : Path) (diags : Diagnostics)
    (objTypes : gmap string TfType) (objValues : gmap string TfValue)
    (r : option AttrValue) :
  outcome (FromStruct_fields typ val path (AttributeTypes typ)
             (fields_list (typeFields (TypeOf val))) [] ∅ ∅)
  = Returns (Next (diags, objTypes, objValues)) ->
  let tfVal := NewObjectValue objTypes objValues in
  let checked :=
    match Validate typ with
    | Some validate => validate tfVal path
    | None => []
    end in
  HasError checked = false ->
  ValueFromTerraform (WithAttributeTypes typ (AttributeTypes typ)) tfVal
  = (r, None) ->
  outcome (FromStruct typ val path) = Returns (r, diags ++ checked).
Proof.
  intros Hloop tfVal checked Hchecked Hrebuilt.
  destruct (FromStruct_fields typ val path (AttributeTypes typ)
              (fields_list (typeFields (TypeOf val))) [] ∅ ∅)
    as [log exit] eqn:Hrun.
  unfold outcome in Hloop. simpl in Hloop. subst exit. rename Hrun into Hloop.
  pose proof (FromStruct_fields_Next_no_error _ _ _ _ _ _ _ _ _ _
                Hloop eq_refl) as Hclean. simpl in Hclean.
  rewrite (FromStruct_assembled _ _ _ _ _ _ _ Hloop).
  unfold FromStruct_finish. fold tfVal. subst checked.
  destruct (Validate typ) as [validate|].
  - rewrite bind_call, HasError_Append, Hclean, Hchecked. simpl.
    rewrite Hrebuilt, bind_call. reflexivity.
  - rewrite Hrebuilt, bind_call, app_nil_r. reflexivity.
Qed.

(** ** The validation hook on the assembled object *)

(** C7: when the type has the validation hook and the loop of
    [FromStruct] is through, [FromStruct] calls the hook next, on the
    object assembled from the two maps and at the path it was given;
    the type rebuilds the value only after that, and only if the hook
    reported no error: if it did, [FromStruct] returns no value. *)
Theorem FromStruct_validates_assembled (typ : TypeWithAttributeTypes)
    (val : GoValue) (path : Path)
    (validate : TfValue -> Path -> Diagnostics)
    (log : list Call) (diags : Diagnostics)
    (objTypes : gmap string TfType) (objValues : gmap string TfValue) :
  Validate typ = Some validate ->
  FromStruct_fields typ val path (AttributeTypes typ)
    (fields_list (typeFields (TypeOf val))) [] ∅ ∅
  = (log, Returns (Next (diags, objTypes, objValues))) ->
  let tfVal := NewObjectValue objTypes objValues in
  let retType := WithAttributeTypes typ (AttributeTypes typ) in
  calls (FromStruct typ val path)
  = log ++ CallValidate typ tfVal path
           :: (if HasError (validate tfVal path) then []
               else [CallValueFromTerraform retType tfVal]) /\
  (HasError (validate tfVal path) = true ->
   outcome (FromStruct typ val path)
   = Returns (None, diags ++ validate tfVal path)).
Proof.
  intros Hhook Hloop tfVal retType.
  pose proof (FromStruct_fields_Next_no_error _ _ _ _ _ _ _ _ _ _ Hloop
                eq_refl) as Hclean. simpl in Hclean.
  rewrite (FromStruct_assembled _ _ _ _ _ _ _ Hloop).
  unfold FromStruct_finish. rewrite Hhook. fold tfVal retType.
  rewrite bind_call, HasError_Append, Hclean. simpl.
  destruct (HasError (validate tfVal path)).
  - split; [reflexivity|]. intros _. reflexivity.
  - split; [|done].
    destruct (ValueFromTerraform retType tfVal) as [r [err|]];
      rewrite bind_call; reflexivity.
Qed.

(** ** The dispatcher and the directory in the encode loop *)

(** C8: in [FromStruct], the dispatcher is called for a field before the
    directory is asked for the field's type.  For a field whose name the
    directory lacks, reached after the fields [done], [FromValue] is
    called with a nil declared type; what it reports is returned, and the
    missing-type diagnostic is added only when it reports no error. *)
Theorem FromStruct_dispatches_before_lookup (typ : TypeWithAttributeTypes)
    (val : GoValue) (path : Path)
    (done : list field) (fld : field) (rest : list field)
    (log : list Call) (diags : Diagnostics)
    (objTypes : gmap string TfType) (objValues : gmap string TfValue)
    (fieldValue : GoValue) :
  fields_list (typeFields (TypeOf val)) = done ++ fld :: rest ->
  FromStruct_fields typ val path (AttributeTypes typ) done [] ∅ ∅
  = (log, Returns (Next (diags, objTypes, objValues))) ->
  AttributeTypes typ !! field_name fld = None ->
  fieldByIndex val (field_index fld) = Some fieldValue ->
  let p := AtName path (field_name fld) in
  let reported := (FromValue None fieldValue p).2 in
  FromStruct typ val path
  = (log ++ [CallFromValue None fieldValue p],
     Returns
       (None,
        if HasError reported then diags ++ reported
        else diags ++ reported
             ++ [AttributeErrorDiagnostic p "Value Conversion Error"
                   (conversionErrorDetail +:+ missingTypeError typ p)])).
Proof.
  intros Hlist Hdone Hmiss Hfield p reported.
  pose proof (FromStruct_fields_Next_no_error _ _ _ _ _ _ _ _ _ _ Hdone
                eq_refl) as Hclean. simpl in Hclean.
  rewrite (FromStruct_stopped _ _ _ _ _ _ _ _ Hlist Hdone). simpl.
  rewrite Hfield, bind_orPanic_Some, Hmiss. simpl. fold p.
  unfold reported.
  destruct (FromValue None fieldValue p) as [attrVal attrValDiags].
  rewrite bind_call, HasError_Append, Hclean. simpl.
  destruct (HasError attrValDiags); unfold after, ret, bind; simpl;
    rewrite ?app_nil_r; [reflexivity|].
  unfold AddAttributeError, Append. by rewrite <- app_assoc.
Qed.

(** ** The validation hook on each field *)

(** C9: when the type has the validation hook, a turn of the loop of
    [FromStruct] whose field has been converted to its wire form calls
    the hook on that value, at the path extended with the field's name.
    If the hook reports an error, [FromStruct] returns no value there and
    then: the calls end with that one, and no later field is looked at.
    If it does not, the field's value is recorded only then. *)
Theorem FromStruct_validates_each_field (typ : TypeWithAttributeTypes)
    (val : GoValue) (path : Path)
    (validate : TfValue -> Path -> Diagnostics)
    (done : list field) (fld : field) (rest : list field)
    (log : list Call) (diags : Diagnostics)
    (objTypes : gmap string TfType) (objValues : gmap string TfValue)
    (fieldValue : GoValue) (attrType : AttrType) (attrVal : AttrValue)
    (attrValDiags : Diagnostics) (tfObjVal : TfValue) :
  Validate typ = Some validate ->
  fields_list (typeFields (TypeOf val)) = done ++ fld :: rest ->
  FromStruct_fields typ val path (AttributeTypes typ) done [] ∅ ∅
  = (log, Returns (Next (diags, objTypes, objValues))) ->
  AttributeTypes typ !! field_name fld = Some (Some attrType) ->
  fieldByIndex val (field_index fld) = Some fieldValue ->
  let p := AtName path (field_name fld) in
  FromValue (Some attrType) fieldValue p = (Some attrVal, attrValDiags) ->
  HasError attrValDiags = false ->
  ToTerraformValue attrVal = (tfObjVal, None) ->
  let turn :=
    [CallFromValue (Some attrType) fieldValue p;
     CallTerraformType attrType;
     CallToTerraformValue attrVal;
     CallValidate typ tfObjVal p] in
  (HasError (validate tfObjVal p) = true ->
   FromStruct typ val path
   = (log ++ turn,
      Returns (None, diags ++ attrValDiags ++ validate tfObjVal p))) /\
  (HasError (validate tfObjVal p) = false ->
   FromStruct_fields typ val path (AttributeTypes typ) (done ++ [fld])
     [] ∅ ∅
   = (log ++ turn,
      Returns (Next (diags ++ attrValDiags ++ validate tfObjVal p,
                     <[field_name fld := TerraformType attrType]> objTypes,
                     <[field_name fld := tfObjVal]> objValues)))).
Proof.
  intros Hhook Hlist Hdone Hty Hfield p Hconv Hok Hwire turn.
  pose proof (FromStruct_fields_Next_no_error _ _ _ _ _ _ _ _ _ _ Hdone
                eq_refl) as Hclean. simpl in Hclean.
  split; intros Hverdict.
  - rewrite (FromStruct_stopped _ _ _ _ _ _ _ _ Hlist Hdone). simpl.
    rewrite Hfield, bind_orPanic_Some, Hty. simpl. fold p.
    rewrite Hconv, bind_call, HasError_Append, Hclean, Hok. simpl.
    rewrite bind_call, bind_orPanic_Some, Hwire, bind_call, Hhook.
    rewrite bind_call, !HasError_Append, Hclean, Hok, Hverdict. simpl.
    unfold after, ret, bind, Append. simpl.
    by rewrite ?app_nil_r, <- app_assoc.
  - rewrite (FromStruct_fields_app _ _ _ _ _ _ _ _ _ _ _ Hdone). simpl.
    rewrite Hfield, bind_orPanic_Some, Hty. simpl. fold p.
    rewrite Hconv, bind_call, HasError_Append, Hclean, Hok. simpl.
    rewrite bind_call, bind_orPanic_Some, Hwire, bind_call, Hhook.
    rewrite bind_call, !HasError_Append, Hclean, Hok, Hverdict. simpl.
    unfold after, ret, Append. simpl. by rewrite <- app_assoc.
Qed.

(** ** The attributes of the assembled object *)

Lemma calls_bind {A B} (m : M A) (k : A -> M B) :
  calls (bind m k)
  = calls m ++ match outcome m with
               | Returns a => calls (k a)
               | Panics => []
               end.
Proof.
  destruct m as [log [a|]]; unfold calls, outcome, bind; simpl.
  - by destruct (k a).
  - by rewrite app_nil_r.
Qed.

Lemma Forall_calls_bind {A B} (P : Call -> Prop) (m : M A) (k : A -> M B) :
  Forall P (calls m) ->
  (forall a, outcome m = Returns a -> Forall P (calls (k a))) ->
  Forall P (calls (bind m k)).
Proof.
  intros Hm Hk. rewrite calls_bind. apply Forall_app. split; [done|].
  destruct (outcome m) as [a|]; [by apply Hk|constructor].
Qed.

Lemma AtName_neq (path : Path) (name : string) : AtName path name ≠ path.
Proof.
  unfold AtName. intros Heq. apply (f_equal length) in Heq.
  rewrite length_app in Heq. simpl in Heq. lia.
Qed.

Lemma FromStruct_fields_inLoop (typ : TypeWithAttributeTypes)
    (val : GoValue) (path : Path)
    (attrTypes : gmap string (option AttrType)) (fields : list field)
    (diags : Diagnostics) (objTypes : gmap string TfType)
    (objValues : gmap string TfValue) :
  Forall (inLoop path)
    (calls (FromStruct_fields typ val path attrTypes fields diags
              objTypes objValues)).
Proof.
  revert diags objTypes objValues.
  induction fields as [|fld fields IH]; intros diags objTypes objValues;
    simpl; [constructor|].
  apply Forall_calls_bind;
    [destruct (fieldByIndex val (field_index fld)); constructor|].
  intros fieldValue _.
  apply Forall_calls_bind; [by repeat constructor|].
  intros [attrVal attrValDiags] _.
  destruct (HasError (Append diags attrValDiags)); [constructor|].
  destruct (attrTypes !! field_name fld) as [[attrType|]|];
    [|constructor|constructor].
  apply Forall_calls_bind; [by repeat constructor|]. intros tfType _.
  apply Forall_calls_bind; [destruct attrVal; constructor|].
  intros attrVal' _.
  apply Forall_calls_bind; [by repeat constructor|].
  intros [tfObjVal [err|]] _; [constructor|].
  destruct (Validate typ) as [validate|]; [|apply IH].
  apply Forall_calls_bind;
    [repeat constructor; apply AtName_neq|]. intros validateDiags _.
  destruct (HasError _); [constructor|apply IH].
Qed.

(** C10: the object that [FromStruct] assembles, the one it hands to the
    validation hook at its own path and to the type to rebuild, is made
    of a map of types and a map of values whose keys are, both, exactly
    the names of the struct's Field Descriptors, whatever else the
    directory holds. *)
Theorem FromStruct_object_attributes (typ : TypeWithAttributeTypes)
    (val : GoValue) (path : Path) (retType : AttrType) (tfVal : TfValue) :
  CallValueFromTerraform retType tfVal ∈ calls (FromStruct typ val path)
  \/ CallValidate typ tfVal path ∈ calls (FromStruct typ val path) ->
  exists (objTypes : gmap string TfType) (objValues : gmap string TfValue),
    tfVal = NewObjectValue objTypes objValues /\
    dom objTypes = list_to_set (fieldNames (typeFields (TypeOf val))) /\
    dom objValues = list_to_set (fieldNames (typeFields (TypeOf val))).
Proof.
  rewrite FromStruct_run, calls_bind. intros Hin.
  assert (exists c, (c = CallValueFromTerraform retType tfVal \/
                     c = CallValidate typ tfVal path) /\
            c ∈ match outcome (FromStruct_fields typ val path
                                 (AttributeTypes typ)
                                 (fields_list (typeFields (TypeOf val)))
                                 [] ∅ ∅) with
                | Returns a => calls (FromStruct_exit typ path a)
                | Panics => []
                end) as (c & Hc & Hfin).
  { pose proof (FromStruct_fields_inLoop typ val path (AttributeTypes typ)
                  (fields_list (typeFields (TypeOf val))) [] ∅ ∅) as Hloop.
    rewrite Forall_forall in Hloop.
    destruct Hin as [Hin|Hin]; apply elem_of_app in Hin as [Hin|Hin];
      try (by apply Hloop in Hin); eauto. }
  clear Hin.
  destruct (FromStruct_fields typ val path (AttributeTypes typ)
              (fields_list (typeFields (TypeOf val))) [] ∅ ∅)
    as [log [[r|[[diags objTypes] objValues]]|]] eqn:Hloop;
    unfold outcome in Hfin; simpl in Hfin.
  - by apply elem_of_nil in Hfin.
  - apply FromStruct_fields_dom in Hloop as [HT HV]. simpl in HT, HV.
    rewrite dom_empty_L, (left_id_L ∅ (∪)) in HT.
    rewrite dom_empty_L, (left_id_L ∅ (∪)) in HV.
    exists objTypes, objValues. split; [|by split].
    unfold FromStruct_finish in Hfin.
    assert (c ∈ [CallValidate typ (NewObjectValue objTypes objValues) path;
                 CallValueFromTerraform
                   (WithAttributeTypes typ (AttributeTypes typ))
                   (NewObjectValue objTypes objValues)]) as Hc'.
    { destruct (Validate typ) as [validate|].
      - rewrite calls_bind in Hfin. apply elem_of_app in Hfin as [Hfin|Hfin].
        { apply list_elem_of_singleton in Hfin. subst c. constructor. }
        unfold outcome, call in Hfin. simpl in Hfin.
        destruct (HasError _); [by apply elem_of_nil in Hfin|].
        rewrite calls_bind in Hfin. apply elem_of_app in Hfin as [Hfin|Hfin].
        + apply list_elem_of_singleton in Hfin. subst c. do 2 constructor.
        + unfold outcome, call in Hfin. simpl in Hfin.
          destruct (ValueFromTerraform _ _) as [r [err|]];
            by apply elem_of_nil in Hfin.
      - rewrite calls_bind in Hfin. apply elem_of_app in Hfin as [Hfin|Hfin].
        + apply list_elem_of_singleton in Hfin. subst c. do 2 constructor.
        + unfold outcome, call in Hfin. simpl in Hfin.
          destruct (ValueFromTerraform _ _) as [r [err|]];
            by apply elem_of_nil in Hfin. }
    apply elem_of_cons in Hc' as [->|Hc'].
    + destruct Hc as [Hc|Hc]; [discriminate|]. by injection Hc as ->.
    + apply list_elem_of_singleton in Hc'. subst c.
      destruct Hc as [Hc|Hc]; [|discriminate]. by injection Hc as _ ->.
  - by apply elem_of_nil in Hfin.
Qed.

(** ** The round trip *)



(** ** Names on one side only *)

(** C4, as the code has it: a struct that declares a name [x] which the
    directory lacks makes both engines fail.  [Struct] returns the target
    it was given and an error, or panics, whatever the source object;
    [FromStruct] returns no value and a diagnostic, or panics.  When the
    source object lacks [x] too, [Struct] stops at the reconciliation,
    with the one mismatch diagnostic, whose message lists [x] among the
    names only the struct has. *)
Theorem undeclared_field_fails (schema : option AttrType)
    (object : TfValue) (target : GoValue) (opts : Options) (path : Path)
    (attrsType : TypeWithAttributeTypes)
    (objectFields : gmap string TfValue)
    (typ : TypeWithAttributeTypes) (val : GoValue) (path' : Path)
    (x : string) :
  KindOf target = KindStruct ->
  IsObject object = true ->
  schema ≫= asTypeWithAttributeTypes = Some attrsType ->
  As object = (objectFields, None) ->
  x ∈ dom (fields_nameIndex (typeFields (TypeOf target))) ->
  x ∈ fieldNames (typeFields (TypeOf target)) ->
  x ∈ fieldNames (typeFields (TypeOf val)) ->
  AttributeTypes attrsType !! x = None ->
  default None (AttributeTypes typ !! x) = None ->
  x ∉ dom objectFields ->
  (forall object' : TfValue,
     outcome (Struct schema object' target opts path) = Panics \/
     exists diags : Diagnostics,
       outcome (Struct schema object' target opts path)
       = Returns (target, diags) /\
       HasError diags = true) /\
  (outcome (FromStruct typ val path') = Panics \/
   exists diags : Diagnostics,
     outcome (FromStruct typ val path') = Returns (None, diags) /\
     diags ≠ []) /\
  (let structOnly :=
     elements (dom (fields_nameIndex (typeFields (TypeOf target)))
               ∖ dom objectFields) in
   let objectOnly :=
     elements (dom objectFields
               ∖ dom (fields_nameIndex (typeFields (TypeOf target)))) in
   x ∈ structOnly /\
   ("Struct defines fields not found in object: "
    +:+ commaSeparatedString structOnly +:+ ".")
   ∈ mismatchSentences structOnly objectOnly /\
   Struct schema object target opts path
   = ([], Returns (target,
                   [incompatible object target path
                      (mismatchError structOnly objectOnly)]))).
Proof.
  intros Hkind Hobj Hschema Has Hx Htarget Hfield Hmiss Hdecl Hnot.
  split; [|split].
  - intros object'. apply Struct_undeclared with x; [done|].
    intros attrsType' Hschema'. congruence.
  - rewrite FromStruct_run.
    destruct (FromStruct_fields typ val path' (AttributeTypes typ)
                (fields_list (typeFields (TypeOf val))) [] ∅ ∅)
      as [log [[r|st]|]] eqn:Hloop.
    + apply FromStruct_fields_Return in Hloop as [Hnone Hsome].
      destruct r as [r diags]. simpl in Hnone, Hsome. subst r.
      right. exists diags. split; [|done].
      rewrite bind_Returns. reflexivity.
    + exfalso. unfold fieldNames in Hfield.
      apply list_elem_of_fmap in Hfield as (fld & -> & Hfld).
      destruct (FromStruct_fields_typed _ _ _ _ _ _ _ _ _ _ Hloop fld Hfld)
        as [attrType Hty].
      by rewrite Hty in Hdecl.
    + by left.
  - assert (x ∈ elements
                  (dom (fields_nameIndex (typeFields (TypeOf target)))
                   ∖ dom objectFields)) as Hin
      by (by apply elem_of_elements, elem_of_difference).
    split; [exact Hin|]. split.
    + apply mismatchSentences_struct. intros Hnil.
      rewrite Hnil in Hin. by apply elem_of_nil in Hin.
    + rewrite (Struct_after_preconditions _ _ _ _ _ _ _
                 Hkind Hobj Hschema Has).
      simpl. rewrite decide_False; [done|].
      intros Heq. apply Hnot. by rewrite <- Heq.
Qed.

(** C3, as the code has it: a key [y] of the source object that no name
    indexed for the target struct matches makes [Struct] return the
    target it was given and the one mismatch diagnostic, whose message
    lists [y] among the names only the object has.  [FromStruct] does not
    hold the directory against the struct: for a name [y] that no
    descriptor bears, its loop runs as it does with the directory without
    [y], and when that loop is through, the hook reports no error on the
    assembled object and the type rebuilds it, [FromStruct] returns what
    the type has rebuilt. *)
Theorem unmatched_attribute (schema : option AttrType)
    (object : TfValue) (target : GoValue) (opts : Options) (path : Path)
    (attrsType : TypeWithAttributeTypes)
    (objectFields : gmap string TfValue)
    (typ : TypeWithAttributeTypes) (val : GoValue) (path' : Path)
    (diags : Diagnostics) (objTypes : gmap string TfType)
    (objValues : gmap string TfValue) (r : option AttrValue)
    (y : string) :
  KindOf target = KindStruct ->
  IsObject object = true ->
  schema ≫= asTypeWithAttributeTypes = Some attrsType ->
  As object = (objectFields, None) ->
  y ∈ dom objectFields ->
  y ∉ dom (fields_nameIndex (typeFields (TypeOf target))) ->
  y ∉ fieldNames (typeFields (TypeOf val)) ->
  outcome (FromStruct_fields typ val path' (delete y (AttributeTypes typ))
             (fields_list (typeFields (TypeOf val))) [] ∅ ∅)
  = Returns (Next (diags, objTypes, objValues)) ->
  let tfVal := NewObjectValue objTypes objValues in
  let checked :=
    match Validate typ with
    | Some validate => validate tfVal path'
    | None => []
    end in
  HasError checked = false ->
  ValueFromTerraform (WithAttributeTypes typ (AttributeTypes typ)) tfVal
  = (r, None) ->
  (let structOnly :=
     elements (dom (fields_nameIndex (typeFields (TypeOf target)))
               ∖ dom objectFields) in
   let objectOnly :=
     elements (dom objectFields
               ∖ dom (fields_nameIndex (typeFields (TypeOf target)))) in
   y ∈ objectOnly /\
   ("Object defines fields not found in struct: "
    +:+ commaSeparatedString objectOnly +:+ ".")
   ∈ mismatchSentences structOnly objectOnly /\
   Struct schema object target opts path
   = ([], Returns (target,
                   [incompatible object target path
                      (mismatchError structOnly objectOnly)]))) /\
  FromStruct_fields typ val path' (AttributeTypes typ)
    (fields_list (typeFields (TypeOf val))) [] ∅ ∅
  = FromStruct_fields typ val path' (delete y (AttributeTypes typ))
      (fields_list (typeFields (TypeOf val))) [] ∅ ∅ /\
  outcome (FromStruct typ val path') = Returns (r, diags ++ checked).
Proof.
  intros Hkind Hobj Hschema Has Hy Hnot Hfree Hloop tfVal checked
    Hchecked Hrebuilt.
  assert (FromStruct_fields typ val path' (AttributeTypes typ)
            (fields_list (typeFields (TypeOf val))) [] ∅ ∅
          = FromStruct_fields typ val path' (delete y (AttributeTypes typ))
              (fields_list (typeFields (TypeOf val))) [] ∅ ∅) as Hsame.
  { symmetry. apply FromStruct_fields_agree. intros name Hname.
    apply lookup_delete_ne. intros <-. by apply Hfree. }
  split; [|split; [exact Hsame|]].
  - assert (y ∈ elements
                  (dom objectFields
                   ∖ dom (fields_nameIndex (typeFields (TypeOf target)))))
      as Hin by (by apply elem_of_elements, elem_of_difference).
    split; [exact Hin|]. split.
    + apply mismatchSentences_object. intros Hnil.
      rewrite Hnil in Hin. by apply elem_of_nil in Hin.
    + rewrite (Struct_after_preconditions _ _ _ _ _ _ _
                 Hkind Hobj Hschema Has).
      simpl. rewrite decide_False; [done|].
      intros Heq. apply Hnot. by rewrite Heq.
  - apply FromStruct_accepted; [|exact Hchecked|exact Hrebuilt].
    by rewrite Hsame.
Qed.

(** * Further properties of the engines *)

(** ** Runs of the decode loop *)

Lemma SetField_assignAt (v : GoValue) (index : list nat) (x v' : GoValue) :
  SetField v index x = Some v' -> assignAt v index x = Some v'.
Proof.
  unfold SetField. destruct (fieldByIndex v index) as [slot|]; simpl; [|done].
  by destruct (GoType_beq (TypeOf x) (TypeOf slot)).
Qed.

(** One turn of the loop of [Struct], for a run known to leave the loop
    by [Next]. *)
Ltac decode_turn Hrun fld :=
  let Hdecl := fresh "Hdecl" in
  let Hslot := fresh "Hslot" in
  let Hbuild := fresh "Hbuild" in
  let Herr := fresh "Herr" in
  let Hset := fresh "Hset" in
  let Hrest := fresh "Hrest" in
  match type of Hrun with
  | context [?attrTypes !! field_name fld] =>
      destruct (attrTypes !! field_name fld) as [?attrType|] eqn:Hdecl;
      [|done]
  end;
  match type of Hrun with
  | context [fieldByIndex ?result (field_index fld)] =>
      destruct (fieldByIndex result (field_index fld)) as [?structField|]
        eqn:Hslot; [|done]
  end;
  rewrite bind_orPanic_Some in Hrun;
  match type of Hrun with
  | context [BuildValue ?t ?w ?s ?o ?p] =>
      destruct (BuildValue t w s o p) as [?fieldVal ?fieldValDiags]
        eqn:Hbuild
  end;
  rewrite bind_call in Hrun;
  match type of Hrun with
  | context [HasError ?d] => destruct (HasError d) eqn:Herr; [done|]
  end;
  match type of Hrun with
  | context [SetField ?r ?i ?x] =>
      destruct (SetField r i x) as [?result1|] eqn:Hset; [|done]
  end;
  rewrite bind_orPanic_Some in Hrun;
  match type of Hrun with
  | context [Struct_fields ?a ?b ?c ?d ?e ?f ?g ?fields ?r ?ds] =>
      destruct (Struct_fields a b c d e f g fields r ds) as [?log1 ?o1]
        eqn:Hrest
  end;
  injection Hrun as <- ->.

Section StructRuns.
Variables (typ : option AttrType) (object : TfValue) (target : GoValue)
          (opts : Options) (path : Path).
Variables (attrTypes : gmap string (option AttrType))
          (objectFields : gmap string TfValue).

Local Abbreviation loop :=
  (Struct_fields typ object target opts path attrTypes objectFields).

(** A run of the loop that comes to its end keeps the type of the record
    and the absence of errors, adds what the dispatcher reported, makes
    one call for each descriptor, and changes no slot apart from the
    descriptors'. *)
Lemma Struct_fields_Next (fields : list field) (result : GoValue)
    (diags : Diagnostics) (log : list Call) (st : GoValue * Diagnostics) :
  loop fields result diags = (log, Returns (Next st)) ->
  TypeOf st.1 = TypeOf result /\
  (HasError diags = false -> HasError st.2 = false) /\
  st.2 = diags ++ flat_map reported log /\
  Forall2 (fun fld c =>
             exists (attrType : option AttrType) (slot : GoValue),
               attrTypes !! field_name fld = Some attrType /\
               c = CallBuildValue attrType
                     (default TfZero (objectFields !! field_name fld))
                     slot opts (AtName path (field_name fld)))
          fields log /\
  (forall j,
     (forall fld, fld ∈ fields -> apart (field_index fld) j = true) ->
     fieldByIndex st.1 j = fieldByIndex result j).
Proof.
  revert result diags log.
  induction fields as [|fld fields IH]; intros result diags log Hrun.
  - injection Hrun as <- <-. simpl. rewrite app_nil_r.
    repeat split; done.
  - simpl in Hrun. decode_turn Hrun fld.
    destruct (IH _ _ _ Hrest) as (Hty & Hclean & Hdiags & Hcalls & Hkeep).
    split; [|split; [|split; [|split]]].
    + rewrite Hty. by eapply TypeOf_SetField.
    + intros _. by apply Hclean.
    + rewrite Hdiags. simpl. rewrite Hbuild. simpl. unfold Append.
      by rewrite app_assoc.
    + constructor; [by eexists _, _|done].
    + intros j Hj. rewrite Hkeep by (intros g Hg; apply Hj; by right).
      eapply fieldByIndex_assignAt_apart; [by eapply SetField_assignAt|].
      apply Hj. by left.
Qed.

(** Such a run has appended to the diagnostics, call after call, what
    the dispatcher reported. *)
Lemma Struct_fields_appends (fields : list field) (result : GoValue)
    (diags : Diagnostics) (log : list Call) (st : GoValue * Diagnostics) :
  loop fields result diags = (log, Returns (Next st)) ->
  st.2 = foldl Append diags (reported <$> log).
Proof.
  revert result diags log.
  induction fields as [|fld fields IH]; intros result diags log Hrun.
  - by injection Hrun as <- <-.
  - simpl in Hrun. decode_turn Hrun fld.
    rewrite (IH _ _ _ Hrest). simpl. by rewrite Hbuild.
Qed.

(** When the paths of the descriptors part ways, such a run leaves in
    each descriptor's slot what the dispatcher made for it, from the slot
    as it stood before the run. *)
Lemma Struct_fields_sets (fields : list field) (result : GoValue)
    (diags : Diagnostics) (log : list Call) (st : GoValue * Diagnostics) :
  loop fields result diags = (log, Returns (Next st)) ->
  allApart (field_index <$> fields) = true ->
  forall fld, fld ∈ fields ->
    exists (attrType : option AttrType) (slot : GoValue),
      attrTypes !! field_name fld = Some attrType /\
      fieldByIndex result (field_index fld) = Some slot /\
      fieldByIndex st.1 (field_index fld)
      = Some (BuildValue attrType
                (default TfZero (objectFields !! field_name fld))
                slot opts (AtName path (field_name fld))).1.
Proof.
  revert result diags log.
  induction fields as [|fld fields IH]; intros result diags log Hrun Hapart f Hf.
  - by apply elem_of_nil in Hf.
  - simpl in Hrun. decode_turn Hrun fld.
    rewrite fmap_cons in Hapart.
    apply allApart_cons in Hapart as [Hapart Hrest'].
    pose proof (SetField_assignAt _ _ _ _ Hset) as Hassign.
    apply elem_of_cons in Hf as [->|Hf].
    + exists attrType, structField. split; [done|]. split; [done|].
      destruct (Struct_fields_Next _ _ _ _ _ Hrest) as (_ & _ & _ & _ & Hkeep).
      rewrite Hkeep.
      * rewrite (fieldByIndex_assignAt _ _ _ _ Hassign). by rewrite Hbuild.
      * intros g Hg. rewrite apart_sym. apply Hapart.
        apply list_elem_of_fmap. by exists g.
    + destruct (IH _ _ _ Hrest Hrest' f Hf) as (t & slot & Ht & Hs & Hv).
      exists t, slot. split; [done|]. split; [|done].
      rewrite <- Hs. symmetry.
      eapply fieldByIndex_assignAt_apart; [done|].
      apply Hapart. apply list_elem_of_fmap. by exists f.
Qed.

End StructRuns.

(** [Struct] panics before its loop, or stops before it, with the
    target it was given and an error, or it is its loop over the
    descriptors. *)
Lemma Struct_cases (typ : option AttrType) (object : TfValue)
    (target : GoValue) (opts : Options) (path : Path) :
  Struct typ object target opts path = ([], Panics) \/
  (exists diags : Diagnostics,
     Struct typ object target opts path = ([], Returns (target, diags)) /\
     HasError diags = true) \/
  (exists attrsType : TypeWithAttributeTypes,
     KindOf target = KindStruct /\
     IsObject object = true /\
     typ ≫= asTypeWithAttributeTypes = Some attrsType /\
     (As object).2 = None /\
     dom (fields_nameIndex (typeFields (TypeOf target))) = dom (As object).1 /\
     Struct typ object target opts path
     = bind (Struct_fields typ object target opts path
               (AttributeTypes attrsType) (As object).1
               (fields_list (typeFields (TypeOf target)))
               (Zero (TypeOf target)) [])
            Struct_exit).
Proof.
  destruct (decide (KindOf target = KindStruct)) as [Hkind|Hkind].
  2: { right. left. unfold Struct. rewrite bool_decide_eq_true_2 by done.
       eexists; split; reflexivity. }
  assert (bool_decide (KindOf target ≠ KindStruct) = false) as Hk
    by (apply bool_decide_eq_false_2; intros Hne; by apply Hne).
  destruct (ValueType object) as [objectType|] eqn:Hty.
  2: { left. unfold Struct. by rewrite Hk, Hty. }
  destruct (TypeIsObject objectType) eqn:Hobjt.
  2: { right. left. unfold Struct. rewrite Hk, Hty, Hobjt.
       eexists; split; reflexivity. }
  assert (IsObject object = true) as Hobj
    by (unfold IsObject; by rewrite Hty).
  destruct (typ ≫= asTypeWithAttributeTypes) as [attrsType|] eqn:Htyp.
  2: { right. left. unfold Struct. rewrite Hk, Hty, Hobjt, Htyp.
       eexists; split; reflexivity. }
  destruct (As object) as [objectFields [err|]] eqn:Has.
  { right. left. unfold Struct. rewrite Hk, Hty, Hobjt, Htyp, Has.
    eexists; split; reflexivity. }
  rewrite (Struct_after_preconditions _ _ _ _ _ _ _ Hkind Hobj Htyp Has).
  simpl.
  destruct (decide (dom (fields_nameIndex (typeFields (TypeOf target)))
                    = dom objectFields)) as [Hdom|Hdom];
    [|right; left; eexists; split; reflexivity].
  right. right. by exists attrsType.
Qed.

(** When [Struct] returns without an error, its loop has come to its end,
    and what it returns is what the loop has built. *)
Lemma Struct_success (typ : option AttrType) (object : TfValue)
    (target : GoValue) (opts : Options) (path : Path)
    (v : GoValue) (diags : Diagnostics) :
  outcome (Struct typ object target opts path) = Returns (v, diags) ->
  HasError diags = false ->
  exists attrsType : TypeWithAttributeTypes,
    typ ≫= asTypeWithAttributeTypes = Some attrsType /\
    dom (fields_nameIndex (typeFields (TypeOf target))) = dom (As object).1 /\
    Struct_fields typ object target opts path
      (AttributeTypes attrsType) (As object).1
      (fields_list (typeFields (TypeOf target))) (Zero (TypeOf target)) []
    = (calls (Struct typ object target opts path), Returns (Next (v, diags))).
Proof.
  intros Hout Hclean.
  destruct (Struct_cases typ object target opts path)
    as [Hrun|[(d & Hrun & Herr)
              |(attrsType & _ & _ & Htyp & _ & Hdom & Hrun)]];
    rewrite Hrun in Hout |- *.
  - done.
  - injection Hout as _ ->. congruence.
  - exists attrsType. split; [done|]. split; [done|].
    destruct (Struct_fields typ object target opts path
                (AttributeTypes attrsType) (As object).1
                (fields_list (typeFields (TypeOf target)))
                (Zero (TypeOf target)) [])
      as [log [[r|[v' d']]|]] eqn:Hloop; [| |done].
    + apply Struct_fields_Return in Hloop as [_ Herr].
      rewrite bind_Returns in Hout. injection Hout as ->.
      simpl in Herr. congruence.
    + rewrite bind_Returns in Hout |- *. injection Hout as -> ->.
      unfold calls. simpl. by rewrite app_nil_r.
Qed.

(** ** How the decode engine ends *)

(** X1: when the source object cannot be unmarshalled into a map of its
    fields, [Struct] returns the target it was given and one
    incompatibility diagnostic that carries the error of [As]; it calls
    no collaborator. *)
Theorem Struct_unmarshal_error (typ : option AttrType) (object : TfValue)
    (target : GoValue) (opts : Options) (path : Path)
    (attrsType : TypeWithAttributeTypes)
    (objectFields : gmap string TfValue) (err : string) :
  KindOf target = KindStruct ->
  IsObject object = true ->
  typ ≫= asTypeWithAttributeTypes = Some attrsType ->
  As object = (objectFields, Some err) ->
  Struct typ object target opts path
  = ([], Returns (target, [incompatible object target path err])).
Proof.
  intros Hkind Hobj Htyp Has. unfold Struct.
  rewrite bool_decide_eq_false_2 by (intros Hk; by apply Hk).
  destruct (IsObject_true _ Hobj) as (objectType & -> & ->).
  by rewrite Htyp, Has.
Qed.

(** X2: however [Struct] is called, it ends in one of three ways: it
    panics; it returns the target it was given, with an error among the
    diagnostics; or it returns a record of the type of the target, with
    no error among the diagnostics.  A record half filled is never
    returned. *)
Theorem Struct_outcomes (typ : option AttrType) (object : TfValue)
    (target : GoValue) (opts : Options) (path : Path) :
  outcome (Struct typ object target opts path) = Panics \/
  (exists diags : Diagnostics,
     outcome (Struct typ object target opts path) = Returns (target, diags) /\
     HasError diags = true) \/
  (exists (v : GoValue) (diags : Diagnostics),
     outcome (Struct typ object target opts path) = Returns (v, diags) /\
     HasError diags = false /\
     TypeOf v = TypeOf target).
Proof.
  destruct (Struct_cases typ object target opts path)
    as [Hrun|[(d & Hrun & Herr)|(attrsType & _ & _ & _ & _ & _ & Hrun)]];
    rewrite Hrun.
  - by left.
  - right. left. by exists d.
  - destruct (Struct_fields typ object target opts path
                (AttributeTypes attrsType) (As object).1
                (fields_list (typeFields (TypeOf target)))
                (Zero (TypeOf target)) [])
      as [log [[r|[v d]]|]] eqn:Hloop; [| |by left].
    + apply Struct_fields_Return in Hloop as [Htarget Herr].
      destruct r as [r d]. simpl in Htarget, Herr. subst r.
      right. left. exists d. by rewrite bind_Returns.
    + destruct (Struct_fields_Next _ _ _ _ _ _ _ _ _ _ _ _ Hloop)
        as (Hty & Hclean & _).
      right. right. exists v, d. rewrite bind_Returns.
      split; [done|]. split; [by apply Hclean|].
      simpl in Hty. by rewrite Hty, TypeOf_Zero.
Qed.

(** The loop of [Struct] looks at the target for its type only: it gives
    the target back when it stops, and nothing else of it is used. *)
Lemma Struct_fields_retarget (typ : option AttrType) (object : TfValue)
    (target target' : GoValue) (opts : Options) (path : Path)
    (attrTypes : gmap string (option AttrType))
    (objectFields : gmap string TfValue)
    (fields : list field) (result : GoValue) (diags : Diagnostics) :
  TypeOf target = TypeOf target' ->
  Struct_fields typ object target' opts path attrTypes objectFields
    fields result diags
  = let '(log, o) :=
      Struct_fields typ object target opts path attrTypes objectFields
        fields result diags in
    (log, match o with
          | Returns (Return (_, d)) => Returns (Return (target', d))
          | _ => o
          end).
Proof.
  intros Hty. revert result diags.
  induction fields as [|fld fields IH]; intros result diags; simpl; [done|].
  destruct (attrTypes !! field_name fld) as [attrType|].
  2: { unfold missingTypeDiag. by rewrite Hty. }
  destruct (fieldByIndex result (field_index fld)) as [structField|];
    [|done].
  rewrite !bind_orPanic_Some.
  destruct (BuildValue attrType _ structField opts _)
    as [fieldVal fieldValDiags].
  rewrite !bind_call.
  destruct (HasError (Append diags fieldValDiags)); [done|].
  destruct (SetField result (field_index fld) fieldVal) as [result1|];
    [|done].
  rewrite !bind_orPanic_Some, IH.
  by destruct (Struct_fields typ object target opts path attrTypes
                 objectFields fields result1 (Append diags fieldValDiags))
    as [log1 [[[r d]|s]|]].
Qed.

(** X3: [Struct] takes from the target its type and nothing else.  Called
    with another target of the same type, it makes the same calls and
    reports the same diagnostics; the record it returns without an error
    is the same, and with an error each call gets back its own target. *)
Theorem Struct_reads_only_the_type (typ : option AttrType)
    (object : TfValue) (target target' : GoValue) (opts : Options)
    (path : Path) :
  TypeOf target = TypeOf target' ->
  Struct typ object target' opts path
  = (calls (Struct typ object target opts path),
     match outcome (Struct typ object target opts path) with
     | Returns (v, diags) =>
         Returns (if HasError diags then target' else v, diags)
     | Panics => Panics
     end).
Proof.
  intros Hty. unfold Struct, incompatible, KindOf. rewrite <- Hty.
  destruct (bool_decide (KindOfType (TypeOf target) ≠ KindStruct));
    [reflexivity|].
  destruct (ValueType object) as [objectType|]; [|reflexivity].
  destruct (TypeIsObject objectType); simpl; [|reflexivity].
  destruct (typ ≫= asTypeWithAttributeTypes) as [attrsType|];
    [|reflexivity].
  destruct (As object) as [objectFields [err|]]; [reflexivity|].
  destruct (_ || _); [reflexivity|].
  rewrite (Struct_fields_retarget _ _ target target' _ _ _ _ _ _ _ Hty).
  destruct (Struct_fields typ object target opts path
              (AttributeTypes attrsType) objectFields
              (fields_list (typeFields (TypeOf target)))
              (Zero (TypeOf target)) [])
    as [log [[[r d]|[v d]]|]] eqn:Hloop; [| |reflexivity].
  - apply Struct_fields_Return in Hloop as [_ Herr]. simpl in Herr.
    rewrite !bind_Returns. unfold calls, outcome. simpl.
    by rewrite Herr.
  - destruct (Struct_fields_Next _ _ _ _ _ _ _ _ _ _ _ _ Hloop)
      as (_ & Hclean & _). simpl in Hclean.
    rewrite !bind_Returns. unfold calls, outcome. simpl.
    by rewrite Hclean.
Qed.

(** ** What the decode engine has done when it succeeds *)

(** X4: when [Struct] returns without an error, it has called the
    dispatcher once for each descriptor and made no other call, in the
    order of the descriptors, each time with the type the directory holds
    under the field's name, the value the object holds under it, and the
    path extended with it. *)
Theorem Struct_converts_each_field_once (typ : option AttrType)
    (object : TfValue) (target : GoValue) (opts : Options) (path : Path)
    (attrsType : TypeWithAttributeTypes)
    (v : GoValue) (diags : Diagnostics) :
  typ ≫= asTypeWithAttributeTypes = Some attrsType ->
  outcome (Struct typ object target opts path) = Returns (v, diags) ->
  HasError diags = false ->
  Forall2 (fun fld c =>
             exists (attrType : option AttrType) (slot : GoValue),
               AttributeTypes attrsType !! field_name fld = Some attrType /\
               c = CallBuildValue attrType
                     (default TfZero ((As object).1 !! field_name fld))
                     slot opts (AtName path (field_name fld)))
          (fields_list (typeFields (TypeOf target)))
          (calls (Struct typ object target opts path)).
Proof.
  intros Htyp Hout Hclean.
  destruct (Struct_success _ _ _ _ _ _ _ Hout Hclean)
    as (attrsType' & Htyp' & _ & Hloop).
  rewrite Htyp in Htyp'. injection Htyp' as <-.
  by destruct (Struct_fields_Next _ _ _ _ _ _ _ _ _ _ _ _ Hloop)
    as (_ & _ & _ & Hcalls & _).
Qed.

(** X5: the diagnostics [Struct] returns with a record it has built are
    what appending has made, from no diagnostic at all, of the reports
    of its calls to the dispatcher, one after the other in the order of
    the calls; nothing else is appended, and no report is left out. *)
Theorem Struct_appends_each_report (typ : option AttrType)
    (object : TfValue) (target : GoValue) (opts : Options) (path : Path)
    (v : GoValue) (diags : Diagnostics) :
  outcome (Struct typ object target opts path) = Returns (v, diags) ->
  HasError diags = false ->
  diags
  = foldl Append [] (reported <$> calls (Struct typ object target opts path)).
Proof.
  intros Hout Hclean.
  destruct (Struct_success _ _ _ _ _ _ _ Hout Hclean)
    as (attrsType & _ & _ & Hloop).
  by apply Struct_fields_appends in Hloop.
Qed.

(** X6: a slot of the record that lies apart from the paths of all
    descriptors holds, in the record [Struct] returns, the zero value of
    its type, whatever the target held there. *)
Theorem Struct_leaves_other_slots_zero (typ : option AttrType)
    (object : TfValue) (target : GoValue) (opts : Options) (path : Path)
    (v : GoValue) (diags : Diagnostics) (j : list nat) :
  outcome (Struct typ object target opts path) = Returns (v, diags) ->
  HasError diags = false ->
  (forall fld, fld ∈ fields_list (typeFields (TypeOf target)) ->
     apart (field_index fld) j = true) ->
  fieldByIndex v j = fieldByIndex (Zero (TypeOf target)) j.
Proof.
  intros Hout Hclean Hj.
  destruct (Struct_success _ _ _ _ _ _ _ Hout Hclean)
    as (attrsType & _ & _ & Hloop).
  destruct (Struct_fields_Next _ _ _ _ _ _ _ _ _ _ _ _ Hloop)
    as (_ & _ & _ & _ & Hkeep).
  by apply Hkeep.
Qed.

(** X7: when the paths of the descriptors part ways, the record [Struct]
    returns without an error holds, in the slot of each descriptor, what
    the dispatcher made for that field from the zero value of the slot. *)
Theorem Struct_sets_what_was_converted (typ : option AttrType)
    (object : TfValue) (target : GoValue) (opts : Options) (path : Path)
    (attrsType : TypeWithAttributeTypes)
    (v : GoValue) (diags : Diagnostics) :
  typ ≫= asTypeWithAttributeTypes = Some attrsType ->
  outcome (Struct typ object target opts path) = Returns (v, diags) ->
  HasError diags = false ->
  allApart (field_index <$> fields_list (typeFields (TypeOf target)))
  = true ->
  Forall (fun fld =>
            exists (attrType : option AttrType) (slot : GoValue),
              AttributeTypes attrsType !! field_name fld = Some attrType /\
              fieldByIndex (Zero (TypeOf target)) (field_index fld)
              = Some slot /\
              fieldByIndex v (field_index fld)
              = Some (BuildValue attrType
                        (default TfZero ((As object).1 !! field_name fld))
                        slot opts (AtName path (field_name fld))).1)
         (fields_list (typeFields (TypeOf target))).
Proof.
  intros Htyp Hout Hclean Hapart.
  destruct (Struct_success _ _ _ _ _ _ _ Hout Hclean)
    as (attrsType' & Htyp' & _ & Hloop).
  rewrite Htyp in Htyp'. injection Htyp' as <-.
  apply Forall_forall. intros fld Hfld.
  exact (Struct_fields_sets _ _ _ _ _ _ _ _ _ _ _ _ Hloop Hapart fld Hfld).
Qed.

(** ** Edges of the decode loop *)

(** X8: [Struct] assigns what the dispatcher returns without looking at
    it.  If the dispatcher reports no error and returns a value whose
    type is not the type of the field's slot, [Struct] panics at the
    assignment, right after that call. *)
Theorem Struct_wrong_type_panics (typ : option AttrType)
    (object : TfValue) (target : GoValue) (opts : Options) (path : Path)
    (attrsType : TypeWithAttributeTypes)
    (objectFields : gmap string TfValue)
    (done : list field) (fld : field) (rest : list field)
    (log : list Call) (result : GoValue) (diags : Diagnostics)
    (attrType : option AttrType) (structField : GoValue) :
  KindOf target = KindStruct ->
  IsObject object = true ->
  typ ≫= asTypeWithAttributeTypes = Some attrsType ->
  As object = (objectFields, None) ->
  dom (fields_nameIndex (typeFields (TypeOf target))) = dom objectFields ->
  fields_list (typeFields (TypeOf target)) = done ++ fld :: rest ->
  Struct_fields typ object target opts path (AttributeTypes attrsType)
    objectFields done (Zero (TypeOf target)) []
  = (log, Returns (Next (result, diags))) ->
  AttributeTypes attrsType !! field_name fld = Some attrType ->
  fieldByIndex result (field_index fld) = Some structField ->
  let val := default TfZero (objectFields !! field_name fld) in
  let p := AtName path (field_name fld) in
  HasError (BuildValue attrType val structField opts p).2 = false ->
  GoType_beq (TypeOf (BuildValue attrType val structField opts p).1)
             (TypeOf structField) = false ->
  Struct typ object target opts path
  = (log ++ [CallBuildValue attrType val structField opts p], Panics).
Proof.
  intros Hkind Hobj Htyp Has Hdom Hlist Hdone Hdecl Hslot val p Hok Hty.
  destruct (Struct_fields_Next _ _ _ _ _ _ _ _ _ _ _ _ Hdone)
    as (_ & Hclean & _). simpl in Hclean.
  rewrite (Struct_reconciled _ _ _ _ _ _ _ Hkind Hobj Htyp Has Hdom), Hlist.
  rewrite (Struct_fields_app _ _ _ _ _ _ _ _ _ _ _ _ _ _ Hdone).
  simpl. rewrite Hdecl, Hslot, bind_orPanic_Some. fold val p.
  destruct (BuildValue attrType val structField opts p)
    as [fieldVal fieldValDiags] eqn:Hbuild.
  simpl in Hok, Hty.
  rewrite bind_call, HasError_Append, Hclean, Hok by done. simpl.
  unfold SetField. rewrite Hslot. simpl. rewrite Hty.
  reflexivity.
Qed.

(** X9: the loop of [Struct] asks only whether the directory has an entry
    under the field's name, not whether the entry holds a type.  With an
    entry that holds none, the dispatcher is called for the field with a
    nil type; the missing-type diagnostic is not what [Struct] answers. *)
Theorem Struct_nil_declared_type (typ : option AttrType)
    (object : TfValue) (target : GoValue) (opts : Options) (path : Path)
    (attrsType : TypeWithAttributeTypes)
    (objectFields : gmap string TfValue)
    (done : list field) (fld : field) (rest : list field)
    (log : list Call) (result : GoValue) (diags : Diagnostics)
    (structField : GoValue) :
  KindOf target = KindStruct ->
  IsObject object = true ->
  typ ≫= asTypeWithAttributeTypes = Some attrsType ->
  As object = (objectFields, None) ->
  dom (fields_nameIndex (typeFields (TypeOf target))) = dom objectFields ->
  fields_list (typeFields (TypeOf target)) = done ++ fld :: rest ->
  Struct_fields typ object target opts path (AttributeTypes attrsType)
    objectFields done (Zero (TypeOf target)) []
  = (log, Returns (Next (result, diags))) ->
  AttributeTypes attrsType !! field_name fld = Some None ->
  fieldByIndex result (field_index fld) = Some structField ->
  let val := default TfZero (objectFields !! field_name fld) in
  let p := AtName path (field_name fld) in
  exists more : list Call,
    calls (Struct typ object target opts path)
    = log ++ CallBuildValue None val structField opts p :: more.
Proof.
  intros Hkind Hobj Htyp Has Hdom Hlist Hdone Hdecl Hslot val p.
  rewrite (Struct_reconciled _ _ _ _ _ _ _ Hkind Hobj Htyp Has Hdom), Hlist.
  rewrite (Struct_fields_app _ _ _ _ _ _ _ _ _ _ _ _ _ _ Hdone).
  simpl. rewrite Hdecl, Hslot, bind_orPanic_Some. fold val p.
  destruct (BuildValue None val structField opts p)
    as [fieldVal fieldValDiags].
  rewrite bind_call, calls_bind. unfold after, calls. simpl.
  eexists. rewrite <- app_assoc. reflexivity.
Qed.

(** X10: a struct without descriptors, reconciled with an object without
    fields, makes [Struct] return the zero value of the type of the
    target, with no diagnostic and no call. *)
Theorem Struct_no_descriptors (typ : option AttrType)
    (object : TfValue) (target : GoValue) (opts : Options) (path : Path)
    (attrsType : TypeWithAttributeTypes)
    (objectFields : gmap string TfValue) :
  KindOf target = KindStruct ->
  IsObject object = true ->
  typ ≫= asTypeWithAttributeTypes = Some attrsType ->
  As object = (objectFields, None) ->
  dom (fields_nameIndex (typeFields (TypeOf target))) = dom objectFields ->
  fields_list (typeFields (TypeOf target)) = [] ->
  Struct typ object target opts path
  = ([], Returns (Zero (TypeOf target), [])).
Proof.
  intros Hkind Hobj Htyp Has Hdom Hlist.
  by rewrite (Struct_reconciled _ _ _ _ _ _ _ Hkind Hobj Htyp Has Hdom),
    Hlist.
Qed.

(** ** Runs of the encode loop *)

Section FromStructRuns.
Variables (typ : TypeWithAttributeTypes) (val : GoValue) (path : Path).
Variable attrTypes : gmap string (option AttrType).

Local Abbreviation loop := (FromStruct_fields typ val path attrTypes).

(** A run of the loop that comes to its end has appended to the
    diagnostics, call after call, what the dispatcher and the hook
    reported. *)
Lemma FromStruct_fields_appends (fields : list field)
    (diags : Diagnostics) (objTypes : gmap string TfType)
    (objValues : gmap string TfValue) (log : list Call) (st : Assembly) :
  loop fields diags objTypes objValues = (log, Returns (Next st)) ->
  st.1.1 = foldl Append diags (reported <$> List.filter reports log).
Proof.
  revert diags objTypes objValues log.
  induction fields as [|fld fields IH];
    intros diags objTypes objValues log Hrun.
  - by injection Hrun as <- <-.
  - simpl in Hrun. encode_turn Hrun fld.
    destruct (Validate typ) as [validate|] eqn:Hhook.
    + rewrite bind_call in Hrun.
      destruct (HasError (Append (Append diags attrValDiags) _)); [done|].
      destruct (loop fields _ _ _) as [log1 o1] eqn:Hrest.
      injection Hrun as <- ->. rewrite (IH _ _ _ _ Hrest). simpl.
      by rewrite Hconv, Hhook.
    + destruct (loop fields _ _ _) as [log1 o1] eqn:Hrest.
      injection Hrun as <- ->. rewrite (IH _ _ _ _ Hrest). simpl.
      by rewrite Hconv.
Qed.

(** Such a run has put under the name of each field the wire type of the
    type the directory declares for it, and changed no other entry of
    the map of types. *)
Lemma FromStruct_fields_types (fields : list field)
    (diags : Diagnostics) (objTypes : gmap string TfType)
    (objValues : gmap string TfValue) (log : list Call) (st : Assembly) :
  loop fields diags objTypes objValues = (log, Returns (Next st)) ->
  (forall fld, fld ∈ fields ->
     exists attrType : AttrType,
       attrTypes !! field_name fld = Some (Some attrType) /\
       st.1.2 !! field_name fld = Some (TerraformType attrType)) /\
  (forall k, k ∉ field_name <$> fields -> st.1.2 !! k = objTypes !! k).
Proof.
  revert diags objTypes objValues log.
  induction fields as [|fld fields IH];
    intros diags objTypes objValues log Hrun.
  - injection Hrun as <- <-. split; [|done].
    intros fld Hin. by apply elem_of_nil in Hin.
  - simpl in Hrun. encode_turn Hrun fld.
    assert (forall d l,
              loop fields d
                (<[field_name fld := TerraformType attrType]> objTypes)
                (<[field_name fld := tfObjVal]> objValues)
              = (l, Returns (Next st)) ->
              (forall f, f ∈ fld :: fields ->
                 exists attrType : AttrType,
                   attrTypes !! field_name f = Some (Some attrType) /\
                   st.1.2 !! field_name f = Some (TerraformType attrType)) /\
              (forall k, k ∉ field_name <$> fld :: fields ->
                 st.1.2 !! k = objTypes !! k)) as Hstep.
    { intros d l Hrest.
      destruct (IH _ _ _ _ Hrest) as [Htypes Hkeep].
      split.
      - intros f [->|Hin]%elem_of_cons; [|by apply Htypes].
        exists attrType. split; [done|].
        destruct (decide (field_name fld ∈ field_name <$> fields))
          as [Hagain|Hfresh].
        + apply list_elem_of_fmap in Hagain as (g & Hname & Hg).
          destruct (Htypes g Hg) as (attrType' & Hdecl' & Hty).
          rewrite <- Hname in Hdecl', Hty. congruence.
        + by rewrite (Hkeep _ Hfresh), lookup_insert_eq.
      - intros k Hk. rewrite fmap_cons, not_elem_of_cons in Hk.
        destruct Hk as [Hne Hk].
        rewrite (Hkeep _ Hk). by rewrite lookup_insert_ne. }
    encode_rest Hrun typ; by eapply Hstep.
Qed.

End FromStructRuns.

(** The loop of [FromStruct] reads the record at the paths of the
    descriptors only. *)
Lemma FromStruct_fields_reads (typ : TypeWithAttributeTypes)
    (val val' : GoValue) (path : Path)
    (attrTypes : gmap string (option AttrType))
    (fields : list field) (diags : Diagnostics)
    (objTypes : gmap string TfType) (objValues : gmap string TfValue) :
  (forall fld, fld ∈ fields ->
     fieldByIndex val' (field_index fld) = fieldByIndex val (field_index fld)) ->
  FromStruct_fields typ val' path attrTypes fields diags objTypes objValues
  = FromStruct_fields typ val path attrTypes fields diags objTypes objValues.
Proof.
  revert diags objTypes objValues.
  induction fields as [|fld fields IH];
    intros diags objTypes objValues Hagree; [done|].
  assert (forall d t v,
            FromStruct_fields typ val' path attrTypes fields d t v
            = FromStruct_fields typ val path attrTypes fields d t v) as Hrest
    by (intros d t v; apply IH; intros f Hf; apply Hagree; by right).
  simpl. rewrite (Hagree fld) by (by left).
  destruct (fieldByIndex val (field_index fld)) as [fieldValue|]; [|done].
  rewrite !bind_orPanic_Some.
  destruct (FromValue _ fieldValue _) as [attrVal attrValDiags].
  rewrite !bind_call.
  destruct (HasError (Append diags attrValDiags)); [done|].
  destruct (attrTypes !! field_name fld) as [[attrType|]|]; [|done|done].
  rewrite !bind_call.
  destruct attrVal as [attrVal|]; [|done]. rewrite !bind_orPanic_Some.
  destruct (ToTerraformValue attrVal) as [tfObjVal [err|]];
    rewrite !bind_call; [done|].
  destruct (Validate typ) as [validate|]; [|by rewrite Hrest].
  rewrite !bind_call. destruct (HasError _); [done|]. by rewrite Hrest.
Qed.

(** When [FromStruct] returns a value, its loop has come to its end, the
    hook, if any, has reported no error on the assembled object, and the
    type has rebuilt that object, in the last call. *)
Lemma FromStruct_value (typ : TypeWithAttributeTypes) (val : GoValue)
    (path : Path) (r : AttrValue) (diags : Diagnostics) :
  outcome (FromStruct typ val path) = Returns (Some r, diags) ->
  exists (log : list Call) (loopDiags : Diagnostics)
         (objTypes : gmap string TfType) (objValues : gmap string TfValue),
    FromStruct_fields typ val path (AttributeTypes typ)
      (fields_list (typeFields (TypeOf val))) [] ∅ ∅
    = (log, Returns (Next (loopDiags, objTypes, objValues))) /\
    let tfVal := NewObjectValue objTypes objValues in
    let retType := WithAttributeTypes typ (AttributeTypes typ) in
    let checked :=
      match Validate typ with
      | Some validate => validate tfVal path
      | None => []
      end in
    HasError loopDiags = false /\
    HasError checked = false /\
    ValueFromTerraform retType tfVal = (Some r, None) /\
    diags = loopDiags ++ checked /\
    calls (FromStruct typ val path)
    = log ++ match Validate typ with
             | Some _ => [CallValidate typ tfVal path]
             | None => []
             end ++ [CallValueFromTerraform retType tfVal].
Proof.
  rewrite FromStruct_run.
  destruct (FromStruct_fields typ val path (AttributeTypes typ)
              (fields_list (typeFields (TypeOf val))) [] ∅ ∅)
    as [log [[res|[[loopDiags objTypes] objValues]]|]] eqn:Hloop;
    [| |done].
  { apply FromStruct_fields_Return in Hloop as [Hnone _].
    rewrite bind_Returns. unfold outcome. simpl. intros [= Hres].
    rewrite Hres in Hnone. done. }
  pose proof (FromStruct_fields_Next_no_error _ _ _ _ _ _ _ _ _ _
                Hloop eq_refl) as Hclean. simpl in Hclean.
  rewrite bind_Returns. unfold outcome, calls. simpl.
  unfold FromStruct_finish.
  intros Hout. exists log, loopDiags, objTypes, objValues.
  split; [done|]. simpl. split; [done|]. revert Hout.
  destruct (Validate typ) as [validate|].
  - rewrite bind_call, HasError_Append, Hclean. simpl.
    destruct (HasError (validate _ path)); [done|].
    destruct (ValueFromTerraform _ _) as [r' [err|]];
      rewrite bind_call; simpl; [done|].
    intros [= -> <-]. done.
  - destruct (ValueFromTerraform _ _) as [r' [err|]];
      rewrite bind_call; simpl; [done|].
    intros [= -> <-]. by rewrite app_nil_r.
Qed.

(** ** How the encode engine ends *)

(** X11: however [FromStruct] is called, it ends in one of three ways:
    it panics; it returns no value, with at least one diagnostic; or it
    returns what the type has rebuilt from the assembled object, without
    an error, in its last call, and the diagnostics hold no error. *)
Theorem FromStruct_outcomes (typ : TypeWithAttributeTypes) (val : GoValue)
    (path : Path) :
  outcome (FromStruct typ val path) = Panics \/
  (exists diags : Diagnostics,
     outcome (FromStruct typ val path) = Returns (None, diags) /\
     diags ≠ []) \/
  (exists (log : list Call) (tfVal : TfValue) (r : option AttrValue)
          (diags : Diagnostics),
     let retType := WithAttributeTypes typ (AttributeTypes typ) in
     FromStruct typ val path
     = (log ++ [CallValueFromTerraform retType tfVal], Returns (r, diags)) /\
     ValueFromTerraform retType tfVal = (r, None) /\
     HasError diags = false).
Proof.
  assert (forall d : Diagnostics, HasError d = true -> d ≠ []) as Hsome
    by (by intros [|x d]).
  assert (forall (d : Diagnostics) x, d ++ [x] ≠ []) as Hsnoc
    by (by intros [|y d] x).
  rewrite FromStruct_run.
  destruct (FromStruct_fields typ val path (AttributeTypes typ)
              (fields_list (typeFields (TypeOf val))) [] ∅ ∅)
    as [log [[res|[[loopDiags objTypes] objValues]]|]] eqn:Hloop;
    [| |by left].
  { apply FromStruct_fields_Return in Hloop as [Hnone Hdiags].
    destruct res as [res d]. simpl in Hnone, Hdiags. subst res.
    right. left. exists d. by rewrite bind_Returns. }
  pose proof (FromStruct_fields_Next_no_error _ _ _ _ _ _ _ _ _ _
                Hloop eq_refl) as Hclean. simpl in Hclean.
  rewrite bind_Returns. unfold outcome. simpl. unfold FromStruct_finish.
  destruct (Validate typ) as [validate|].
  - rewrite bind_call. simpl.
    destruct (HasError (Append loopDiags (validate _ path))) eqn:Hhook.
    { right. left. eexists. split; [reflexivity|]. by apply Hsome. }
    destruct (ValueFromTerraform _ _) as [r [err|]] eqn:Hrebuilt;
      rewrite bind_call; simpl.
    { right. left. eexists. split; [reflexivity|]. apply Hsnoc. }
    right. right. eexists (log ++ [_]), _, r, _.
    split; [by rewrite <- app_assoc|]. by split.
  - destruct (ValueFromTerraform _ _) as [r [err|]] eqn:Hrebuilt;
      rewrite bind_call; simpl.
    { right. left. eexists. split; [reflexivity|]. apply Hsnoc. }
    right. right. by eexists log, _, r, _.
Qed.

(** X12: when the dispatcher reports an error for a field, whatever the
    directory holds for it, [FromStruct] returns no value and the
    diagnostics so far with what the dispatcher reported; that call is
    its last one. *)
Theorem FromStruct_conversion_error_stops (typ : TypeWithAttributeTypes)
    (val : GoValue) (path : Path)
    (done : list field) (fld : field) (rest : list field)
    (log : list Call) (diags : Diagnostics)
    (objTypes : gmap string TfType) (objValues : gmap string TfValue)
    (fieldValue : GoValue) :
  fields_list (typeFields (TypeOf val)) = done ++ fld :: rest ->
  FromStruct_fields typ val path (AttributeTypes typ) done [] ∅ ∅
  = (log, Returns (Next (diags, objTypes, objValues))) ->
  fieldByIndex val (field_index fld) = Some fieldValue ->
  let p := AtName path (field_name fld) in
  let declared := default None (AttributeTypes typ !! field_name fld) in
  HasError (FromValue declared fieldValue p).2 = true ->
  FromStruct typ val path
  = (log ++ [CallFromValue declared fieldValue p],
     Returns (None, diags ++ (FromValue declared fieldValue p).2)).
Proof.
  intros Hlist Hdone Hfield p declared Herr.
  rewrite (FromStruct_stopped _ _ _ _ _ _ _ _ Hlist Hdone). simpl.
  rewrite Hfield, bind_orPanic_Some. fold p declared.
  destruct (FromValue declared fieldValue p) as [attrVal attrValDiags].
  simpl in Herr.
  rewrite bind_call, HasError_Append, Herr, orb_true_r.
  unfold after, ret, bind. simpl. by rewrite !app_nil_r.
Qed.

(** X13: when the value the dispatcher made cannot be put in wire form,
    [FromStruct] returns no value and the diagnostics so far with the
    diagnostic of that error, at the path extended with the field's
    name; the hook is not called for the field, and no later field is
    looked at. *)
Theorem FromStruct_wire_error_stops (typ : TypeWithAttributeTypes)
    (val : GoValue) (path : Path)
    (done : list field) (fld : field) (rest : list field)
    (log : list Call) (diags : Diagnostics)
    (objTypes : gmap string TfType) (objValues : gmap string TfValue)
    (fieldValue : GoValue) (attrType : AttrType) (attrVal : AttrValue)
    (attrValDiags : Diagnostics) (tfObjVal : TfValue) (err : string) :
  fields_list (typeFields (TypeOf val)) = done ++ fld :: rest ->
  FromStruct_fields typ val path (AttributeTypes typ) done [] ∅ ∅
  = (log, Returns (Next (diags, objTypes, objValues))) ->
  AttributeTypes typ !! field_name fld = Some (Some attrType) ->
  fieldByIndex val (field_index fld) = Some fieldValue ->
  let p := AtName path (field_name fld) in
  FromValue (Some attrType) fieldValue p = (Some attrVal, attrValDiags) ->
  HasError attrValDiags = false ->
  ToTerraformValue attrVal = (tfObjVal, Some err) ->
  FromStruct typ val path
  = (log ++ [CallFromValue (Some attrType) fieldValue p;
             CallTerraformType attrType;
             CallToTerraformValue attrVal],
     Returns (None,
              diags ++ attrValDiags ++ [toTerraformValueErrorDiag err p])).
Proof.
  intros Hlist Hdone Hty Hfield p Hconv Hok Hwire.
  pose proof (FromStruct_fields_Next_no_error _ _ _ _ _ _ _ _ _ _ Hdone
                eq_refl) as Hclean. simpl in Hclean.
  rewrite (FromStruct_stopped _ _ _ _ _ _ _ _ Hlist Hdone). simpl.
  rewrite Hfield, bind_orPanic_Some, Hty. simpl. fold p.
  rewrite Hconv, bind_call, HasError_Append, Hclean, Hok. simpl.
  rewrite bind_call, bind_orPanic_Some, Hwire, bind_call.
  unfold after, ret, bind, Append. simpl.
  by rewrite ?app_nil_r, <- app_assoc.
Qed.

(** X14: [FromStruct] puts in wire form what the dispatcher returns
    without looking at it.  If the dispatcher reports no error and
    returns no value for a field with a declared type, [FromStruct]
    panics, after it has asked the declared type for its wire type. *)
Theorem FromStruct_nil_value_panics (typ : TypeWithAttributeTypes)
    (val : GoValue) (path : Path)
    (done : list field) (fld : field) (rest : list field)
    (log : list Call) (diags : Diagnostics)
    (objTypes : gmap string TfType) (objValues : gmap string TfValue)
    (fieldValue : GoValue) (attrType : AttrType)
    (attrValDiags : Diagnostics) :
  fields_list (typeFields (TypeOf val)) = done ++ fld :: rest ->
  FromStruct_fields typ val path (AttributeTypes typ) done [] ∅ ∅
  = (log, Returns (Next (diags, objTypes, objValues))) ->
  AttributeTypes typ !! field_name fld = Some (Some attrType) ->
  fieldByIndex val (field_index fld) = Some fieldValue ->
  let p := AtName path (field_name fld) in
  FromValue (Some attrType) fieldValue p = (None, attrValDiags) ->
  HasError attrValDiags = false ->
  FromStruct typ val path
  = (log ++ [CallFromValue (Some attrType) fieldValue p;
             CallTerraformType attrType],
     Panics).
Proof.
  intros Hlist Hdone Hty Hfield p Hconv Hok.
  pose proof (FromStruct_fields_Next_no_error _ _ _ _ _ _ _ _ _ _ Hdone
                eq_refl) as Hclean. simpl in Hclean.
  rewrite (FromStruct_stopped _ _ _ _ _ _ _ _ Hlist Hdone). simpl.
  rewrite Hfield, bind_orPanic_Some, Hty. simpl. fold p.
  rewrite Hconv, bind_call, HasError_Append, Hclean, Hok. simpl.
  reflexivity.
Qed.

(** X15: when the type cannot rebuild the assembled object, [FromStruct]
    returns no value, whatever the type gave back with its error, and
    the diagnostics so far with the diagnostic of that error, at the
    path [FromStruct] was given. *)
Theorem FromStruct_rebuild_error (typ : TypeWithAttributeTypes)
    (val : GoValue) (path : Path) (log : list Call) (diags : Diagnostics)
    (objTypes : gmap string TfType) (objValues : gmap string TfValue)
    (r : option AttrValue) (err : string) :
  FromStruct_fields typ val path (AttributeTypes typ)
    (fields_list (typeFields (TypeOf val))) [] ∅ ∅
  = (log, Returns (Next (diags, objTypes, objValues))) ->
  let tfVal := NewObjectValue objTypes objValues in
  let checked :=
    match Validate typ with
    | Some validate => validate tfVal path
    | None => []
    end in
  HasError checked = false ->
  ValueFromTerraform (WithAttributeTypes typ (AttributeTypes typ)) tfVal
  = (r, Some err) ->
  outcome (FromStruct typ val path)
  = Returns (None,
             diags ++ checked ++ [valueFromTerraformErrorDiag err path]).
Proof.
  intros Hloop tfVal checked Hchecked Hrebuilt.
  pose proof (FromStruct_fields_Next_no_error _ _ _ _ _ _ _ _ _ _
                Hloop eq_refl) as Hclean. simpl in Hclean.
  rewrite (FromStruct_assembled _ _ _ _ _ _ _ Hloop).
  unfold FromStruct_finish. fold tfVal. subst checked.
  destruct (Validate typ) as [validate|].
  - rewrite bind_call, HasError_Append, Hclean, Hchecked. simpl.
    rewrite Hrebuilt, bind_call. unfold Append, outcome. simpl.
    by rewrite <- app_assoc.
  - rewrite Hrebuilt, bind_call. reflexivity.
Qed.

(** ** What the encode engine has assembled *)

(** X16: when the loop of [FromStruct] has come to its end, the map of
    types it has built holds, under the name of each descriptor, the
    wire type of the type the directory declares under that name. *)
Theorem FromStruct_object_types (typ : TypeWithAttributeTypes)
    (val : GoValue) (path : Path) (log : list Call) (diags : Diagnostics)
    (objTypes : gmap string TfType) (objValues : gmap string TfValue) :
  FromStruct_fields typ val path (AttributeTypes typ)
    (fields_list (typeFields (TypeOf val))) [] ∅ ∅
  = (log, Returns (Next (diags, objTypes, objValues))) ->
  Forall (fun name =>
            exists attrType : AttrType,
              AttributeTypes typ !! name = Some (Some attrType) /\
              objTypes !! name = Some (TerraformType attrType))
         (fieldNames (typeFields (TypeOf val))).
Proof.
  intros Hloop.
  destruct (FromStruct_fields_types _ _ _ _ _ _ _ _ _ _ Hloop) as [Htypes _].
  apply Forall_forall. intros name Hname. unfold fieldNames in Hname.
  apply list_elem_of_fmap in Hname as (fld & -> & Hfld).
  by apply Htypes.
Qed.

(** X17: when no name comes twice among the descriptors and the loop of
    [FromStruct] has come to its end, the map of values it has built
    holds, under the name of each descriptor, the wire form of what the
    dispatcher made of the field at the descriptor's path. *)
Theorem FromStruct_object_values (typ : TypeWithAttributeTypes)
    (val : GoValue) (path : Path) (log : list Call) (diags : Diagnostics)
    (objTypes : gmap string TfType) (objValues : gmap string TfValue) :
  NoDup (fieldNames (typeFields (TypeOf val))) ->
  FromStruct_fields typ val path (AttributeTypes typ)
    (fields_list (typeFields (TypeOf val))) [] ∅ ∅
  = (log, Returns (Next (diags, objTypes, objValues))) ->
  Forall (fun fld =>
            exists (fv : GoValue) (attrType : AttrType) (attrVal : AttrValue),
              fieldByIndex val (field_index fld) = Some fv /\
              AttributeTypes typ !! field_name fld = Some (Some attrType) /\
              (FromValue (Some attrType) fv
                 (AtName path (field_name fld))).1 = Some attrVal /\
              objValues !! field_name fld
              = Some (ToTerraformValue attrVal).1)
         (fields_list (typeFields (TypeOf val))).
Proof.
  intros Hnodup Hloop.
  destruct (FromStruct_fields_values _ _ _ _ _ _ _ _ _ _ Hloop Hnodup)
    as [Hvals _].
  apply Forall_forall. intros fld Hfld. by apply Hvals.
Qed.

(** X18: the diagnostics [FromStruct] returns with a value are what
    appending has made, from no diagnostic at all, of the reports of its
    calls to the dispatcher and to the hook, one after the other in the
    order of the calls; nothing else is appended, no report is left out,
    and none of the diagnostics is an error. *)
Theorem FromStruct_appends_each_report (typ : TypeWithAttributeTypes)
    (val : GoValue) (path : Path) (r : AttrValue) (diags : Diagnostics) :
  outcome (FromStruct typ val path) = Returns (Some r, diags) ->
  diags
  = foldl Append []
      (reported <$> List.filter reports (calls (FromStruct typ val path))) /\
  HasError diags = false.
Proof.
  intros Hout.
  destruct (FromStruct_value _ _ _ _ _ Hout)
    as (log & loopDiags & objTypes & objValues & Hloop & Hclean & Hchecked
        & _ & -> & ->).
  split; [|by rewrite HasError_app, Hclean, Hchecked].
  apply FromStruct_fields_appends in Hloop. simpl in Hloop.
  rewrite !List.filter_app, !fmap_app, !foldl_app, <- Hloop.
  destruct (Validate typ) as [validate|] eqn:Hhook; simpl.
  - by rewrite Hhook.
  - by rewrite app_nil_r.
Qed.

(** X19: [FromStruct] reads the record at the paths of the descriptors
    and nowhere else: two records that hold the same values there are
    encoded alike, call for call. *)
Theorem FromStruct_reads_only_descriptors (typ : TypeWithAttributeTypes)
    (val val' : GoValue) (path : Path) :
  TypeOf val' = TypeOf val ->
  Forall (fun fld =>
            fieldByIndex val' (field_index fld)
            = fieldByIndex val (field_index fld))
         (fields_list (typeFields (TypeOf val))) ->
  FromStruct typ val' path = FromStruct typ val path.
Proof.
  intros Hty Hsame. rewrite !FromStruct_run, Hty.
  rewrite (FromStruct_fields_reads typ val val'); [done|].
  by apply Forall_forall.
Qed.

(** ** The round trip, the other way round *)

Section FromStructThrough.
Variables (typ : TypeWithAttributeTypes) (val : GoValue) (path : Path).
Variable attrTypes : gmap string (option AttrType).

(** The loop of [FromStruct] comes to its end when every field has a
    declared type, a value from the dispatcher with a wire form, and no
    error from the dispatcher or the hook. *)
Lemma FromStruct_fields_through (fields : list field)
    (diags : Diagnostics) (objTypes : gmap string TfType)
    (objValues : gmap string TfValue) :
  HasError diags = false ->
  (forall fld, fld ∈ fields ->
     exists (fv : GoValue) (attrType : AttrType) (attrVal : AttrValue)
            (w : TfValue),
       let p := AtName path (field_name fld) in
       fieldByIndex val (field_index fld) = Some fv /\
       attrTypes !! field_name fld = Some (Some attrType) /\
       (FromValue (Some attrType) fv p).1 = Some attrVal /\
       HasError (FromValue (Some attrType) fv p).2 = false /\
       ToTerraformValue attrVal = (w, None) /\
       HasError (match Validate typ with
                 | Some validate => validate w p
                 | None => []
                 end) = false) ->
  exists (log : list Call) (st : Assembly),
    FromStruct_fields typ val path attrTypes fields diags objTypes objValues
    = (log, Returns (Next st)).
Proof.
  revert diags objTypes objValues.
  induction fields as [|fld fields IH];
    intros diags objTypes objValues Hclean Hall.
  - by eexists _, _.
  - destruct (Hall fld) as (fv & attrType & attrVal & w & Hfv & Hdecl
                            & Hconv & Hok & Hwire & Hhook); [by left|].
    assert (forall f, f ∈ fields ->
              exists (fv : GoValue) (attrType : AttrType)
                     (attrVal : AttrValue) (w : TfValue),
                let p := AtName path (field_name f) in
                fieldByIndex val (field_index f) = Some fv /\
                attrTypes !! field_name f = Some (Some attrType) /\
                (FromValue (Some attrType) fv p).1 = Some attrVal /\
                HasError (FromValue (Some attrType) fv p).2 = false /\
                ToTerraformValue attrVal = (w, None) /\
                HasError (match Validate typ with
                          | Some validate => validate w p
                          | None => []
                          end) = false) as Hrest
      by (intros f Hf; apply Hall; by right).
    simpl in Hfv, Hdecl, Hconv, Hok, Hwire, Hhook. simpl.
    rewrite Hfv, bind_orPanic_Some, Hdecl. simpl.
    destruct (FromValue (Some attrType) fv (AtName path (field_name fld)))
      as [attrVal' attrValDiags]. simpl in Hconv, Hok. subst attrVal'.
    rewrite bind_call, HasError_Append, Hclean, Hok. simpl.
    rewrite bind_call, bind_orPanic_Some, Hwire, bind_call.
    destruct (Validate typ) as [validate|].
    + rewrite bind_call, !HasError_Append, Hclean, Hok, Hhook. simpl.
      destruct (IH (Append (Append diags attrValDiags)
                      (validate w (AtName path (field_name fld))))
                  (<[field_name fld := TerraformType attrType]> objTypes)
                  (<[field_name fld := w]> objValues))
        as (log & st & ->); [|done|by eexists _, _].
      by rewrite !HasError_Append, Hclean, Hok, Hhook.
    + destruct (IH (Append diags attrValDiags)
                  (<[field_name fld := TerraformType attrType]> objTypes)
                  (<[field_name fld := w]> objValues))
        as (log & st & ->); [|done|by eexists _, _].
      by rewrite HasError_Append, Hclean, Hok.
Qed.

End FromStructThrough.

(** X20: let [Struct] make the record [v] of an object, without an
    error.  When the names of the record type are indexed once each,
    their paths part ways and every field comes back through the two
    dispatchers, the loop of [FromStruct] on [v] comes to its end, and
    the values it has assembled are the fields of the object. *)
Theorem FromStruct_Struct_round_trip (schema : option AttrType)
    (typ : TypeWithAttributeTypes) (object : TfValue)
    (target v : GoValue) (opts : Options) (path : Path)
    (diags : Diagnostics) :
  schema ≫= asTypeWithAttributeTypes = Some typ ->
  outcome (Struct schema object target opts path) = Returns (v, diags) ->
  HasError diags = false ->
  dom (fields_nameIndex (typeFields (TypeOf target)))
  = list_to_set (fieldNames (typeFields (TypeOf target))) ->
  NoDup (fieldNames (typeFields (TypeOf target))) ->
  allApart (field_index <$> fields_list (typeFields (TypeOf target)))
  = true ->
  Forall (fieldComesBack typ (As object).1 target opts path)
         (fields_list (typeFields (TypeOf target))) ->
  exists (log : list Call) (encoded : Diagnostics)
         (objTypes : gmap string TfType),
    FromStruct_fields typ v path (AttributeTypes typ)
      (fields_list (typeFields (TypeOf v))) [] ∅ ∅
    = (log, Returns (Next (encoded, objTypes, (As object).1))).
Proof.
  intros Hschema Hout Hclean Hindex Hnodup Hapart Hback.
  destruct (Struct_success _ _ _ _ _ _ _ Hout Hclean)
    as (typ' & Hschema' & Hdom & Hloop).
  rewrite Hschema in Hschema'. injection Hschema' as <-.
  destruct (Struct_fields_Next _ _ _ _ _ _ _ _ _ _ _ _ Hloop)
    as (Hty & _). simpl in Hty. rewrite TypeOf_Zero in Hty.
  pose proof (Struct_fields_sets _ _ _ _ _ _ _ _ _ _ _ _ Hloop Hapart)
    as Hset. simpl in Hset.
  rewrite Forall_forall in Hback. rewrite Hty.
  destruct (FromStruct_fields_through typ v path (AttributeTypes typ)
              (fields_list (typeFields (TypeOf target))) [] ∅ ∅)
    as (log & [[encoded objTypes] objValues] & Hrun); [done| |].
  { intros fld Hfld.
    destruct (Hback fld Hfld)
      as (attrType & w & slot & attrVal & Hdecl & Hw & Hslot & Hconv & Hok
          & Hwire & Hhook).
    destruct (Hset fld Hfld) as (attrType' & slot' & Hdecl' & Hslot' & Hv).
    rewrite Hdecl in Hdecl'. injection Hdecl' as <-.
    rewrite Hslot in Hslot'. injection Hslot' as <-.
    rewrite Hw in Hv. simpl in Hv.
    by eexists _, attrType, attrVal, w. }
  exists log, encoded, objTypes. rewrite Hrun. do 4 f_equal.
  destruct (FromStruct_fields_dom _ _ _ _ _ _ _ _ _ _ Hrun) as [_ Hkeys].
  simpl in Hkeys. rewrite dom_empty_L, (left_id_L ∅ (∪)) in Hkeys.
  destruct (FromStruct_fields_values _ _ _ _ _ _ _ _ _ _ Hrun Hnodup)
    as [Hvals _]. simpl in Hvals.
  apply map_eq. intros k.
  destruct (decide (k ∈ fieldNames (typeFields (TypeOf target))))
    as [Hin|Hout'].
  - unfold fieldNames in Hin.
    apply list_elem_of_fmap in Hin as (fld & -> & Hfld).
    destruct (Hback fld Hfld)
      as (attrType & w & slot & attrVal & Hdecl & Hw & Hslot & Hconv & Hok
          & Hwire & Hhook).
    destruct (Hset fld Hfld) as (attrType' & slot' & Hdecl' & Hslot' & Hv).
    rewrite Hdecl in Hdecl'. injection Hdecl' as <-.
    rewrite Hslot in Hslot'. injection Hslot' as <-.
    rewrite Hw in Hv. simpl in Hv.
    destruct (Hvals fld Hfld)
      as (fv' & attrType' & attrVal' & Hfv' & Hdecl' & Hconv' & Hheld).
    rewrite Hv in Hfv'. injection Hfv' as <-.
    rewrite Hdecl in Hdecl'. injection Hdecl' as <-.
    simpl in Hconv. rewrite Hconv in Hconv'. injection Hconv' as <-.
    by rewrite Hheld, Hwire, Hw.
  - assert (k ∉ dom objValues) as Hnone
      by (rewrite Hkeys; by rewrite elem_of_list_to_set).
    assert (k ∉ dom (As object).1) as Hnone'
      by (rewrite <- Hdom, Hindex; by rewrite elem_of_list_to_set).
    apply not_elem_of_dom in Hnone, Hnone'. by rewrite Hnone, Hnone'.
Qed.
End Properties.

(** * Worked examples *)

(** The scenario of the specification: a person decodes and encodes. *)
Example decode_ana :
  Struct Demo.personType Demo.anaObject (Zero Demo.Person) tt Demo.root
  = ([CallBuildValue (Some Demo.StringType) (Demo.WireString "Ana")
        (VString "") tt (Demo.atName "name");
      CallBuildValue (Some Demo.NumberType) (Demo.WireNumber 30)
        (VInt64 0) tt (Demo.atName "age")],
     Returns (Demo.ana, [])).
Proof. reflexivity. Qed.

Example encode_ana :
  outcome (FromStruct (Demo.mkObjectType true None Demo.personAttrs)
             Demo.ana Demo.root)
  = Returns (Some Demo.anaObject, []).
Proof. reflexivity. Qed.

(** The preconditions at a source that is a string, and at a type that
    is no object type. *)
Example Struct_incompatible_source :
  Struct Demo.personType (Demo.WireString "Ana") (Zero Demo.Person) tt
    Demo.root
  = ([], Returns (Zero Demo.Person,
                  [incompatible (Demo.WireString "Ana") (Zero Demo.Person)
                     Demo.root
                     "cannot reflect tftypes.String into a struct, must be an object"])).
Proof. reflexivity. Qed.

Example Struct_incompatible_type :
  exists err : string,
    Struct (Some Demo.StringType) Demo.anaObject (Zero Demo.Person) tt Demo.root
    = ([], Returns (Zero Demo.Person,
                    [incompatible Demo.anaObject (Zero Demo.Person) Demo.root
                       err])) /\
    HasError [incompatible Demo.anaObject (Zero Demo.Person) Demo.root err]
    = true.
Proof.
  apply (@Struct_incompatible Demo.tftypes Demo.provider
           (Some Demo.StringType) Demo.anaObject (Zero Demo.Person) tt
           Demo.root).
  right. eexists. split; [reflexivity|]. right. reflexivity.
Qed.

(** C6 at the value without a type: a person cannot be made of it, and
    no diagnostic says so. *)
Lemma Struct_untyped_source_panics_witness :
  Struct Demo.personType Demo.WireZero (Zero Demo.Person) tt Demo.root
  = ([], Panics).
Proof.
  apply (@Struct_untyped_source_panics Demo.tftypes Demo.provider
           Demo.personType Demo.WireZero (Zero Demo.Person) tt Demo.root);
    reflexivity.
Defined.

(** C1 at a struct with the names name, extra and beta and an object with
    the keys name, age and zulu. *)
Lemma Struct_mismatch_witness :
  Struct Demo.personType Demo.zuluObject (Zero Demo.Wide) tt Demo.root
  = ([], Returns (Zero Demo.Wide,
                  [incompatible Demo.zuluObject (Zero Demo.Wide) Demo.root
                     "mismatch between struct and object: Struct defines fields not found in object: beta, extra. Object defines fields not found in struct: age, zulu."])).
Proof.
  destruct (@Struct_mismatch Demo.tftypes Demo.provider Demo.personType
              Demo.zuluObject (Zero Demo.Wide) tt Demo.root
              (Demo.mkObjectType true None Demo.personAttrs)
              (Demo.wireAs Demo.zuluObject).1) as [Hrun _].
  - reflexivity.
  - reflexivity.
  - reflexivity.
  - reflexivity.
  - apply (bool_decide_eq_false_1 _). reflexivity.
  - exact Hrun.
Defined.

(** C5 at an account whose age arrives as a string: the name is decoded,
    the age fails, the admin flag is never looked at. *)
Lemma Struct_fail_fast_witness :
  Struct Demo.accountType Demo.oddObject (Zero Demo.Account) tt Demo.root
  = ([CallBuildValue (Some Demo.StringType) (Demo.WireString "Eve")
        (VString "") tt (Demo.atName "name");
      CallBuildValue (Some Demo.NumberType) (Demo.WireString "forty")
        (VInt64 0) tt (Demo.atName "age")],
     Returns (Zero Demo.Account,
              [Demo.conversionError (Demo.atName "age")
                 "cannot reflect the value into the target"])).
Proof.
  refine (proj2 (@Struct_fail_fast Demo.tftypes Demo.provider Demo.accountType
                   Demo.oddObject (Zero Demo.Account) tt Demo.root
                   (Demo.accountSchema None) (Demo.wireAs Demo.oddObject).1
                   [Demo.nameField] Demo.ageField [Demo.adminField]
                   [CallBuildValue (Some Demo.StringType)
                      (Demo.WireString "Eve") (VString "") tt
                      (Demo.atName "name")]
                   (VStruct Demo.Account
                      [VStruct Demo.Person [VString "Eve"; VInt64 0];
                       VBool false])
                   [] _ _ _ _ _ _ _)
                (Some Demo.NumberType) (VInt64 0) _ _ _);
    reflexivity.
Defined.

(** C7 at an account whose type rejects the assembled object: the hook is
    called on it after the three turns of the loop, and nothing is
    rebuilt. *)
Lemma FromStruct_validates_assembled_witness :
  calls (FromStruct (Demo.accountSchema (Some [Demo.root])) Demo.eve Demo.root)
  = (Demo.eveTurn (Demo.accountSchema (Some [Demo.root])) Demo.StringType
       (VString "Eve") (Demo.WireString "Eve") "name"
     ++ Demo.eveTurn (Demo.accountSchema (Some [Demo.root])) Demo.NumberType
          (VInt64 41) (Demo.WireNumber 41) "age"
     ++ Demo.eveTurn (Demo.accountSchema (Some [Demo.root])) Demo.BoolType
          (VBool true) (Demo.WireBool true) "admin")
    ++ [CallValidate (Demo.accountSchema (Some [Demo.root])) Demo.eveObject
          Demo.root] /\
  outcome (FromStruct (Demo.accountSchema (Some [Demo.root])) Demo.eve
             Demo.root)
  = Returns (None, [Demo.rejected Demo.root]).
Proof.
  destruct (@FromStruct_validates_assembled Demo.tftypes Demo.provider
              (Demo.accountSchema (Some [Demo.root])) Demo.eve Demo.root
              (fun _ p => if bool_decide (p ∈ [Demo.root])
                          then [Demo.rejected p] else [])
              (Demo.eveTurn (Demo.accountSchema (Some [Demo.root]))
                 Demo.StringType (VString "Eve") (Demo.WireString "Eve")
                 "name"
               ++ Demo.eveTurn (Demo.accountSchema (Some [Demo.root]))
                    Demo.NumberType (VInt64 41) (Demo.WireNumber 41) "age"
               ++ Demo.eveTurn (Demo.accountSchema (Some [Demo.root]))
                    Demo.BoolType (VBool true) (Demo.WireBool true) "admin")
              [] Demo.eveTypes Demo.eveValues) as [Hcalls Hout].
  - reflexivity.
  - reflexivity.
  - split; [exact Hcalls|]. apply Hout. reflexivity.
Defined.

(** C8 at a struct with the names name and extra and a directory that
    declares name alone: the dispatcher is called for extra with a nil
    type, it reports no error, and the missing-type diagnostic follows. *)
Lemma FromStruct_dispatches_before_lookup_witness :
  @FromStruct Demo.tftypes Demo.provider
    (Demo.mkObjectType true None Demo.nameAttrs) Demo.anaWithExtra Demo.root
  = ([CallFromValue (Some Demo.StringType) (VString "Ana")
        (Demo.atName "name");
      CallTerraformType Demo.StringType;
      CallToTerraformValue (Demo.WireString "Ana");
      CallFromValue None (VString "more") (Demo.atName "extra")],
     Returns
       (None,
        [AttributeErrorDiagnostic (Demo.atName "extra")
              "Value Conversion Error"
              (conversionErrorDetail
               +:+ missingTypeError
                     (Demo.mkObjectType true None Demo.nameAttrs)
                     (Demo.atName "extra"))])).
Proof.
  refine (@FromStruct_dispatches_before_lookup Demo.tftypes Demo.provider
           (Demo.mkObjectType true None Demo.nameAttrs) Demo.anaWithExtra
           Demo.root [mkField "name" [0]] (mkField "extra" [1]) []
           [CallFromValue (Some Demo.StringType) (VString "Ana")
              (Demo.atName "name");
            CallTerraformType Demo.StringType;
            CallToTerraformValue (Demo.WireString "Ana")]
           [] (<["name" := Demo.WString]> ∅)
           (<["name" := Demo.WireString "Ana"]> ∅) (VString "more") _ _ _ _);
    reflexivity.
Defined.

(** C9 at an account whose type rejects the age: the hook is called on the
    wire form of the age at the path of the age, and the admin flag is
    never looked at. *)
Lemma FromStruct_validates_each_field_witness :
  @FromStruct Demo.tftypes Demo.provider
    (Demo.accountSchema (Some [Demo.atName "age"])) Demo.eve Demo.root
  = (Demo.eveTurn (Demo.accountSchema (Some [Demo.atName "age"])) Demo.StringType
       (VString "Eve") (Demo.WireString "Eve") "name"
     ++ Demo.eveTurn (Demo.accountSchema (Some [Demo.atName "age"]))
          Demo.NumberType (VInt64 41) (Demo.WireNumber 41) "age",
     Returns (None, [Demo.rejected (Demo.atName "age")])).
Proof.
  refine (proj1 (@FromStruct_validates_each_field Demo.tftypes Demo.provider
                   (Demo.accountSchema (Some [Demo.atName "age"])) Demo.eve
                   Demo.root
                   (fun _ p => if bool_decide (p ∈ [Demo.atName "age"])
                               then [Demo.rejected p] else [])
                   [Demo.nameField] Demo.ageField [Demo.adminField]
                   (Demo.eveTurn (Demo.accountSchema (Some [Demo.atName "age"]))
                      Demo.StringType (VString "Eve") (Demo.WireString "Eve")
                      "name")
                   [] (<["name" := Demo.WString]> ∅)
                   (<["name" := Demo.WireString "Eve"]> ∅)
                   (VInt64 41) Demo.NumberType (Demo.WireNumber 41) []
                   (Demo.WireNumber 41) _ _ _ _ _ _ _ _) _);
    reflexivity.
Defined.

(** C10 at a person and a directory that holds one name more: the object
    handed to the type has the attributes name and age, no other. *)
Lemma FromStruct_object_attributes_witness :
  exists (objTypes : gmap string Demo.ty) (objValues : gmap string Demo.wire),
    Demo.anaObject = NewObjectValue objTypes objValues /\
    dom objTypes = list_to_set (fieldNames (typeFields (TypeOf Demo.ana))) /\
    dom objValues = list_to_set (fieldNames (typeFields (TypeOf Demo.ana))).
Proof.
  apply (@FromStruct_object_attributes Demo.tftypes Demo.provider
           (Demo.mkObjectType false None Demo.zuluAttrs) Demo.ana Demo.root
           (Demo.ObjectType false None Demo.zuluAttrs) Demo.anaObject).
  left. apply (list_elem_of_lookup_2 _ 6). reflexivity.
Defined.


(** The record the round trip gives for an account is the account. *)
Example round_trip_account :
  outcome (Struct Demo.accountType Demo.eveObject (Zero Demo.Account) tt
             Demo.root)
  = Returns (Demo.eve, []).
Proof. reflexivity. Qed.


(** C3 at a person, an object with the key zulu and a directory with
    the entry zulu. *)
Lemma unmatched_attribute_witness :
  ("zulu" ∈ elements (dom (Demo.wireAs Demo.zuluObject).1
                      ∖ dom (fields_nameIndex
                               (typeFields (TypeOf (Zero Demo.Person))))) /\
   ("Object defines fields not found in struct: zulu."
    ∈ mismatchSentences
        (elements (dom (fields_nameIndex
                          (typeFields (TypeOf (Zero Demo.Person))))
                   ∖ dom (Demo.wireAs Demo.zuluObject).1))
        (elements (dom (Demo.wireAs Demo.zuluObject).1
                   ∖ dom (fields_nameIndex
                            (typeFields (TypeOf (Zero Demo.Person))))))) /\
   Struct Demo.personType Demo.zuluObject (Zero Demo.Person) tt Demo.root
   = ([], Returns (Zero Demo.Person,
                   [incompatible Demo.zuluObject (Zero Demo.Person) Demo.root
                      (mismatchError
                         (elements
                            (dom (fields_nameIndex
                                    (typeFields (TypeOf (Zero Demo.Person))))
                             ∖ dom (Demo.wireAs Demo.zuluObject).1))
                         (elements
                            (dom (Demo.wireAs Demo.zuluObject).1
                             ∖ dom (fields_nameIndex
                                      (typeFields
                                         (TypeOf (Zero Demo.Person)))))))])))
  /\
  FromStruct_fields (Demo.mkObjectType false None Demo.zuluAttrs) Demo.ana
    Demo.root
    (AttributeTypes (Demo.mkObjectType false None Demo.zuluAttrs))
    (fields_list (typeFields (TypeOf Demo.ana))) [] ∅ ∅
  = FromStruct_fields (Demo.mkObjectType false None Demo.zuluAttrs) Demo.ana
      Demo.root
      (delete "zulu"
         (AttributeTypes (Demo.mkObjectType false None Demo.zuluAttrs)))
      (fields_list (typeFields (TypeOf Demo.ana))) [] ∅ ∅ /\
  outcome (FromStruct (Demo.mkObjectType false None Demo.zuluAttrs) Demo.ana
             Demo.root)
  = Returns (Some Demo.anaObject, []).
Proof.
  refine (@unmatched_attribute Demo.tftypes Demo.provider Demo.personType
            Demo.zuluObject (Zero Demo.Person) tt Demo.root
            (Demo.mkObjectType true None Demo.personAttrs)
            (Demo.wireAs Demo.zuluObject).1
            (Demo.mkObjectType false None Demo.zuluAttrs) Demo.ana Demo.root
            []
            (<["name" := Demo.WString]> (<["age" := Demo.WNumber]> ∅))
            (<["name" := Demo.WireString "Ana"]>
               (<["age" := Demo.WireNumber 30]> ∅))
            (Some Demo.anaObject) "zulu" _ _ _ _ _ _ _ _ _ _);
    try reflexivity.
  - apply not_elem_of_dom. reflexivity.
  - intros Hname. apply list_elem_of_In in Hname.
    destruct Hname as [Hname|[Hname|[]]]; discriminate.
Defined.

(** C3 fails as stated: the directory declares zulu, the struct has no
    such field, and both engines succeed all the same, [Struct] on an
    object without zulu and [FromStruct] with a type that rebuilds what it
    is handed. *)
Lemma unmatched_attribute_accepted :
  ("zulu"
   ∈ dom (AttributeTypes (Demo.mkObjectType false None Demo.zuluAttrs))) /\
  ("zulu" ∉ fieldNames (typeFields Demo.Person)) /\
  outcome (Struct (Some (Demo.ObjectType false None Demo.zuluAttrs))
             Demo.anaObject (Zero Demo.Person) tt Demo.root)
  = Returns (Demo.ana, []) /\
  outcome (FromStruct (Demo.mkObjectType false None Demo.zuluAttrs) Demo.ana
             Demo.root)
  = Returns (Some Demo.anaObject, []).
Proof.
  split; [reflexivity|].
  split; [|split; reflexivity].
  intros Hin. apply list_elem_of_In in Hin. simpl in Hin.
  destruct Hin as [Hin|[Hin|[]]]; discriminate.
Qed.

(** C4 at a struct with the names name and extra, an object and a
    directory that know name and age; the other object has the keys name
    and extra. *)
Lemma undeclared_field_fails_witness :
  (outcome (Struct Demo.personType Demo.extraObject (Zero Demo.WithExtra) tt
              Demo.root) = Panics \/
   exists diags : Diagnostics,
     outcome (Struct Demo.personType Demo.extraObject (Zero Demo.WithExtra)
                tt Demo.root)
     = Returns (Zero Demo.WithExtra, diags) /\
     HasError diags = true) /\
  (outcome (FromStruct (Demo.mkObjectType true None Demo.personAttrs)
              Demo.anaWithExtra Demo.root) = Panics \/
   exists diags : Diagnostics,
     outcome (FromStruct (Demo.mkObjectType true None Demo.personAttrs)
                Demo.anaWithExtra Demo.root) = Returns (None, diags) /\
     diags ≠ []) /\
  ("extra" ∈ elements (dom (fields_nameIndex
                              (typeFields (TypeOf (Zero Demo.WithExtra))))
                       ∖ dom (Demo.wireAs Demo.anaObject).1)) /\
  ("Struct defines fields not found in object: extra."
   ∈ mismatchSentences
       (elements (dom (fields_nameIndex
                         (typeFields (TypeOf (Zero Demo.WithExtra))))
                  ∖ dom (Demo.wireAs Demo.anaObject).1))
       (elements (dom (Demo.wireAs Demo.anaObject).1
                  ∖ dom (fields_nameIndex
                           (typeFields (TypeOf (Zero Demo.WithExtra))))))) /\
  Struct Demo.personType Demo.anaObject (Zero Demo.WithExtra) tt Demo.root
  = ([], Returns (Zero Demo.WithExtra,
                  [incompatible Demo.anaObject (Zero Demo.WithExtra) Demo.root
                     (mismatchError
                        (elements
                           (dom (fields_nameIndex
                                   (typeFields
                                      (TypeOf (Zero Demo.WithExtra))))
                            ∖ dom (Demo.wireAs Demo.anaObject).1))
                        (elements
                           (dom (Demo.wireAs Demo.anaObject).1
                            ∖ dom (fields_nameIndex
                                     (typeFields
                                        (TypeOf (Zero Demo.WithExtra)))))))])).
Proof.
  destruct (@undeclared_field_fails Demo.tftypes Demo.provider
              Demo.personType Demo.anaObject (Zero Demo.WithExtra) tt
              Demo.root (Demo.mkObjectType true None Demo.personAttrs)
              (Demo.wireAs Demo.anaObject).1
              (Demo.mkObjectType true None Demo.personAttrs)
              Demo.anaWithExtra Demo.root "extra")
    as (Hdecode & Hencode & Hnamed); try reflexivity.
  - apply list_elem_of_In. right. left. reflexivity.
  - apply list_elem_of_In. right. left. reflexivity.
  - apply not_elem_of_dom. reflexivity.
  - split; [exact (Hdecode Demo.extraObject)|].
    split; [exact Hencode|exact Hnamed].
Defined.

(** C4 fails as stated: the struct declares a name that the directory
    lacks, and the diagnostic is not the one that names it so.  [Struct],
    on an object that has the key extra, stops at the missing-type
    diagnostic, and [FromStruct], with a directory that declares name a
    number, stops at the name: neither diagnostic mentions extra.  With a
    counter as the only field and an empty directory, [FromStruct] returns
    what the dispatcher reports for a nil type, and not the missing-type
    diagnostic. *)
Lemma undeclared_field_not_named :
  ("extra" ∈ fieldNames (typeFields Demo.WithExtra)) /\
  Demo.nameAttrs !! "extra" = None /\
  outcome (Struct (Some (Demo.ObjectType true None Demo.nameAttrs))
             Demo.extraObject (Zero Demo.WithExtra) tt Demo.root)
  = Returns (Zero Demo.WithExtra,
             [missingTypeDiag (Some (Demo.ObjectType true None Demo.nameAttrs))
                Demo.extraObject (Zero Demo.WithExtra) Demo.root]) /\
  mentions "extra"
    (missingTypeDiag (Some (Demo.ObjectType true None Demo.nameAttrs))
       Demo.extraObject (Zero Demo.WithExtra) Demo.root) = false /\
  Demo.numberAttrs !! "extra" = None /\
  outcome (FromStruct (Demo.mkObjectType true None Demo.numberAttrs)
             Demo.anaWithExtra Demo.root)
  = Returns (None,
             [Demo.conversionError (Demo.atName "name")
                "cannot use the value with the declared type"]) /\
  mentions "extra"
    (Demo.conversionError (Demo.atName "name")
       "cannot use the value with the declared type") = false /\
  outcome (FromStruct (Demo.mkObjectType true None ∅) Demo.seven Demo.root)
  = Returns (None,
             [Demo.conversionError (Demo.atName "count")
                "cannot use the value with the declared type"]) /\
  Demo.conversionError (Demo.atName "count")
    "cannot use the value with the declared type"
  ≠ AttributeErrorDiagnostic (Demo.atName "count") "Value Conversion Error"
      (conversionErrorDetail
       +:+ missingTypeError (Demo.mkObjectType true None ∅)
             (Demo.atName "count")).
Proof.
  split; [apply list_elem_of_In; right; left; reflexivity|].
  repeat split; try reflexivity. discriminate.
Qed.

(** * Worked examples of the further properties *)

(** X1 at an object that is unknown. *)
Lemma Struct_unmarshal_error_witness :
  Struct Demo.personType (Demo.WireUnknown (Demo.WObject ∅))
    (Zero Demo.Person) tt Demo.root
  = ([], Returns (Zero Demo.Person,
                  [incompatible (Demo.WireUnknown (Demo.WObject ∅))
                     (Zero Demo.Person) Demo.root
                     "unmarshaling unknown values is not supported"])).
Proof.
  refine (@Struct_unmarshal_error Demo.tftypes Demo.provider Demo.personType
            (Demo.WireUnknown (Demo.WObject ∅)) (Zero Demo.Person) tt
            Demo.root (Demo.mkObjectType true None Demo.personAttrs)
            ∅ "unmarshaling unknown values is not supported" _ _ _ _);
    reflexivity.
Defined.

(** X3 at a person that holds values already: they are not read. *)
Lemma Struct_reads_only_the_type_witness :
  Struct Demo.personType Demo.anaObject
    (VStruct Demo.Person [VString "Eve"; VInt64 41]) tt Demo.root
  = (calls (Struct Demo.personType Demo.anaObject (Zero Demo.Person) tt
              Demo.root),
     Returns (Demo.ana, [])).
Proof.
  refine (@Struct_reads_only_the_type Demo.tftypes Demo.provider
            Demo.personType Demo.anaObject (Zero Demo.Person)
            (VStruct Demo.Person [VString "Eve"; VInt64 41]) tt Demo.root _).
  reflexivity.
Defined.

(** X4 at a person. *)
Lemma Struct_converts_each_field_once_witness :
  Forall2 (fun fld c =>
             exists (attrType : option Demo.schema) (slot : GoValue),
               Demo.personAttrs !! field_name fld = Some attrType /\
               c = CallBuildValue attrType
                     (default Demo.WireZero
                        ((Demo.wireAs Demo.anaObject).1 !! field_name fld))
                     slot tt (AtName Demo.root (field_name fld)))
          [Demo.personName; Demo.personAge]
          (calls (Struct Demo.personType Demo.anaObject (Zero Demo.Person)
                    tt Demo.root)).
Proof.
  refine (@Struct_converts_each_field_once Demo.tftypes Demo.provider
            Demo.personType Demo.anaObject (Zero Demo.Person) tt Demo.root
            (Demo.mkObjectType true None Demo.personAttrs) Demo.ana [] _ _ _);
    reflexivity.
Defined.

(** X5 with the talkative provider: a person is decoded with a warning
    for each field. *)
Lemma Struct_appends_each_report_witness :
  [Demo.noted (Demo.atName "name"); Demo.noted (Demo.atName "age")]
  = foldl Append []
      (@reported Demo.tftypes Demo.talkative
         <$> calls (@Struct Demo.tftypes Demo.talkative Demo.personType
                      Demo.anaObject (Zero Demo.Person) tt Demo.root)).
Proof.
  refine (@Struct_appends_each_report Demo.tftypes Demo.talkative
            Demo.personType Demo.anaObject (Zero Demo.Person) tt Demo.root
            Demo.ana
            [Demo.noted (Demo.atName "name"); Demo.noted (Demo.atName "age")]
            _ _); reflexivity.
Defined.

(** X6 at a struct with a field opted out, which holds 7 in the target. *)
Lemma Struct_leaves_other_slots_zero_witness :
  fieldByIndex (VStruct Demo.Cached [VString "Ana"; VInt64 0]) [1]
  = fieldByIndex (Zero (TypeOf Demo.anaCached)) [1].
Proof.
  refine (@Struct_leaves_other_slots_zero Demo.tftypes Demo.provider
            (Some (Demo.ObjectType true None Demo.nameAttrs))
            Demo.nameObject Demo.anaCached tt Demo.root
            (VStruct Demo.Cached [VString "Ana"; VInt64 0]) [] [1] _ _ _);
    try reflexivity.
  intros fld Hfld. apply list_elem_of_In in Hfld.
  destruct Hfld as [<-|[]]. reflexivity.
Defined.

(** X7 at a person. *)
Lemma Struct_sets_what_was_converted_witness :
  Forall (fun fld =>
            exists (attrType : option Demo.schema) (slot : GoValue),
              Demo.personAttrs !! field_name fld = Some attrType /\
              fieldByIndex (Zero Demo.Person) (field_index fld) = Some slot /\
              fieldByIndex Demo.ana (field_index fld)
              = Some (Demo.demoBuildValue attrType
                        (default Demo.WireZero
                           ((Demo.wireAs Demo.anaObject).1
                              !! field_name fld))
                        slot tt (AtName Demo.root (field_name fld))).1)
         [Demo.personName; Demo.personAge].
Proof.
  refine (@Struct_sets_what_was_converted Demo.tftypes Demo.provider
            Demo.personType Demo.anaObject (Zero Demo.Person) tt Demo.root
            (Demo.mkObjectType true None Demo.personAttrs) Demo.ana []
            _ _ _ _); reflexivity.
Defined.

(** X8 with the careless provider: the age of a person is decoded into a
    string. *)
Lemma Struct_wrong_type_panics_witness :
  @Struct Demo.tftypes Demo.careless Demo.personType Demo.anaObject
    (Zero Demo.Person) tt Demo.root
  = ([@CallBuildValue Demo.tftypes Demo.careless (Some Demo.StringType)
        (Demo.WireString "Ana") (VString "") tt (Demo.atName "name");
      @CallBuildValue Demo.tftypes Demo.careless (Some Demo.NumberType)
        (Demo.WireNumber 30) (VInt64 0) tt (Demo.atName "age")],
     Panics).
Proof.
  refine (@Struct_wrong_type_panics Demo.tftypes Demo.careless
            Demo.personType Demo.anaObject (Zero Demo.Person) tt Demo.root
            (Demo.mkObjectType true None Demo.personAttrs)
            (Demo.wireAs Demo.anaObject).1
            [Demo.personName] Demo.personAge []
            [@CallBuildValue Demo.tftypes Demo.careless
               (Some Demo.StringType) (Demo.WireString "Ana") (VString "")
               tt (Demo.atName "name")]
            (VStruct Demo.Person [VString "Ana"; VInt64 0]) []
            (Some Demo.NumberType) (VInt64 0) _ _ _ _ _ _ _ _ _ _ _);
    reflexivity.
Defined.

(** X9 at a person and a directory with no type under age. *)
Lemma Struct_nil_declared_type_witness :
  exists more : list Call,
    calls (Struct (Some (Demo.ObjectType true None Demo.untypedAgeAttrs))
             Demo.anaObject (Zero Demo.Person) tt Demo.root)
    = [CallBuildValue (Some Demo.StringType) (Demo.WireString "Ana")
         (VString "") tt (Demo.atName "name")]
      ++ CallBuildValue None (Demo.WireNumber 30) (VInt64 0) tt
           (Demo.atName "age") :: more.
Proof.
  refine (@Struct_nil_declared_type Demo.tftypes Demo.provider
            (Some (Demo.ObjectType true None Demo.untypedAgeAttrs))
            Demo.anaObject (Zero Demo.Person) tt Demo.root
            (Demo.mkObjectType true None Demo.untypedAgeAttrs)
            (Demo.wireAs Demo.anaObject).1
            [Demo.personName] Demo.personAge []
            [CallBuildValue (Some Demo.StringType) (Demo.WireString "Ana")
               (VString "") tt (Demo.atName "name")]
            (VStruct Demo.Person [VString "Ana"; VInt64 0]) []
            (VInt64 0) _ _ _ _ _ _ _ _ _); reflexivity.
Defined.

(** X10 at the struct without fields and the object without fields. *)
Lemma Struct_no_descriptors_witness :
  Struct (Some (Demo.ObjectType true None ∅)) (Demo.WireObject ∅ ∅)
    (Zero Demo.Empty) tt Demo.root
  = ([], Returns (Zero Demo.Empty, [])).
Proof.
  refine (@Struct_no_descriptors Demo.tftypes Demo.provider
            (Some (Demo.ObjectType true None ∅)) (Demo.WireObject ∅ ∅)
            (Zero Demo.Empty) tt Demo.root
            (Demo.mkObjectType true None ∅) ∅ _ _ _ _ _ _); reflexivity.
Defined.

(** X12 at a name that the directory declares a number. *)
Lemma FromStruct_conversion_error_stops_witness :
  FromStruct (Demo.mkObjectType true None Demo.numberAttrs)
    Demo.anaWithExtra Demo.root
  = ([CallFromValue (Some Demo.NumberType) (VString "Ana")
        (Demo.atName "name")],
     Returns (None,
              [Demo.conversionError (Demo.atName "name")
                 "cannot use the value with the declared type"])).
Proof.
  refine (@FromStruct_conversion_error_stops Demo.tftypes Demo.provider
            (Demo.mkObjectType true None Demo.numberAttrs)
            Demo.anaWithExtra Demo.root
            [] (mkField "name" [0]) [mkField "extra" [1]]
            [] [] ∅ ∅ (VString "Ana") _ _ _ _); reflexivity.
Defined.

(** X13 with the careless provider: the age of a person has no wire
    form. *)
Lemma FromStruct_wire_error_stops_witness :
  @FromStruct Demo.tftypes Demo.careless
    (Demo.mkObjectType true None Demo.personAttrs) Demo.ana Demo.root
  = ([@CallFromValue Demo.tftypes Demo.careless (Some Demo.StringType)
        (VString "Ana") (Demo.atName "name");
      @CallTerraformType Demo.tftypes Demo.careless Demo.StringType;
      @CallToTerraformValue Demo.tftypes Demo.careless
        (Demo.WireString "Ana")]
     ++ [@CallFromValue Demo.tftypes Demo.careless (Some Demo.NumberType)
           (VInt64 30) (Demo.atName "age");
         @CallTerraformType Demo.tftypes Demo.careless Demo.NumberType;
         @CallToTerraformValue Demo.tftypes Demo.careless
           (Demo.WireUnknown Demo.WNumber)],
     Returns (None,
              [Demo.conversionError (Demo.atName "age")
                 "the value has no wire form"])).
Proof.
  refine (@FromStruct_wire_error_stops Demo.tftypes Demo.careless
            (Demo.mkObjectType true None Demo.personAttrs) Demo.ana
            Demo.root [Demo.personName] Demo.personAge []
            [@CallFromValue Demo.tftypes Demo.careless
               (Some Demo.StringType) (VString "Ana") (Demo.atName "name");
             @CallTerraformType Demo.tftypes Demo.careless Demo.StringType;
             @CallToTerraformValue Demo.tftypes Demo.careless
               (Demo.WireString "Ana")]
            [] (<["name" := Demo.WString]> ∅)
            (<["name" := Demo.WireString "Ana"]> ∅)
            (VInt64 30) Demo.NumberType (Demo.WireUnknown Demo.WNumber) []
            Demo.WireZero "the value has no wire form" _ _ _ _ _ _ _);
    reflexivity.
Defined.

(** X14 with the careless provider: a flag is encoded into no value. *)
Lemma FromStruct_nil_value_panics_witness :
  @FromStruct Demo.tftypes Demo.careless
    (Demo.mkObjectType true None Demo.flagAttrs)
    (VStruct Demo.Flag [VBool true]) Demo.root
  = ([@CallFromValue Demo.tftypes Demo.careless (Some Demo.BoolType)
        (VBool true) (Demo.atName "on");
      @CallTerraformType Demo.tftypes Demo.careless Demo.BoolType],
     Panics).
Proof.
  refine (@FromStruct_nil_value_panics Demo.tftypes Demo.careless
            (Demo.mkObjectType true None Demo.flagAttrs)
            (VStruct Demo.Flag [VBool true]) Demo.root
            [] (mkField "on" [0]) [] [] [] ∅ ∅ (VBool true) Demo.BoolType []
            _ _ _ _ _ _); reflexivity.
Defined.

(** X15 at a person and a strict type whose directory has one entry
    more. *)
Lemma FromStruct_rebuild_error_witness :
  outcome (FromStruct (Demo.mkObjectType true None Demo.zuluAttrs) Demo.ana
             Demo.root)
  = Returns (None,
             [Demo.conversionError Demo.root "unexpected attributes"]).
Proof.
  refine (@FromStruct_rebuild_error Demo.tftypes Demo.provider
            (Demo.mkObjectType true None Demo.zuluAttrs) Demo.ana Demo.root
            (calls (FromStruct_fields
                      (Demo.mkObjectType true None Demo.zuluAttrs) Demo.ana
                      Demo.root Demo.zuluAttrs
                      [Demo.personName; Demo.personAge] [] ∅ ∅))
            []
            (<["name" := Demo.WString]> (<["age" := Demo.WNumber]> ∅))
            (<["name" := Demo.WireString "Ana"]>
               (<["age" := Demo.WireNumber 30]> ∅))
            None "unexpected attributes" _ _ _); reflexivity.
Defined.

(** X16 at a person. *)
Lemma FromStruct_object_types_witness :
  Forall (fun name =>
            exists attrType : Demo.schema,
              Demo.personAttrs !! name = Some (Some attrType) /\
              (<["name" := Demo.WString]> (<["age" := Demo.WNumber]> ∅)
               : gmap string Demo.ty) !! name
              = Some (Demo.demoTerraformType attrType))
         ["name"; "age"].
Proof.
  refine (@FromStruct_object_types Demo.tftypes Demo.provider
            (Demo.mkObjectType true None Demo.personAttrs) Demo.ana Demo.root
            (calls (FromStruct_fields
                      (Demo.mkObjectType true None Demo.personAttrs) Demo.ana
                      Demo.root Demo.personAttrs
                      [Demo.personName; Demo.personAge] [] ∅ ∅))
            []
            (<["name" := Demo.WString]> (<["age" := Demo.WNumber]> ∅))
            (<["name" := Demo.WireString "Ana"]>
               (<["age" := Demo.WireNumber 30]> ∅)) _); reflexivity.
Defined.

(** X17 at a person. *)
Lemma FromStruct_object_values_witness :
  Forall (fun fld =>
            exists (fv : GoValue) (attrType : Demo.schema)
                   (attrVal : Demo.wire),
              fieldByIndex Demo.ana (field_index fld) = Some fv /\
              Demo.personAttrs !! field_name fld = Some (Some attrType) /\
              (Demo.demoFromValue (Some attrType) fv
                 (AtName Demo.root (field_name fld))).1 = Some attrVal /\
              (<["name" := Demo.WireString "Ana"]>
                 (<["age" := Demo.WireNumber 30]> ∅)
               : gmap string Demo.wire) !! field_name fld
              = Some attrVal)
         [Demo.personName; Demo.personAge].
Proof.
  refine (@FromStruct_object_values Demo.tftypes Demo.provider
            (Demo.mkObjectType true None Demo.personAttrs) Demo.ana Demo.root
            (calls (FromStruct_fields
                      (Demo.mkObjectType true None Demo.personAttrs) Demo.ana
                      Demo.root Demo.personAttrs
                      [Demo.personName; Demo.personAge] [] ∅ ∅))
            []
            (<["name" := Demo.WString]> (<["age" := Demo.WNumber]> ∅))
            (<["name" := Demo.WireString "Ana"]>
               (<["age" := Demo.WireNumber 30]> ∅)) _ _); [|reflexivity].
  apply (bool_decide_unpack (NoDup _)). exact I.
Defined.

(** X18 with the talkative provider: a person is encoded with a
    warning of the dispatcher and one of the hook for each field, and
    one of the hook for the object. *)
Lemma FromStruct_appends_each_report_witness :
  [Demo.noted (Demo.atName "name"); Demo.looked (Demo.atName "name");
   Demo.noted (Demo.atName "age"); Demo.looked (Demo.atName "age");
   Demo.looked Demo.root]
  = foldl Append []
      (@reported Demo.tftypes Demo.talkative
         <$> List.filter (@reports Demo.tftypes Demo.talkative)
               (calls (@FromStruct Demo.tftypes Demo.talkative
                         (Demo.mkObjectType true None Demo.personAttrs)
                         Demo.ana Demo.root))) /\
  HasError
    [Demo.noted (Demo.atName "name"); Demo.looked (Demo.atName "name");
     Demo.noted (Demo.atName "age"); Demo.looked (Demo.atName "age");
     Demo.looked Demo.root]
  = false.
Proof.
  refine (@FromStruct_appends_each_report Demo.tftypes Demo.talkative
            (Demo.mkObjectType true None Demo.personAttrs) Demo.ana
            Demo.root Demo.anaObject
            [Demo.noted (Demo.atName "name");
             Demo.looked (Demo.atName "name");
             Demo.noted (Demo.atName "age");
             Demo.looked (Demo.atName "age");
             Demo.looked Demo.root] _). reflexivity.
Defined.

(** X19 at two records that differ in the field opted out. *)
Lemma FromStruct_reads_only_descriptors_witness :
  FromStruct (Demo.mkObjectType true None Demo.nameAttrs)
    (VStruct Demo.Cached [VString "Ana"; VInt64 0]) Demo.root
  = FromStruct (Demo.mkObjectType true None Demo.nameAttrs) Demo.anaCached
      Demo.root.
Proof.
  refine (@FromStruct_reads_only_descriptors Demo.tftypes Demo.provider
            (Demo.mkObjectType true None Demo.nameAttrs) Demo.anaCached
            (VStruct Demo.Cached [VString "Ana"; VInt64 0]) Demo.root _ _).
  - reflexivity.
  - repeat constructor.
Defined.

(** X20 at a person: decoded, then encoded again. *)
Lemma FromStruct_Struct_round_trip_witness :
  exists (log : list Call) (encoded : Diagnostics)
         (objTypes : gmap string Demo.ty),
    FromStruct_fields (Demo.mkObjectType true None Demo.personAttrs)
      Demo.ana Demo.root Demo.personAttrs
      (fields_list (typeFields (TypeOf Demo.ana))) [] ∅ ∅
    = (log, Returns (Next (encoded, objTypes,
                           (Demo.wireAs Demo.anaObject).1))).
Proof.
  refine (@FromStruct_Struct_round_trip Demo.tftypes Demo.provider
            Demo.personType (Demo.mkObjectType true None Demo.personAttrs)
            Demo.anaObject (Zero Demo.Person) Demo.ana tt Demo.root []
            _ _ _ _ _ _ _); try reflexivity.
  - apply (bool_decide_unpack (NoDup _)). exact I.
  - repeat constructor.
    + exists Demo.StringType, (Demo.WireString "Ana"), (VString ""),
        (Demo.WireString "Ana"). repeat split; reflexivity.
    + exists Demo.NumberType, (Demo.WireNumber 30), (VInt64 0),
        (Demo.WireNumber 30). repeat split; reflexivity.
Defined.
